(** * RedditPodcast: run orchestrator and background scheduler

    A shallow embedding of the parts of the repository that sequence one
    analysis run (News_agent_v3/workflow.py, reddit_fetcher.py, utils.py,
    telegram_sender.py) and that own the daily schedule
    (News_agent/scheduler.py, News_agent/utils.py), followed by the
    properties of these functions.

    Python strings are [string]s: one [ascii] per character.  Literals that
    hold characters outside ASCII (the emoji of the log and marker texts) are
    kept as they are in the source, so such a character occupies several
    positions of the literal; every length the code compares ([len(analysis)],
    the slices of bodies) is the length of a text that comes from a provider.
    Exceptions are a class and a message; [except Exception] catches every
    class modelled here.  The [print] calls of the code are left out. *)

From Stdlib Require Import ZArith List String Ascii Bool Lia.
From Stdlib Require Import Sorting.Sorted Sorting.Permutation.
From Stdlib Require Import DecimalString DecimalPos DecimalZ.
Import ListNotations.

Set Implicit Arguments.

Open Scope string_scope.

(* ================================================================== *)
(** ** Python primitives                                                *)
(* ================================================================== *)

Module Py.

(** Exception classes the code raises or names in an [except] clause. *)
Inductive exn_class :=
| ValueError | OSError | AttributeError | TypeError | ZoneInfoNotFoundError
| ProviderError.

Record exn := Exn { exn_cls : exn_class; exn_msg : string }.

(** [str(e)]. *)
Definition str_exn (e : exn) : string := exn_msg e.

(** The outcome of evaluating an expression or a call. *)
Inductive outcome (A : Type) :=
| Ret (a : A)
| Raise (e : exn).
Arguments Ret {A} a.
Arguments Raise {A} e.

Definition is_ret {A} (o : outcome A) : bool :=
  match o with Ret _ => true | Raise _ => false end.

(** *** Characters and strings *)

(** [str.isspace] on the ASCII range: tab, LF, VT, FF, CR, FS, GS, RS, US
    and space. *)
Definition is_space (c : ascii) : bool :=
  let n := nat_of_ascii c in
  (((9 <=? n) && (n <=? 13)) || ((28 <=? n) && (n <=? 32)))%nat.

Definition LF : string := String (ascii_of_nat 10) EmptyString.

Fixpoint lstrip (s : string) : string :=
  match s with
  | EmptyString => EmptyString
  | String c r => if is_space c then lstrip r else s
  end.

Fixpoint string_rev_onto (s acc : string) : string :=
  match s with
  | EmptyString => acc
  | String c r => string_rev_onto r (String c acc)
  end.

Definition string_rev (s : string) : string := string_rev_onto s EmptyString.

Definition rstrip (s : string) : string := string_rev (lstrip (string_rev s)).

(** [s.strip()], for the whitespace of the ASCII range. *)
Definition strip (s : string) : string := rstrip (lstrip s).

(** [c in s] for a one-character needle. *)
Fixpoint contains_char (c : ascii) (s : string) : bool :=
  match s with
  | EmptyString => false
  | String d r => Ascii.eqb c d || contains_char c r
  end.

(** [s.split(sep)] for a one-character separator: always at least one
    piece. *)
Fixpoint split_on (sep : ascii) (s : string) : list string :=
  match s with
  | EmptyString => [EmptyString]
  | String c r =>
      if Ascii.eqb c sep then EmptyString :: split_on sep r
      else match split_on sep r with
           | [] => [String c EmptyString]
           | p :: ps => String c p :: ps
           end
  end.

(** [s.split(sep, 1)] when [sep in s]: the text before the first separator
    and the text after it. *)
Fixpoint split_once (sep : ascii) (s : string) : string * string :=
  match s with
  | EmptyString => (EmptyString, EmptyString)
  | String c r =>
      if Ascii.eqb c sep then (EmptyString, r)
      else let (a, b) := split_once sep r in (String c a, b)
  end.

(** [s.replace(c, r)] for a one-character pattern. *)
Fixpoint replace_char (c : ascii) (r : string) (s : string) : string :=
  match s with
  | EmptyString => EmptyString
  | String d t =>
      if Ascii.eqb c d then r ++ replace_char c r t
      else String d (replace_char c r t)
  end.

(** [s[:n]] for a literal [n >= 0]. *)
Fixpoint take (n : nat) (s : string) : string :=
  match n, s with
  | S k, String c r => String c (take k r)
  | _, _ => EmptyString
  end.

(** [s.count(pat)]: occurrences that do not overlap, from the left. *)
Fixpoint count_from (pat s : string) (skip : nat) : nat :=
  match s with
  | EmptyString => 0
  | String _ r =>
      match skip with
      | S k => count_from pat r k
      | O => if prefix pat s
             then S (count_from pat r (String.length pat - 1))
             else count_from pat r 0
      end
  end.

Definition count (s pat : string) : nat := count_from pat s 0.

(** [sep.join(l)]. *)
Fixpoint join (sep : string) (l : list string) : string :=
  match l with
  | [] => EmptyString
  | [x] => x
  | x :: r => x ++ sep ++ join sep r
  end.

(** [c * n] for a one-character string. *)
Fixpoint repeat_char (c : ascii) (n : nat) : string :=
  match n with O => EmptyString | S k => String c (repeat_char c k) end.

(** Truthiness of a [str]. *)
Definition truthy (s : string) : bool :=
  match s with EmptyString => false | _ => true end.

(** *** Integers *)

(** [str(n)] and [f"{n}"]. *)
Definition str_int (z : Z) : string := NilZero.string_of_int (Z.to_int z).

(** [f"{n:02d}"]. *)
Definition fmt_02d (z : Z) : string :=
  if ((0 <=? z) && (z <? 10))%Z then "0" ++ str_int z else str_int z.

Definition digit_of (c : ascii) : option Z :=
  let n := nat_of_ascii c in
  if ((48 <=? n) && (n <=? 57))%nat then Some (Z.of_nat (n - 48)) else None.

(** The digits of an [int] literal: groups of digits separated by single
    underscores.  [prev] tells whether the previous character was a digit. *)
Fixpoint parse_digits (s : string) (acc : Z) (prev : bool) : option Z :=
  match s with
  | EmptyString => if prev then Some acc else None
  | String c r =>
      match digit_of c with
      | Some d => parse_digits r (10 * acc + d)%Z true
      | None =>
          if Ascii.eqb c "_"%char && prev then parse_digits r acc false
          else None
      end
  end.

(** [int(s)] for a [str]: surrounding whitespace, an optional sign, decimal
    digits.  [None] is [ValueError].  (Digits outside ASCII, which Python
    also accepts, are not modelled.) *)
Definition int_of_str (s : string) : option Z :=
  match strip s with
  | String "-" r => option_map Z.opp (parse_digits r 0%Z false)
  | String "+" r => parse_digits r 0%Z false
  | t => parse_digits t 0%Z false
  end.

(** *** Lists *)

(** [l[:n]] for an [int] that may be negative. *)
Definition slice_to {A} (n : Z) (l : list A) : list A :=
  if (0 <=? n)%Z then firstn (Z.to_nat n) l
  else firstn (List.length l - Z.to_nat (- n)) l.

(** Stable insertion into a list sorted by ascending key: the new element
    goes before the first element whose key is strictly greater, and so
    after every element of equal key. *)
Fixpoint insert_asc {A} (key : A -> Z) (x : A) (l : list A) : list A :=
  match l with
  | [] => [x]
  | y :: r => if (key y <=? key x)%Z then y :: insert_asc key x r
              else x :: l
  end.

(** A stable ascending sort: elements are inserted in encounter order. *)
Definition sort_asc {A} (key : A -> Z) (l : list A) : list A :=
  fold_left (fun acc x => insert_asc key x acc) l [].

(** [sorted(l, key=key, reverse=True)].  As in CPython, [reverse=True]
    reverses the list, sorts it stably in ascending order and reverses the
    result. *)
Definition sorted_reverse {A} (key : A -> Z) (l : list A) : list A :=
  rev (sort_asc key (rev l)).

End Py.

(* ================================================================== *)
(** ** Marker characters of reddit_fetcher.py                           *)
(* ================================================================== *)

(** The literal marker characters of News_agent_v3/reddit_fetcher.py,
    as the file has them. *)
Module Mark.

Definition cross : string := "‚ùå".
Definition pin : string := "üìç".
Definition thumbs_up : string := "üëç".
Definition speech : string := "üí¨".
Definition memo : string := "üìù".
Definition link_mark : string := "üîó".
Definition up_arrow : string := "‚¨ÜÔ∏è".

End Mark.

(* ================================================================== *)
(** ** The world of one run and the effects of the code                 *)
(* ================================================================== *)

Module Run.
Import Py.

Abbreviation nl := Py.LF.

(** *** What the forum provider returns *)

(** A post as [subreddit.top] yields it. *)
Record Post := {
  post_title : string;
  post_score : Z;
  post_num_comments : Z;
  post_subreddit : string;
  post_permalink : string;
  post_selftext : string
}.

(** An entry of a comment's [replies]: a comment, or a [MoreComments]
    placeholder, which has neither [score] nor [body]. *)
Inductive reply :=
| Reply (score : Z) (body : string)
| MoreReplies.

Record comment := {
  c_score : Z;
  c_body : string;
  c_replies : list reply
}.

(** An entry of [submission.comments] after [replace_more(limit=1)]. *)
Inductive top_item :=
| Top (c : comment)
| MoreComments.

Record Submission := {
  sub_title : string;
  sub_subreddit : string;
  sub_score : Z;
  sub_num_comments : Z;
  sub_selftext : string;
  sub_comments : list top_item
}.

(** A fetched newsletter message. *)
Record Email := {
  em_subject : string;
  em_sender : string;
  em_date : string;
  em_body : string
}.

(** *** Files and the chat *)

(** What a file holds: text, the JSON dump of the fetched messages, a wave
    file, or what an interrupted write left behind. *)
Inductive content :=
| Text (s : string)
| EmailsJson (l : list Email)
| Wave (pcm : string)
| Broken.

(** How [open(path, 'w')] followed by the writes and the close ends: the
    file is replaced; or it cannot be opened and is left as it was; or it
    is opened (and so truncated) and a later write or the close fails. *)
Inductive write_outcome :=
| WriteOk
| OpenFails (e : exn)
| WriteFails (e : exn).

(** What reached the messaging channel. *)
Inductive tg_event :=
| TgMessage (text : string) (parse_mode : option string)
| TgDocument (path caption : string)
| TgAudio (path caption title : string).

(** The state a run changes: the file system, the chat, the seconds slept,
    and the number of provider calls made so far. *)
Record State := {
  tick : nat;
  dirs : list string;
  files : list (string * content);
  chat : list tg_event;
  slept : nat
}.

(** Generation parameters handed to the analysis provider.  The two
    floating-point parameters are carried as their text: the code only
    passes them on. *)
Record GenParams := {
  max_output_tokens : Z;
  temperature : string;
  top_p : string;
  top_k : Z;
  thinking_budget : Z
}.

(** The providers.  Every call is given the number of provider calls made
    before it, so that a provider may answer two equal requests
    differently. *)
Record World := {
  getenv : string -> option string;
  strftime_now : nat -> string -> string;
  reddit_top : nat -> string -> string -> Z -> outcome (list Post);
  reddit_submission : nat -> string -> outcome Submission;
  reddit_close : nat -> outcome unit;
  mail_fetch : nat -> string -> string -> list string -> Z -> Z
               -> outcome (list Email);
  mail_format : list Email -> Z -> outcome string;
  agent_run : nat -> string -> string -> string -> GenParams
              -> outcome string;
  tts_generate : nat -> string -> string -> string -> outcome string;
  fs_mkdir : nat -> string -> outcome unit;
  fs_write : nat -> string -> write_outcome;
  bot_new : string -> outcome unit;
  bot_send_message : nat -> string -> string -> option string
                     -> outcome unit;
  bot_send_document : nat -> string -> string -> string -> outcome unit;
  bot_send_audio : nat -> string -> string -> string -> string
                   -> outcome unit
}.

(** *** The monad of the code: state and exceptions *)

Definition M (A : Type) : Type := State -> outcome A * State.

Definition ret {A} (a : A) : M A := fun s => (Ret a, s).

Definition raise {A} (e : exn) : M A := fun s => (Raise e, s).

Definition bind {A B} (m : M A) (k : A -> M B) : M B :=
  fun s => match m s with
           | (Ret a, s') => k a s'
           | (Raise e, s') => (Raise e, s')
           end.

Notation "x <- m ;; k" := (bind m (fun x => k))
  (at level 61, m at next level, right associativity).
Notation "m ;;; k" := (bind m (fun _ => k))
  (at level 61, right associativity).

(** [try: body except Exception as e: handler]. *)
Definition try_except {A} (body : M A) (handler : exn -> M A) : M A :=
  fun s => match body s with
           | (Ret a, s') => (Ret a, s')
           | (Raise e, s') => handler e s'
           end.

(** [try: body except cls as e: handler]: other classes pass through. *)
Definition exn_class_eqb (a b : exn_class) : bool :=
  match a, b with
  | ValueError, ValueError | OSError, OSError
  | AttributeError, AttributeError | TypeError, TypeError
  | ZoneInfoNotFoundError, ZoneInfoNotFoundError
  | ProviderError, ProviderError => true
  | _, _ => false
  end.

Definition try_except_cls {A} (cls : exn_class) (body : M A)
  (handler : exn -> M A) : M A :=
  fun s => match body s with
           | (Ret a, s') => (Ret a, s')
           | (Raise e, s') =>
               if exn_class_eqb (exn_cls e) cls then handler e s'
               else (Raise e, s')
           end.

(** [try: body finally: fin]: an exception of [fin] replaces the outcome
    of [body]. *)
Definition try_finally {A} (body : M A) (fin : M unit) : M A :=
  fun s => match body s with
           | (o, s1) =>
               match fin s1 with
               | (Ret _, s2) => (o, s2)
               | (Raise e, s2) => (Raise e, s2)
               end
           end.

Definition lift {A} (o : outcome A) : M A := fun s => (o, s).

Definition next_tick (s : State) : State :=
  {| tick := S (tick s); dirs := dirs s; files := files s;
     chat := chat s; slept := slept s |}.

(** A call to a provider. *)
Definition call {A} (f : nat -> outcome A) : M A :=
  fun s => (f (tick s), next_tick s).

(** [datetime.now().strftime(fmt)]. *)
Definition now_strftime (W : World) (fmt : string) : M string :=
  fun s => (Ret (strftime_now W (tick s) fmt), next_tick s).

(** [await asyncio.sleep(n)]. *)
Definition sleep (n : nat) : M unit :=
  fun s => (Ret tt,
            {| tick := tick s; dirs := dirs s; files := files s;
               chat := chat s; slept := slept s + n |}).

Definition post (ev : tg_event) (s : State) : State :=
  {| tick := tick s; dirs := dirs s; files := files s;
     chat := chat s ++ [ev]; slept := slept s |}.

Definition add_dir (d : string) (s : State) : State :=
  {| tick := tick s;
     dirs := if existsb (String.eqb d) (dirs s) then dirs s
             else dirs s ++ [d];
     files := files s; chat := chat s; slept := slept s |}.

Fixpoint set_file (p : string) (c : content) (l : list (string * content))
  : list (string * content) :=
  match l with
  | [] => [(p, c)]
  | (q, d) :: r => if String.eqb p q then (q, c) :: r
                   else (q, d) :: set_file p c r
  end.

Definition put_file (p : string) (c : content) (s : State) : State :=
  {| tick := tick s; dirs := dirs s; files := set_file p c (files s);
     chat := chat s; slept := slept s |}.

(** [Path(d).mkdir(exist_ok=True, parents=True)]. *)
Definition mkdir (W : World) (d : string) : M unit :=
  fun s => match fs_mkdir W (tick s) d with
           | Ret _ => (Ret tt, add_dir d (next_tick s))
           | Raise e => (Raise e, next_tick s)
           end.

(** [with open(p, 'w') as f: f.write(...)]: the whole of what the block
    writes is [c]. *)
Definition write_file (W : World) (p : string) (c : content) : M unit :=
  fun s => match fs_write W (tick s) p with
           | WriteOk => (Ret tt, put_file p c (next_tick s))
           | OpenFails e => (Raise e, next_tick s)
           | WriteFails e => (Raise e, put_file p Broken (next_tick s))
           end.

(** [a / b] on paths. *)
Definition path_join (a b : string) : string := a ++ "/" ++ b.

End Run.

(* ================================================================== *)
(** ** News_agent_v3/reddit_fetcher.py                                  *)
(* ================================================================== *)

Module Fetcher.
Import Py Run.

Section WithWorld.
Variable W : World.

(** The dictionary [fetch_top_posts] keeps for a post. *)
Record post_entry := {
  pe_title : string;
  pe_score : Z;
  pe_comments : Z;
  pe_subreddit : string;
  pe_url : string;
  pe_content_preview : string
}.

(** The body of the [async for] of [fetch_top_posts]. *)
Definition entry_of_post (p : Post) : post_entry :=
  let content_preview :=
    if truthy (post_selftext p) then
      let cp := replace_char "010"%char " " (take 300 (post_selftext p)) in
      if (300 <? String.length (post_selftext p))%nat then cp ++ "..."
      else cp
    else "" in
  {| pe_title := post_title p;
     pe_score := post_score p;
     pe_comments := post_num_comments p;
     pe_subreddit := post_subreddit p;
     pe_url := "https://reddit.com" ++ post_permalink p;
     pe_content_preview := content_preview |}.

(** [for i, post in enumerate(results, i): formatted += ...]. *)
Fixpoint format_posts (i : nat) (results : list post_entry) : string :=
  match results with
  | [] => ""
  | p :: r =>
      (str_int (Z.of_nat i) ++ ". " ++ pe_title p ++ nl)
      ++ ("   " ++ Mark.pin ++ " r/" ++ pe_subreddit p ++ " | ")
      ++ (Mark.thumbs_up ++ " " ++ str_int (pe_score p) ++ " upvotes | "
          ++ Mark.speech ++ " " ++ str_int (pe_comments p) ++ " comments"
          ++ nl)
      ++ (if truthy (pe_content_preview p)
          then "   " ++ Mark.memo ++ " " ++ pe_content_preview p ++ nl
          else "")
      ++ ("   " ++ Mark.link_mark ++ " " ++ pe_url p ++ nl ++ nl)
      ++ format_posts (S i) r
  end.

(** [fetch_top_posts]: the formatted text of a board and the links of its
    posts; on any exception, the error marker and no link. *)
Definition fetch_top_posts (subreddit : string) (limit : Z)
  (time_filter : string) : M (string * list string) :=
  try_except
    (let limit := Z.min limit 10 in
     posts <- call (fun n => reddit_top W n subreddit time_filter limit) ;;
     let results := map entry_of_post posts in
     let urls := map pe_url results in
     let formatted :=
       "=== TOP POSTS from r/" ++ subreddit ++ " (" ++ time_filter
       ++ ") ===" ++ nl ++ nl ++ format_posts 1 results in
     ret (strip formatted, urls))
    (fun e =>
       let error_msg := Mark.cross ++ " Error fetching posts from r/"
                        ++ subreddit ++ ": " ++ str_exn e in
       ret (error_msg, [])).

(** [c.score] on the entries of [submission.comments]: a [MoreComments]
    entry has no such attribute. *)
Fixpoint scored_comments (l : list top_item) : outcome (list comment) :=
  match l with
  | [] => Ret []
  | MoreComments :: _ =>
      Raise (Exn AttributeError
               "'MoreComments' object has no attribute 'score'")
  | Top c :: r =>
      match scored_comments r with
      | Ret cs => Ret (c :: cs)
      | Raise e => Raise e
      end
  end.

(** [sorted(submission.comments, key=lambda c: c.score,
    reverse=True)[:top_comments_limit]]. *)
Definition top_level_comments (comments : list comment)
  (top_comments_limit : Z) : list comment :=
  slice_to top_comments_limit (sorted_reverse c_score comments).

(** [r.score if hasattr(r, 'score') else 0]. *)
Definition reply_key (r : reply) : Z :=
  match r with Reply score _ => score | MoreReplies => 0%Z end.

(** [sorted(comment.replies, key=..., reverse=True)[:replies_per_comment]]. *)
Definition top_replies (replies : list reply) (replies_per_comment : Z)
  : list reply :=
  slice_to replies_per_comment (sorted_reverse reply_key replies).

(** The loop over [top_replies]: entries with a [body] are kept. *)
Fixpoint replies_data_of (l : list reply) : list (Z * string) :=
  match l with
  | [] => []
  | Reply score body :: r =>
      let reply_text :=
        if (300 <? String.length body)%nat then take 300 body ++ "..."
        else take 300 body in
      (score, reply_text) :: replies_data_of r
  | MoreReplies :: r => replies_data_of r
  end.

Record comment_entry := {
  ce_score : Z;
  ce_text : string;
  ce_replies : list (Z * string)
}.

(** The body of the loop over [top_level_comments]. *)
Definition entry_of_comment (replies_per_comment : Z) (c : comment)
  : comment_entry :=
  let comment_text :=
    if (500 <? String.length (c_body c))%nat
    then take 500 (c_body c) ++ "..."
    else take 500 (c_body c) in
  let replies_data :=
    match c_replies c with
    | [] => []
    | _ => replies_data_of (top_replies (c_replies c) replies_per_comment)
    end in
  {| ce_score := c_score c; ce_text := comment_text;
     ce_replies := replies_data |}.

Definition comments_data (comments : list comment)
  (top_comments_limit replies_per_comment : Z) : list comment_entry :=
  map (entry_of_comment replies_per_comment)
      (top_level_comments comments top_comments_limit).

Fixpoint format_replies (i j : nat) (l : list (Z * string)) : string :=
  match l with
  | [] => ""
  | (score, text) :: r =>
      ("   " ++ str_int (Z.of_nat i) ++ "." ++ str_int (Z.of_nat j)
       ++ ". (" ++ str_int score ++ " " ++ Mark.up_arrow ++ ") " ++ text
       ++ nl)
      ++ format_replies i (S j) r
  end.

Fixpoint format_comments (i : nat) (l : list comment_entry) : string :=
  match l with
  | [] => ""
  | c :: r =>
      (str_int (Z.of_nat i) ++ ". (" ++ str_int (ce_score c) ++ " "
       ++ Mark.up_arrow ++ ") " ++ ce_text c ++ nl)
      ++ (match ce_replies c with
          | [] => ""
          | _ => ("   " ++ Mark.speech ++ " Replies ("
                  ++ str_int (Z.of_nat (List.length (ce_replies c)))
                  ++ "):" ++ nl)
                 ++ format_replies i 1 (ce_replies c)
          end)
      ++ nl
      ++ format_comments (S i) r
  end.

Definition format_submission (post_url : string) (submission : Submission)
  (data : list comment_entry) : string :=
  ("POST: " ++ sub_title submission ++ nl)
  ++ (Mark.pin ++ " r/" ++ sub_subreddit submission ++ " | ")
  ++ (Mark.thumbs_up ++ " " ++ str_int (sub_score submission)
      ++ " upvotes | " ++ Mark.speech ++ " "
      ++ str_int (sub_num_comments submission) ++ " comments" ++ nl)
  ++ (Mark.link_mark ++ " " ++ post_url ++ nl)
  ++ (if truthy (sub_selftext submission) then
        let content :=
          replace_char "010"%char " " (take 1000 (sub_selftext submission)) in
        let content :=
          if (1000 <? String.length (sub_selftext submission))%nat
          then content ++ "..." else content in
        nl ++ "Post Content:" ++ nl ++ content ++ nl ++ nl
      else "")
  ++ ("TOP " ++ str_int (Z.of_nat (List.length data)) ++ " COMMENTS" ++ nl
      ++ nl)
  ++ format_comments 1 data.

(** [fetch_post_comments]: the formatted post with its ranked comments; on
    any exception, the error marker. *)
Definition fetch_post_comments (post_url : string)
  (top_comments_limit replies_per_comment : Z) : M string :=
  try_except
    (let top_comments_limit := Z.min top_comments_limit 10 in
     let replies_per_comment := Z.min replies_per_comment 5 in
     submission <- call (fun n => reddit_submission W n post_url) ;;
     comments <- lift (scored_comments (sub_comments submission)) ;;
     let data :=
       comments_data comments top_comments_limit replies_per_comment in
     ret (format_submission post_url submission data))
    (fun e =>
       let error_msg := Mark.cross ++ " Error fetching comments from "
                        ++ post_url ++ ": " ++ str_exn e in
       ret error_msg).

(** The first loop of [fetch_all_reddit_data]: the texts of the boards and
    the links of all their posts, in the order of the mapping. *)
Fixpoint fetch_boards (subreddit_config : list (string * Z))
  (time_filter : string) : M (list string * list string) :=
  match subreddit_config with
  | [] => ret ([], [])
  | (subreddit_name, limit) :: rest =>
      r <- fetch_top_posts subreddit_name limit time_filter ;;
      rs <- fetch_boards rest time_filter ;;
      ret (fst r :: fst rs, (snd r ++ snd rs)%list)
  end.

(** ['='*80]. *)
Definition rule80 : string := repeat_char "="%char 80.

(** [f"LINK: {link}\n\n{comments_text}\n\n{'='*80}\n\n"]. *)
Definition raw_post_entry (link comments_text : string) : string :=
  "LINK: " ++ link ++ nl ++ nl ++ comments_text ++ nl ++ nl ++ rule80
  ++ nl ++ nl.

(** The second loop: the text of every post and its raw entry; one second
    between two posts. *)
Fixpoint fetch_posts (links : list string)
  (top_comments replies_per_comment : Z) : M (list string * list string) :=
  match links with
  | [] => ret ([], [])
  | link :: rest =>
      comments_text <-
        fetch_post_comments link top_comments replies_per_comment ;;
      (match rest with [] => ret tt | _ => sleep 1 end) ;;;
      rs <- fetch_posts rest top_comments replies_per_comment ;;
      ret (comments_text :: fst rs,
           raw_post_entry link comments_text :: snd rs)
  end.

(** [fetch_all_reddit_data]: [(full_data, raw_data)]. *)
Definition fetch_all_reddit_data (subreddit_config : list (string * Z))
  (time_filter : string) (top_comments replies_per_comment : Z)
  : M (string * string) :=
  boards <- fetch_boards subreddit_config time_filter ;;
  let all_links := snd boards in
  match all_links with
  | [] => raise (Exn ValueError "No posts found from any subreddit")
  | _ =>
      posts <- fetch_posts all_links top_comments replies_per_comment ;;
      let full_data := join (nl ++ nl) (fst posts) in
      let raw_data :=
        "REDDIT RAW DATA - POSTS AND COMMENTS" ++ nl ++ rule80 ++ nl ++ nl
        ++ join "" (snd posts) in
      ret (full_data, raw_data)
  end.

End WithWorld.

End Fetcher.

(* ================================================================== *)
(** ** News_agent_v3/telegram_sender.py                                 *)
(* ================================================================== *)

Module Telegram.
Import Py Run.

Section WithWorld.
Variable W : World.

(** Truthiness of what [os.getenv] returns. *)
Definition env_truthy (v : option string) : bool :=
  match v with Some s => truthy s | None => false end.

Definition env_value (v : option string) : string :=
  match v with Some s => s | None => "" end.

(** [await bot.send_message(chat_id=..., text=..., parse_mode=...)]. *)
Definition bot_message (chat_id text : string) (parse_mode : option string)
  : M unit :=
  fun s => match bot_send_message W (tick s) chat_id text parse_mode with
           | Ret _ => (Ret tt, post (TgMessage text parse_mode) (next_tick s))
           | Raise e => (Raise e, next_tick s)
           end.

(** [open(file_path, 'rb')]. *)
Definition open_rb (file_path : string) : M unit :=
  fun s => if existsb (fun f => String.eqb file_path (fst f)) (files s)
           then (Ret tt, s)
           else (Raise (Exn OSError
                          ("No such file or directory: " ++ file_path)), s).

Definition bot_document (chat_id file_path caption : string) : M unit :=
  fun s => match bot_send_document W (tick s) chat_id file_path caption with
           | Ret _ =>
               (Ret tt, post (TgDocument file_path caption) (next_tick s))
           | Raise e => (Raise e, next_tick s)
           end.

Definition bot_audio (chat_id file_path caption title : string) : M unit :=
  fun s =>
    match bot_send_audio W (tick s) chat_id file_path caption title with
    | Ret _ =>
        (Ret tt, post (TgAudio file_path caption title) (next_tick s))
    | Raise e => (Raise e, next_tick s)
    end.

(** [message.replace("_", "\\_").replace("[", "\\[").replace("]", "\\]")]. *)
Definition escape_markdown (message : string) : string :=
  replace_char "]"%char "\]"
    (replace_char "["%char "\["
       (replace_char "_"%char "\_" message)).

(** [send_telegram_message].  When [Bot(...)] itself raises, the handler's
    second attempt finds [bot] unbound and its bare [except] answers
    [False]. *)
Definition send_telegram_message (message : string)
  (parse_mode : option string) : M bool :=
  let bot_token := getenv W "TELEGRAM_BOT_TOKEN" in
  let chat_id := getenv W "TELEGRAM_CHAT_ID" in
  if negb (env_truthy bot_token) || negb (env_truthy chat_id) then ret false
  else
    match bot_new W (env_value bot_token) with
    | Raise _ => ret false
    | Ret _ =>
        let safe_message :=
          match parse_mode with
          | Some "Markdown" => escape_markdown message
          | _ => message
          end in
        try_except
          (bot_message (env_value chat_id) safe_message parse_mode ;;;
           ret true)
          (fun _ =>
             try_except
               (bot_message (env_value chat_id) message None ;;; ret true)
               (fun _ => ret false))
    end.

(** [send_telegram_audio]. *)
Definition send_telegram_audio (file_path caption : string) : M bool :=
  try_except
    (let bot_token := getenv W "TELEGRAM_BOT_TOKEN" in
     let chat_id := getenv W "TELEGRAM_CHAT_ID" in
     if negb (env_truthy bot_token) || negb (env_truthy chat_id)
     then ret false
     else
       lift (bot_new W (env_value bot_token)) ;;;
       open_rb file_path ;;;
       bot_audio (env_value chat_id) file_path caption
         "Reddit AI Analysis Audio" ;;;
       ret true)
    (fun _ => ret false).

(** [send_telegram_document]. *)
Definition send_telegram_document (file_path caption : string) : M bool :=
  try_except
    (let bot_token := getenv W "TELEGRAM_BOT_TOKEN" in
     let chat_id := getenv W "TELEGRAM_CHAT_ID" in
     if negb (env_truthy bot_token) || negb (env_truthy chat_id)
     then ret false
     else
       lift (bot_new W (env_value bot_token)) ;;;
       open_rb file_path ;;;
       bot_document (env_value chat_id) file_path caption ;;;
       ret true)
    (fun _ => ret false).

(** The message of [send_analysis_results]. *)
Definition results_message (subreddit_config : list (string * Z))
  (time_filter : string) (num_posts : nat) (audio_file : option string)
  : string :=
  ("🤖 *Reddit AI Analysis Complete*" ++ nl ++ nl)
  ++ ("📊 *Analyzed:* " ++ str_int (Z.of_nat num_posts) ++ " posts" ++ nl)
  ++ ("📁 *Subreddits:* " ++ join ", " (map fst subreddit_config) ++ nl)
  ++ ("⏰ *Time Filter:* " ++ time_filter ++ nl ++ nl)
  ++ (if env_truthy audio_file
      then "🎙️ *Audio narration included*" ++ nl ++ nl else "")
  ++ "📄 *Full analysis file attached below*".

(** [send_analysis_results]: the message, the file, then the audio when
    there is one; the answer is the conjunction of the three. *)
Definition send_analysis_results (analysis_file : string)
  (subreddit_config : list (string * Z)) (time_filter : string)
  (num_posts : nat) (audio_file : option string) : M bool :=
  let message :=
    results_message subreddit_config time_filter num_posts audio_file in
  msg_success <- send_telegram_message message (Some "Markdown") ;;
  file_success <-
    send_telegram_document analysis_file "📄 Full AI Analysis Report" ;;
  audio_success <-
    (if env_truthy audio_file
     then send_telegram_audio (env_value audio_file)
            "🎙️ Audio Narration of Analysis"
     else ret true) ;;
  ret (msg_success && file_success && audio_success).

(** [send_error_notification]. *)
Definition send_error_notification (error_message : string) : M bool :=
  let message :=
    "❌ *Error in Reddit Analysis*" ++ nl ++ nl ++ "```" ++ error_message
    ++ "```" in
  send_telegram_message message (Some "Markdown").

End WithWorld.

End Telegram.

(* ================================================================== *)
(** ** News_agent_v3/utils.py, tts_service.py, ai_analyzer.py           *)
(* ================================================================== *)

Module Utils.
Import Py Run.

Definition OUTPUTS_DIR : string := "outputs".
Definition SCHEDULER_DIR : string := "scheduler".

(** [f"{n:,}"] for a length.  [s] holds the digits from the last to the
    first; [k] digits were written since the last comma. *)
Fixpoint group3 (s : string) (k : nat) : string :=
  match s with
  | EmptyString => EmptyString
  | String c r =>
      if (k =? 3)%nat then String "," (String c (group3 r 1))
      else String c (group3 r (S k))
  end.

Definition fmt_thousands (n : nat) : string :=
  string_rev (group3 (string_rev (str_int (Z.of_nat n))) 0).

Section WithWorld.
Variable W : World.

(** [ensure_outputs_dir]. *)
Definition ensure_outputs_dir : M unit :=
  mkdir W OUTPUTS_DIR ;;;
  mkdir W SCHEDULER_DIR.

(** [validate_environment]: [(is_valid, missing_vars)]. *)
Definition validate_environment : bool * list string :=
  let required_vars :=
    ["REDDIT_CLIENT_ID"; "REDDIT_CLIENT_SECRET"; "TELEGRAM_BOT_TOKEN";
     "TELEGRAM_CHAT_ID"] in
  let missing :=
    filter (fun var => negb (Telegram.env_truthy (getenv W var)))
           required_vars in
  ((List.length missing =? 0)%nat, missing).

(** [save_analysis_to_file], called without [run_folder]: the paths of the
    analysis file, of the raw data file and of the run folder, or [None]
    (for the source's [None, None, None]) after an [IOError]. *)
Definition save_analysis_to_file (analysis : string)
  (subreddit_config : list (string * Z)) (time_filter model : string)
  (raw_reddit_data : string) : M (option (string * string * string)) :=
  ensure_outputs_dir ;;;
  timestamp <- now_strftime W "%Y-%m-%d_%H-%M-%S" ;;
  let run_folder := path_join OUTPUTS_DIR ("run_" ++ timestamp) in
  mkdir W run_folder ;;;
  let analysis_filename := path_join run_folder "analysis.txt" in
  let raw_data_filename := path_join run_folder "raw_data.txt" in
  try_except_cls OSError
    (let num_posts :=
       if truthy raw_reddit_data
       then count raw_reddit_data "LINK: https://reddit.com" else 0 in
     generated <- now_strftime W "%Y-%m-%d %H:%M:%S" ;;
     write_file W analysis_filename
       (Text (("🧠 AI ANALYSIS REPORT" ++ nl ++ nl)
              ++ ("Generated: " ++ generated ++ nl)
              ++ ("Time Filter: " ++ time_filter ++ nl)
              ++ ("Model: " ++ model ++ nl)
              ++ ("Posts Analyzed: " ++ str_int (Z.of_nat num_posts) ++ nl)
              ++ ("Subreddits: " ++ join ", " (map fst subreddit_config)
                  ++ nl ++ nl)
              ++ ("---" ++ nl ++ nl)
              ++ analysis)) ;;;
     (if truthy raw_reddit_data
      then write_file W raw_data_filename (Text raw_reddit_data)
      else ret tt) ;;;
     ret (Some (analysis_filename, raw_data_filename, run_folder)))
    (fun _ => ret None).

(** [save_llm_input]. *)
Definition save_llm_input (reddit_data : string) (email_data : option string)
  (system_prompt user_prompt model combined_content run_folder : string)
  : M string :=
  let filename := path_join run_folder "llm_input.txt" in
  generated <- now_strftime W "%Y-%m-%d %H:%M:%S" ;;
  write_file W filename
    (Text (("LLM INPUT - EXACT PAYLOAD FOR ANALYSIS" ++ nl ++ nl)
           ++ ("Generated: " ++ generated ++ nl)
           ++ ("Model: " ++ model ++ nl)
           ++ ("Reddit Data Length: "
               ++ fmt_thousands (String.length reddit_data) ++ " characters"
               ++ nl)
           ++ ("Email Data Length: "
               ++ fmt_thousands
                    (if Telegram.env_truthy email_data
                     then String.length (Telegram.env_value email_data)
                     else 0)
               ++ " characters" ++ nl)
           ++ ("Combined Length: "
               ++ fmt_thousands (String.length combined_content)
               ++ " characters" ++ nl)
           ++ ("Has Email Data: "
               ++ (if Telegram.env_truthy email_data then "Yes" else "No")
               ++ nl ++ nl)
           ++ ("---" ++ nl ++ nl)
           ++ ("SYSTEM PROMPT:" ++ nl ++ nl)
           ++ system_prompt
           ++ (nl ++ nl ++ "---" ++ nl ++ nl)
           ++ ("USER PROMPT:" ++ nl ++ nl)
           ++ user_prompt
           ++ (nl ++ nl ++ "---" ++ nl ++ nl)
           ++ ("REDDIT DATA:" ++ nl ++ nl)
           ++ reddit_data
           ++ (nl ++ nl)
           ++ (if Telegram.env_truthy email_data
               then ("---" ++ nl ++ nl ++ "EMAIL DATA:" ++ nl ++ nl)
                    ++ Telegram.env_value email_data ++ (nl ++ nl)
               else "")
           ++ ("---" ++ nl ++ nl ++ "FINAL COMBINED CONTENT:" ++ nl ++ nl)
           ++ combined_content)) ;;;
  ret filename.

(** [save_email_data]. *)
Definition save_email_data (emails : list Email) (run_folder : string)
  : M string :=
  let filename := path_join run_folder "emails.json" in
  write_file W filename (EmailsJson emails) ;;;
  ret filename.

(** [EmailFetcher(...).fetch_emails(...)]: no message without credentials,
    and none after any exception of the mail provider. *)
Definition fetch_emails (email_address password : string)
  (allowed_senders : list string) (hours_back max_emails : Z)
  : M (list Email) :=
  if negb (truthy email_address) || negb (truthy password) then ret []
  else
    try_except
      (call (fun n => mail_fetch W n email_address password allowed_senders
                        hours_back max_emails))
      (fun _ => ret []).

(** [TTSInference()] followed by [generate_audio(...)] with an
    [output_folder]. *)
Definition generate_audio (model text voice_name : string)
  (tone_instructions : option string) (output_folder : string) : M string :=
  (if Telegram.env_truthy (getenv W "GOOGLE_API_KEY") then ret tt
   else raise (Exn ValueError "GOOGLE_API_KEY not found in .env file!")) ;;;
  let full_prompt :=
    if Telegram.env_truthy tone_instructions
    then Telegram.env_value tone_instructions ++ ": " ++ text
    else text in
  audio_data <- call (fun n => tts_generate W n model full_prompt voice_name) ;;
  out <- (if truthy output_folder
          then ret (output_folder, path_join output_folder "audio.wav")
          else
            timestamp <- now_strftime W "%Y%m%d_%H%M%S" ;;
            ret ("outputs",
                 path_join "outputs" ("audio_" ++ timestamp ++ ".wav"))) ;;
  mkdir W (fst out) ;;;
  write_file W (snd out) (Wave audio_data) ;;;
  ret (snd out).

(** [analyze_reddit_data]. *)
Definition analyze_reddit_data (reddit_data user_prompt system_prompt
  model : string) (params : GenParams) : M string :=
  if prefix "gemini" model || prefix "openai:" model then
    let full_prompt :=
      user_prompt ++ nl ++ nl ++ "Analyze this Reddit data:" ++ nl
      ++ reddit_data in
    call (fun n => agent_run W n model system_prompt full_prompt params)
  else
    raise (Exn ValueError
             ("Unsupported model: " ++ model
              ++ ". Use 'gemini-*' or 'openai:*'")).

End WithWorld.

End Utils.

(* ================================================================== *)
(** ** News_agent_v3/workflow.py                                        *)
(* ================================================================== *)

Module Workflow.
Import Py Run.

(** The parameters of [run_complete_workflow]. *)
Record Args := {
  subreddit_config : list (string * Z);
  time_filter : string;
  top_comments : Z;
  replies_per_comment : Z;
  model : string;
  system_prompt : string;
  user_prompt : string;
  send_to_telegram : bool;
  generate_tts : bool;
  tts_model : option string;
  voice_name : option string;
  tone_instructions : option string;
  fetch_emails : bool;
  email_address : option string;
  email_password : option string;
  allowed_senders : option (list string);
  email_hours_back : Z;
  max_emails : Z;
  gen_params : GenParams
}.

(** The tuple the orchestrator returns: the analysis file or the error
    message, then the raw data file, the audio file, the newsletter export
    and the transcript of the model input. *)
Definition Result : Type :=
  (string * option string * option string * option string * option string).

Definition error_tuple (error_msg : string) : Result :=
  (error_msg, None, None, None, None).

Section WithWorld.
Variable W : World.

(** Step 2 of the [try] block: the optional newsletter.  The result is the
    text for the analysis and the messages to export. *)
Definition fetch_email_step (a : Args) : M (string * option (list Email)) :=
  if fetch_emails a && Telegram.env_truthy (email_address a)
     && Telegram.env_truthy (email_password a)
     && match allowed_senders a with Some (_ :: _) => true | _ => false end
  then
    emails <- Utils.fetch_emails W
                (Telegram.env_value (email_address a))
                (Telegram.env_value (email_password a))
                (match allowed_senders a with Some l => l | None => [] end)
                (email_hours_back a) (max_emails a) ;;
    match emails with
    | _ :: _ =>
        email_content <- lift (mail_format W emails 10000) ;;
        ret (email_content, Some emails)
    | [] => ret ("", None)
    end
  else ret ("", None).

(** Step 5 of the [try] block: the optional narration; an exception leaves
    no audio file. *)
Definition tts_step (a : Args) (analysis run_folder : string)
  : M (option string) :=
  if generate_tts a && Telegram.env_truthy (tts_model a)
     && Telegram.env_truthy (voice_name a)
  then
    try_except
      (audio_file <- Utils.generate_audio W
                       (Telegram.env_value (tts_model a)) analysis
                       (Telegram.env_value (voice_name a))
                       (tone_instructions a) run_folder ;;
       ret (Some audio_file))
      (fun _ => ret None)
  else ret None.

(** Step 6 of the [try] block: the optional notification; its answer is
    only printed. *)
Definition telegram_step (a : Args) (analysis_file raw_reddit_data : string)
  (audio_file : option string) : M unit :=
  if send_to_telegram a then
    let num_posts := count raw_reddit_data "LINK: https://reddit.com" in
    Telegram.send_analysis_results W analysis_file (subreddit_config a)
      (time_filter a) num_posts audio_file ;;;
    ret tt
  else ret tt.

(** Steps 1 and 2 of the [try] block: the forum data and the newsletter,
    and the payload composed of them. *)
Definition gather_steps (a : Args)
  : M (string * string * option (list Email) * string) :=
  reddit <- Fetcher.fetch_all_reddit_data W (subreddit_config a)
              (time_filter a) (top_comments a) (replies_per_comment a) ;;
  let reddit_data := fst reddit in
  let raw_reddit_data := snd reddit in
  (if truthy reddit_data then ret tt
   else raise (Exn ValueError "No posts found")) ;;;
  em <- fetch_email_step a ;;
  let email_content := fst em in
  let emails := snd em in
  let combined_content :=
    if truthy email_content
    then raw_reddit_data ++ nl ++ nl ++ "---" ++ nl ++ nl ++ email_content
    else raw_reddit_data in
  ret (raw_reddit_data, email_content, emails, combined_content).

(** [not analysis or len(analysis) < 100]. *)
Definition too_short (analysis : string) : bool :=
  negb (truthy analysis) || (String.length analysis <? 100)%nat.

(** Step 3 of the [try] block: the analysis and its length check. *)
Definition analysis_steps (a : Args)
  : M (string * string * option (list Email) * string * string) :=
  g <- gather_steps a ;;
  let '(raw_reddit_data, email_content, emails, combined_content) := g in
  analysis <- Utils.analyze_reddit_data W combined_content (user_prompt a)
                (system_prompt a) (model a) (gen_params a) ;;
  (if too_short analysis
   then raise (Exn ValueError "Analysis too short or empty")
   else ret tt) ;;;
  ret (raw_reddit_data, email_content, emails, combined_content, analysis).

(** Step 4 of the [try] block: the files of the run folder. *)
Definition persist_steps (a : Args)
  (raw_reddit_data email_content : string) (emails : option (list Email))
  (combined_content analysis : string)
  : M (string * string * string * option string * string) :=
  saved <- Utils.save_analysis_to_file W analysis (subreddit_config a)
             (time_filter a) (model a) raw_reddit_data ;;
  match saved with
  | Some (analysis_file, raw_data_file, run_folder) =>
      if truthy analysis_file && truthy raw_data_file then
        llm_input_file <-
          Utils.save_llm_input W raw_reddit_data
            (if truthy email_content then Some email_content else None)
            (system_prompt a) (user_prompt a) (model a) combined_content
            run_folder ;;
        email_data_file <-
          match emails with
          | Some (_ :: _ as l) =>
              f <- Utils.save_email_data W l run_folder ;; ret (Some f)
          | _ => ret None
          end ;;
        ret (analysis_file, raw_data_file, run_folder, email_data_file,
             llm_input_file)
      else raise (Exn ValueError "Failed to save analysis files")
  | None => raise (Exn ValueError "Failed to save analysis files")
  end.

(** The body of the [try] block. *)
Definition workflow_steps (a : Args) : M Result :=
  r <- analysis_steps a ;;
  let '(raw_reddit_data, email_content, emails, combined_content, analysis)
    := r in
  p <- persist_steps a raw_reddit_data email_content emails combined_content
         analysis ;;
  let '(analysis_file, raw_data_file, run_folder, email_data_file,
        llm_input_file) := p in
  audio_file <- tts_step a analysis run_folder ;;
  telegram_step a analysis_file raw_reddit_data audio_file ;;;
  ret (analysis_file, Some raw_data_file, audio_file, email_data_file,
       Some llm_input_file).

(** The [except Exception as e] block. *)
Definition workflow_handler (a : Args) (e : exn) : M Result :=
  let error_msg := "Error during workflow: " ++ str_exn e in
  (if send_to_telegram a
   then Telegram.send_error_notification W error_msg ;;; ret tt
   else ret tt) ;;;
  ret (error_tuple error_msg).

(** [run_complete_workflow].  The mapping is a dictionary by its type here,
    so the [isinstance] check has no counterpart. *)
Definition run_complete_workflow (a : Args) : M Result :=
  match subreddit_config a with
  | [] => ret (error_tuple "❌ subreddit_config is empty")
  | _ =>
      let '(is_valid, missing_vars) := Utils.validate_environment W in
      if negb is_valid then
        ret (error_tuple ("Missing required environment variables: "
                          ++ join ", " missing_vars))
      else
        try_finally
          (try_except (workflow_steps a) (workflow_handler a))
          (call (reddit_close W))
  end.

End WithWorld.

End Workflow.

(* ================================================================== *)
(** ** Python values and JSON documents                                 *)
(* ================================================================== *)

Module Json.
Import Py.

(** Keys of a dictionary: strings and integers. *)
Inductive pykey :=
| KStr (s : string)
| KInt (z : Z).

#[local] Unset Elimination Schemes.

(** The Python values a schedule record can hold.  A dictionary keeps its
    items in insertion order.  (Floats are not modelled.) *)
Inductive pyval :=
| PyNone
| PyBool (b : bool)
| PyInt (z : Z)
| PyStr (s : string)
| PyList (l : list pyval)
| PyTuple (l : list pyval)
| PyDict (d : list (pykey * pyval)).

(** A JSON document.  An object of a text may repeat a key. *)
Inductive json :=
| JNull
| JBool (b : bool)
| JNum (z : Z)
| JStr (s : string)
| JArr (l : list json)
| JObj (m : list (string * json)).

#[local] Set Elimination Schemes.

Definition pykey_eqb (a b : pykey) : bool :=
  match a, b with
  | KStr s, KStr t => String.eqb s t
  | KInt x, KInt y => Z.eqb x y
  | _, _ => false
  end.

(** [d[k] = v]: the value of an existing key is replaced where it stands, a
    new key goes last. *)
Fixpoint dict_set {K V} (eqb : K -> K -> bool) (k : K) (v : V)
  (d : list (K * V)) : list (K * V) :=
  match d with
  | [] => [(k, v)]
  | (k', v') :: r =>
      if eqb k k' then (k', v) :: r else (k', v') :: dict_set eqb k v r
  end.

(** [d.get(k, default)]. *)
Fixpoint dict_get {K V} (eqb : K -> K -> bool) (k : K) (default : V)
  (d : list (K * V)) : V :=
  match d with
  | [] => default
  | (k', v') :: r => if eqb k k' then v' else dict_get eqb k default r
  end.

(** The dictionary built from items in order. *)
Definition dict_of_items {K V} (eqb : K -> K -> bool) (items : list (K * V))
  : list (K * V) :=
  fold_left (fun d kv => dict_set eqb (fst kv) (snd kv) d) items [].

(** The key of a JSON object that [json.dump] writes for a dictionary
    key. *)
Definition key_text (k : pykey) : string :=
  match k with
  | KStr s => s
  | KInt z => str_int z
  end.

(** The document [json.dump] writes: a tuple becomes an array, every key a
    string. *)
Fixpoint encode (v : pyval) : json :=
  match v with
  | PyNone => JNull
  | PyBool b => JBool b
  | PyInt z => JNum z
  | PyStr s => JStr s
  | PyList l => JArr (map encode l)
  | PyTuple l => JArr (map encode l)
  | PyDict d => JObj (map (fun kv => (key_text (fst kv), encode (snd kv))) d)
  end.

(** The value [json.load] builds: an array becomes a list, an object a
    dictionary with string keys, the last value of a repeated key
    winning. *)
Fixpoint decode (j : json) : pyval :=
  match j with
  | JNull => PyNone
  | JBool b => PyBool b
  | JNum z => PyInt z
  | JStr s => PyStr s
  | JArr l => PyList (map decode l)
  | JObj m =>
      PyDict (dict_of_items pykey_eqb
                (map (fun kv => (KStr (fst kv), decode (snd kv))) m))
  end.

(** Truthiness. *)
Definition py_truthy (v : pyval) : bool :=
  match v with
  | PyNone => false
  | PyBool b => b
  | PyInt z => negb (Z.eqb z 0)
  | PyStr s => truthy s
  | PyList l | PyTuple l => match l with [] => false | _ => true end
  | PyDict d => match d with [] => false | _ => true end
  end.

(** [n == v] for an [int] [n]. *)
Definition eq_int (n : Z) (v : pyval) : bool :=
  match v with
  | PyInt z => Z.eqb n z
  | PyBool b => Z.eqb n (if b then 1 else 0)
  | _ => false
  end.

(** [int(v)]. *)
Definition int_of (v : pyval) : outcome Z :=
  match v with
  | PyInt z => Ret z
  | PyBool b => Ret (if b then 1 else 0)%Z
  | PyStr s =>
      match int_of_str s with
      | Some z => Ret z
      | None =>
          Raise (Exn ValueError
                   ("invalid literal for int() with base 10: '" ++ s ++ "'"))
      end
  | _ =>
      Raise (Exn TypeError
               "int() argument must be a string, a bytes-like object or a real number")
  end.

(** [f"{v:02d}"]. *)
Definition fmt_02d_of (v : pyval) : outcome string :=
  match v with
  | PyInt z => Ret (fmt_02d z)
  | PyBool b => Ret (fmt_02d (if b then 1 else 0))
  | PyStr _ =>
      Raise (Exn ValueError
               "Unknown format code 'd' for object of type 'str'")
  | _ => Raise (Exn TypeError "unsupported format string")
  end.

(** [v.get(k, default)]: only a dictionary has the method. *)
Definition py_get (v : pyval) (k : string) (default : pyval)
  : outcome pyval :=
  match v with
  | PyDict d => Ret (dict_get pykey_eqb (KStr k) default d)
  | _ => Raise (Exn AttributeError "object has no attribute 'get'")
  end.

(** Values that JSON represents as they are: no tuple, string keys only,
    no key twice. *)
Definition key_is_str (k : pykey) : bool :=
  match k with KStr _ => true | KInt _ => false end.

Fixpoint nodup_keys (l : list pykey) : bool :=
  match l with
  | [] => true
  | k :: r => negb (existsb (pykey_eqb k) r) && nodup_keys r
  end.

Fixpoint json_native (v : pyval) : bool :=
  match v with
  | PyNone | PyBool _ | PyInt _ | PyStr _ => true
  | PyList l => forallb json_native l
  | PyTuple _ => false
  | PyDict d =>
      forallb (fun kv => key_is_str (fst kv)) d
      && nodup_keys (map fst d)
      && forallb (fun kv => json_native (snd kv)) d
  end.

End Json.

(* ================================================================== *)
(** ** News_agent/utils.py and News_agent/scheduler.py                  *)
(* ================================================================== *)

Module Schedule.
Import Py Json.

(** [parse_subreddit_config]: the loop over the pairs.  A pair without a
    colon, or whose limit is no integer, adds nothing. *)
Fixpoint parse_pairs (pairs : list string) (subreddit_dict : list (string * Z))
  : list (string * Z) :=
  match pairs with
  | [] => subreddit_dict
  | item :: rest =>
      let item := strip item in
      if contains_char ":"%char item then
        let (name, limit) := split_once ":"%char item in
        match int_of_str (strip limit) with
        | Some n =>
            parse_pairs rest (dict_set String.eqb (strip name) n subreddit_dict)
        | None => parse_pairs rest subreddit_dict
        end
      else parse_pairs rest subreddit_dict
  end.

Definition parse_subreddit_config (config_string : string)
  : list (string * Z) :=
  parse_pairs (split_on ","%char config_string) [].

(** The fields of a [SimpleScheduler] that the schedule record fills. *)
Record SimpleScheduler := {
  enabled : pyval;
  hour : pyval;
  minute : pyval;
  timezone : pyval;
  config : pyval
}.

(** [SimpleScheduler.__init__]. *)
Definition init : SimpleScheduler :=
  {| enabled := PyBool false; hour := PyInt 9; minute := PyInt 0;
     timezone := PyStr "Etc/UTC"; config := PyDict [] |}.

(** What the configuration file holds: a JSON document, or a text that is
    none (an empty or truncated file, for one). *)
Inductive file_content :=
| Document (j : json)
| Corrupt.

(** The disk: the file is missing, or it holds something. *)
Definition Disk : Type := option file_content.

(** How the [open(..., 'w')] and [json.dump] of one call end. *)
Inductive write_outcome :=
| WriteOk
| OpenFails (e : exn)
| WriteFails (e : exn).

(** The dictionary [save_config] dumps. *)
Definition record_of (enabled hour minute timezone config : pyval) : pyval :=
  PyDict [(KStr "enabled", enabled); (KStr "hour", hour);
          (KStr "minute", minute); (KStr "timezone", timezone);
          (KStr "config", config)].

(** [save_config]: the answer, the scheduler and the disk after the call.
    [io] tells how the write of this call ends. *)
Definition save_config (io : write_outcome) (self : SimpleScheduler)
  (disk : Disk) (enabled hour minute timezone config : pyval)
  : bool * SimpleScheduler * Disk :=
  let data := record_of enabled hour minute timezone config in
  match io with
  | OpenFails _ => (false, self, disk)
  | WriteFails _ => (false, self, Some Corrupt)
  | WriteOk =>
      let disk' := Some (Document (encode data)) in
      let self' :=
        {| enabled := enabled; hour := hour; minute := minute;
           timezone := timezone; config := config |} in
      match fmt_02d_of hour, fmt_02d_of minute with
      | Ret _, Ret _ => (true, self', disk')
      | _, _ => (false, self', disk')
      end
  end.

(** The assignments of [load_config] from the loaded [data], up to the
    first exception. *)
Definition assign_loaded (self : SimpleScheduler) (data : pyval)
  : outcome unit * SimpleScheduler :=
  match data with
  | PyDict d =>
      let get k default := dict_get pykey_eqb (KStr k) default d in
      let self' :=
        {| enabled := get "enabled" (PyBool false);
           hour := get "hour" (PyInt 9);
           minute := get "minute" (PyInt 0);
           timezone := get "timezone" (PyStr "Etc/UTC");
           config := get "config" (PyDict []) |} in
      match fmt_02d_of (hour self'), fmt_02d_of (minute self') with
      | Ret _, Ret _ => (Ret tt, self')
      | Raise e, _ => (Raise e, self')
      | _, Raise e => (Raise e, self')
      end
  | _ => (Raise (Exn AttributeError "object has no attribute 'get'"), self)
  end.

(** [load_config]: the dictionary returned and the scheduler after the
    call.  [io] tells how opening the file for reading ends. *)
Definition load_config (io : outcome unit) (self : SimpleScheduler)
  (disk : Disk) : pyval * SimpleScheduler :=
  match disk with
  | None => (PyDict [], self)
  | Some c =>
      match io with
      | Raise _ => (PyDict [], self)
      | Ret _ =>
          match c with
          | Corrupt => (PyDict [], self)
          | Document j =>
              let data := decode j in
              match assign_loaded self data with
              | (Ret _, self') => (data, self')
              | (Raise _, self') => (PyDict [], self')
              end
          end
      end
  end.

(** The arguments [run_analysis] gives to [run_complete_workflow]. *)
Record WorkflowArgs := {
  subreddit_config : list (string * Z);
  time_filter : pyval;
  top_comments : Z;
  replies_per_comment : Z;
  model : pyval;
  system_prompt : pyval;
  user_prompt : pyval;
  send_to_telegram : bool
}.

(** A time zone, as the loop uses it: the hour and the minute it shows at
    an instant (in seconds). *)
Definition tzinfo : Type := Z -> Z * Z.

Section Loop.

(** Everything outside the scheduler: the providers, the files of the
    runs, the chat. *)
Variable Env : Type.

(** The orchestrator of News_agent/workflow.py: its outcome, the
    environment it leaves and the seconds it takes. *)
Variable run_complete_workflow :
  WorkflowArgs -> Env -> outcome (string * option string) * Env * nat.

(** [send_error_notification] of News_agent/telegram_sender.py. *)
Variable send_error_notification :
  string -> Env -> outcome bool * Env * nat.

(** [zoneinfo.ZoneInfo]. *)
Variable ZoneInfo : pyval -> outcome tzinfo.

(** [stop_event.is_set()] at an instant: the event is set by the thread
    that controls the scheduler. *)
Variable stop_requested : Z -> bool.

(** The state of the background thread: the instant, the environment, and
    what the thread has asked for so far (the latest first): the calls of
    the orchestrator and the error notifications, each with its instant. *)
Record Thread := {
  clock : Z;
  env : Env;
  calls : list (Z * WorkflowArgs);
  notified : list (Z * string)
}.

(** [await asyncio.sleep(n)]. *)
Definition sleep (n : Z) (t : Thread) : Thread :=
  {| clock := clock t + n; env := env t; calls := calls t;
     notified := notified t |}.

(** The expressions of the [try] block of [run_analysis] before the call:
    [None] when there is no board, else the arguments of the call. *)
Definition workflow_args (self : SimpleScheduler)
  : outcome (option WorkflowArgs) :=
  match config self with
  | PyDict d =>
      let get k default := dict_get pykey_eqb (KStr k) default d in
      match get "subreddit_config" (PyStr "") with
      | PyStr config_string =>
          match parse_subreddit_config config_string with
          | [] => Ret None
          | subreddit_dict =>
              match int_of (get "top_comments" (PyInt 10)) with
              | Raise e => Raise e
              | Ret tc =>
                  match int_of (get "replies_per_comment" (PyInt 5)) with
                  | Raise e => Raise e
                  | Ret rc =>
                      Ret (Some
                        {| subreddit_config := subreddit_dict;
                           time_filter := get "time_filter" (PyStr "day");
                           top_comments := tc;
                           replies_per_comment := rc;
                           model := get "model" (PyStr "gemini-2.5-pro");
                           system_prompt := get "system_prompt" (PyStr "");
                           user_prompt := get "user_prompt" (PyStr "");
                           send_to_telegram := true |})
                  end
              end
          end
      | _ => Raise (Exn AttributeError "object has no attribute 'split'")
      end
  | _ => Raise (Exn AttributeError "object has no attribute 'get'")
  end.

(** The handler of [run_analysis]: the error goes to the chat, and an
    exception of that is dropped. *)
Definition report_error (e : exn) (t : Thread) : Thread :=
  let '(_, env', d) := send_error_notification (str_exn e) (env t) in
  {| clock := clock t + Z.of_nat d; env := env';
     calls := calls t; notified := (clock t, str_exn e) :: notified t |}.

(** [run_analysis]. *)
Definition run_analysis (self : SimpleScheduler) (t : Thread) : Thread :=
  match workflow_args self with
  | Raise e => report_error e t
  | Ret None => t
  | Ret (Some a) =>
      let '(o, env', d) := run_complete_workflow a (env t) in
      let t' := {| clock := clock t + Z.of_nat d; env := env';
                   calls := (clock t, a) :: calls t;
                   notified := notified t |} in
      match o with
      | Ret _ => t'
      | Raise e => report_error e t'
      end
  end.

(** One turn of the [while] loop of [scheduler_loop]. *)
Definition check_cycle (self : SimpleScheduler) (t : Thread) : Thread :=
  if py_truthy (enabled self) then
    match ZoneInfo (timezone self) with
    | Raise _ => sleep 60 t
    | Ret tz =>
        let now := tz (clock t) in
        if eq_int (fst now) (hour self) && eq_int (snd now) (minute self)
        then sleep 60 (sleep 60 (run_analysis self t))
        else sleep 60 t
    end
  else sleep 60 t.

(** [scheduler_loop], for at most [fuel] turns.  The loop reads the fields
    of [self] at every turn; they are those of one scheduler here, as long
    as no [save_config] or [load_config] runs beside the loop. *)
Fixpoint scheduler_loop (fuel : nat) (self : SimpleScheduler) (t : Thread)
  : Thread :=
  match fuel with
  | O => t
  | S k =>
      if stop_requested (clock t) then t
      else scheduler_loop k self (check_cycle self t)
  end.

End Loop.

End Schedule.

(* ================================================================== *)
(** * Sample runs                                                       *)
(* ================================================================== *)

(** A small world on which the functions can be run: one board, [test],
    with one post that has two comments; every other board fails. *)
Module Sample.
Import Py Run.

Definition a_post : Post :=
  {| post_title := "A post"; post_score := 5; post_num_comments := 2;
     post_subreddit := "test"; post_permalink := "/r/test/1";
     post_selftext := "hello" |}.

Definition a_submission : Submission :=
  {| sub_title := "A post"; sub_subreddit := "test"; sub_score := 5;
     sub_num_comments := 2; sub_selftext := "";
     sub_comments :=
       [Top {| c_score := 1; c_body := "first";
               c_replies := [Reply 2 "r1"; MoreReplies; Reply 2 "r2";
                             Reply 7 "r3"] |};
        Top {| c_score := 3; c_body := "second"; c_replies := [] |}] |}.

(** A text of 40 characters and a text of 120. *)
Definition text40 : string := "0123456789012345678901234567890123456789".
Definition text120 : string := text40 ++ text40 ++ text40.

Definition provider_down : exn := Exn ProviderError "provider down".

(** The world: the analysis answers [analysis]; narration and the sending
    of messages work or not. *)
Definition world (analysis : string) (tts_ok message_ok : bool) : World :=
  {| getenv := fun _ => Some "set";
     strftime_now := fun _ _ => "2025-01-01_07-00-00";
     reddit_top := fun _ subreddit _ _ =>
       if String.eqb subreddit "test" then Ret [a_post]
       else Raise provider_down;
     reddit_submission := fun _ _ => Ret a_submission;
     reddit_close := fun _ => Ret tt;
     mail_fetch := fun _ _ _ _ _ _ => Ret [];
     mail_format := fun _ _ => Ret "";
     agent_run := fun _ _ _ _ _ => Ret analysis;
     tts_generate := fun _ _ _ _ =>
       if tts_ok then Ret "pcm" else Raise provider_down;
     fs_mkdir := fun _ _ => Ret tt;
     fs_write := fun _ _ => WriteOk;
     bot_new := fun _ => Ret tt;
     bot_send_message := fun _ _ _ _ =>
       if message_ok then Ret tt else Raise provider_down;
     bot_send_document := fun _ _ _ _ => Ret tt;
     bot_send_audio := fun _ _ _ _ _ => Ret tt |}.

Definition start : State :=
  {| tick := 0; dirs := []; files := []; chat := []; slept := 0 |}.

(** A run over the boards [boards], with narration and notification on. *)
Definition args (boards : list (string * Z)) : Workflow.Args :=
  {| Workflow.subreddit_config := boards;
     Workflow.time_filter := "day";
     Workflow.top_comments := 5;
     Workflow.replies_per_comment := 3;
     Workflow.model := "gemini-2.5-pro";
     Workflow.system_prompt := "system";
     Workflow.user_prompt := "user";
     Workflow.send_to_telegram := true;
     Workflow.generate_tts := true;
     Workflow.tts_model := Some "tts";
     Workflow.voice_name := Some "Kore";
     Workflow.tone_instructions := None;
     Workflow.fetch_emails := false;
     Workflow.email_address := None;
     Workflow.email_password := None;
     Workflow.allowed_senders := None;
     Workflow.email_hours_back := 24;
     Workflow.max_emails := 20;
     Workflow.gen_params :=
       {| max_output_tokens := 8192; temperature := "1.0"; top_p := "0.95";
          top_k := 64; thinking_budget := 8192 |} |}.

(** A schedule: 07:00 UTC, one board. *)
Definition schedule_config : Json.pyval :=
  Json.PyDict
    [(Json.KStr "subreddit_config", Json.PyStr "LocalLLaMA:10, artificial:5");
     (Json.KStr "time_filter", Json.PyStr "day");
     (Json.KStr "top_comments", Json.PyInt 10);
     (Json.KStr "replies_per_comment", Json.PyInt 5);
     (Json.KStr "model", Json.PyStr "gemini-2.5-pro");
     (Json.KStr "system_prompt", Json.PyStr "system");
     (Json.KStr "user_prompt", Json.PyStr "user");
     (Json.KStr "send_to_telegram", Json.PyBool false)].

Definition schedule : Schedule.SimpleScheduler :=
  {| Schedule.enabled := Json.PyBool true;
     Schedule.hour := Json.PyInt 7;
     Schedule.minute := Json.PyInt 0;
     Schedule.timezone := Json.PyStr "Etc/UTC";
     Schedule.config := schedule_config |}.

(** The same schedule with no valid board. *)
Definition schedule_without_board : Schedule.SimpleScheduler :=
  {| Schedule.enabled := Json.PyBool true;
     Schedule.hour := Json.PyInt 7;
     Schedule.minute := Json.PyInt 0;
     Schedule.timezone := Json.PyStr "Etc/UTC";
     Schedule.config :=
       Json.PyDict [(Json.KStr "subreddit_config",
                     Json.PyStr "LocalLLaMA, artificial:many")] |}.

(** An orchestrator that takes 30 seconds, a notification that takes
    one. *)
Definition quick_workflow (a : Schedule.WorkflowArgs) (e : unit)
  : outcome (string * option string) * unit * nat :=
  (Ret ("outputs/reddit_analysis.txt", Some "outputs/reddit_raw_data.txt"),
   e, 30).

Definition quick_notification (msg : string) (e : unit)
  : outcome bool * unit * nat := (Ret true, e, 1).

(** UTC, on a day that starts at instant 0. *)
Definition utc : Schedule.tzinfo :=
  fun t => ((t / 3600) mod 24, (t / 60) mod 60)%Z.

Definition zone (name : Json.pyval) : outcome Schedule.tzinfo :=
  match name with
  | Json.PyStr "Etc/UTC" => Ret utc
  | _ => Raise (Exn ZoneInfoNotFoundError "No time zone found")
  end.

(** A clock held at 07:00. *)
Definition held : Schedule.tzinfo := fun _ => (7, 0)%Z.

Definition held_zone (name : Json.pyval) : outcome Schedule.tzinfo :=
  Ret held.

Definition never_stopped (t : Z) : bool := false.

(** The thread at 07:00:00. *)
Definition at_seven : Schedule.Thread unit :=
  {| Schedule.clock := 25200; Schedule.env := tt; Schedule.calls := [];
     Schedule.notified := [] |}.

End Sample.

(* ================================================================== *)
(** * Notions used by the properties                                    *)
(* ================================================================== *)

Module Spec.

Section Ranking.
Variable A : Type.
Variable key : A -> Z.





End Ranking.

Section Effects.
Import Py Run.
Variable A : Type.

(** A computation that creates no directory and writes no file. *)
Definition keeps_files (m : M A) : Prop :=
  forall s, dirs (snd (m s)) = dirs s /\ files (snd (m s)) = files s.

(** A computation that raises no exception. *)
Definition returns (m : M A) : Prop :=
  forall s, exists a, fst (m s) = Ret a.

End Effects.



Definition is_bundle (r : Workflow.Result) : Prop :=
  exists analysis_file raw_data_file audio_file email_data_file
         llm_input_file,
    r = (analysis_file, Some raw_data_file, audio_file, email_data_file,
         Some llm_input_file)
    /\ Py.truthy analysis_file = true /\ Py.truthy raw_data_file = true.

(** The third send of [send_analysis_results]: the audio, when there is
    one. *)
Definition audio_send (W : Run.World) (audio_file : option string)
  : Run.M bool :=
  if Telegram.env_truthy audio_file
  then Telegram.send_telegram_audio W (Telegram.env_value audio_file)
         "🎙️ Audio Narration of Analysis"
  else Run.ret true.

(** The environment passes [validate_environment] and the mapping has a
    board. *)
Definition accepted (W : Run.World) (a : Workflow.Args) : Prop :=
  Workflow.subreddit_config a <> [] /\
  fst (Utils.validate_environment W) = true.

(** A schedule state as the specification has it: a flag, an hour and a
    minute in range, a zone name, and a configuration that JSON represents
    as it is. *)
Definition valid_schedule (s : Schedule.SimpleScheduler) : bool :=
  match Schedule.enabled s, Schedule.hour s, Schedule.minute s,
        Schedule.timezone s, Schedule.config s with
  | Json.PyBool _, Json.PyInt h, Json.PyInt m, Json.PyStr _, Json.PyDict _ =>
      ((0 <=? h) && (h <=? 23) && (0 <=? m) && (m <=? 59))%Z
      && Json.json_native (Schedule.config s)
  | _, _, _, _, _ => false
  end.

(** The record [save_config] dumps for the fields of a scheduler. *)
Definition record_of_schedule (s : Schedule.SimpleScheduler) : Json.pyval :=
  Schedule.record_of (Schedule.enabled s) (Schedule.hour s)
    (Schedule.minute s) (Schedule.timezone s) (Schedule.config s).

(** The clock of zone [tz] shows the trigger time of [self] at [t]. *)
Definition shows_trigger (tz : Schedule.tzinfo)
  (self : Schedule.SimpleScheduler) (t : Z) : Prop :=
  Json.eq_int (fst (tz t)) (Schedule.hour self)
  && Json.eq_int (snd (tz t)) (Schedule.minute self) = true.





(** The value stored under [k], or [default]. *)
Definition stored (d : list (Json.pykey * Json.pyval)) (k : string)
  (default : Json.pyval) : Json.pyval :=
  Json.dict_get Json.pykey_eqb (Json.KStr k) default d.

End Spec.

(* ================================================================== *)
(** * Further functions of the same files                               *)
(* ================================================================== *)

(** News_agent/utils.py: the inverse of [parse_subreddit_config]. *)
Module AgentUtils.
Import Py.

(** [format_subreddit_config]:
    [", ".join(f"{name}:{limit}" for name, limit in config_dict.items())]. *)
Definition format_subreddit_config (config_dict : list (string * Z))
  : string :=
  join ", "
    (map (fun item => fst item ++ ":" ++ str_int (snd item)) config_dict).

End AgentUtils.

(** News_agent/scheduler.py: the start of the process. *)
Module Startup.
Import Py Json Schedule.

(** [initialize_scheduler] on the scheduler [scheduler]: the scheduler
    after [load_config], and whether [scheduler.start()] is called. *)
Definition initialize_scheduler (io : outcome unit)
  (scheduler : SimpleScheduler) (disk : Disk) : SimpleScheduler * bool :=
  let scheduler' := snd (load_config io scheduler disk) in
  (scheduler', py_truthy (enabled scheduler')).

End Startup.

(* ================================================================== *)
(** * Notions used by the further properties                            *)
(* ================================================================== *)

Module Notion.
Import Py Run.

(** A board name that [format_subreddit_config] and
    [parse_subreddit_config] agree on: no comma, no colon, no whitespace
    at either end. *)
Definition clean_name (name : string) : Prop :=
  contains_char ","%char name = false
  /\ contains_char ":"%char name = false
  /\ strip name = name.

(** A mapping of clean names, each name once (as in a dictionary). *)
Definition clean_mapping (d : list (string * Z)) : Prop :=
  Forall (fun item => clean_name (fst item)) d /\ NoDup (map fst d).

(** A computation that leaves a component of the state as it was. *)
Definition preserves {A X : Type} (f : State -> X) (m : M A) : Prop :=
  forall s, f (snd (m s)) = f s.

(** There is a file at path [p]. *)
Definition file_exists (p : string) (s : State) : bool :=
  existsb (fun f => String.eqb p (fst f)) (files s).

(** A computation that removes no file and no directory. *)
Definition grows {A : Type} (m : M A) : Prop :=
  forall s,
    (forall p, file_exists p s = true -> file_exists p (snd (m s)) = true)
    /\ (forall d, In d (dirs s) -> In d (dirs (snd (m s)))).

(** [v] is an [int] (or a [bool]): what the format [:02d] accepts. *)
Definition is_integer (v : Json.pyval) : bool :=
  match v with
  | Json.PyInt _ | Json.PyBool _ => true
  | _ => false
  end.

End Notion.

(* ================================================================== *)
(** * News_agent/app.py: the handlers of the schedule                   *)
(* ================================================================== *)

(** The two handlers of the interface that change the schedule, as far
    as the scheduler and its file go.  What they do after that (the
    restart or the stop of the thread, the status text they return) is
    not part of the model. *)
Module App.
Import Py Json Schedule.

(** The dictionary [enable_schedule] stores as the configuration. *)
Definition config_of (subreddit_config time_filter : string)
  (top_comments replies_per_comment : Z)
  (model system_prompt user_prompt : string) : pyval :=
  PyDict [(KStr "subreddit_config", PyStr subreddit_config);
          (KStr "time_filter", PyStr time_filter);
          (KStr "top_comments", PyInt top_comments);
          (KStr "replies_per_comment", PyInt replies_per_comment);
          (KStr "model", PyStr model);
          (KStr "system_prompt", PyStr system_prompt);
          (KStr "user_prompt", PyStr user_prompt)].

(** [enable_schedule], for arguments of the annotated types: [success]
    (on which [scheduler.restart()] is called), the scheduler and the disk
    after the call. *)
Definition enable_schedule (io : write_outcome) (scheduler : SimpleScheduler)
  (disk : Disk) (hour minute : Z) (timezone subreddit_config
  time_filter : string) (top_comments replies_per_comment : Z)
  (model system_prompt user_prompt : string)
  : bool * SimpleScheduler * Disk :=
  let config :=
    config_of subreddit_config time_filter top_comments replies_per_comment
      model system_prompt user_prompt in
  save_config io scheduler disk (PyBool true) (PyInt hour) (PyInt minute)
    (PyStr timezone) config.

(** [disable_schedule] up to [scheduler.stop()]: the outcome, the scheduler
    and the disk.  [io_read] and [io_write] tell how the opening for
    reading and the write end. *)
Definition disable_schedule (io_read : outcome unit)
  (io_write : write_outcome) (scheduler : SimpleScheduler) (disk : Disk)
  : outcome unit * SimpleScheduler * Disk :=
  match disk with
  | Some _ =>
      let '(config, scheduler1) := load_config io_read scheduler disk in
      match config with
      | PyDict d =>
          let get k default := dict_get pykey_eqb (KStr k) default d in
          let '(_, scheduler2, disk2) :=
            save_config io_write scheduler1 disk (PyBool false)
              (get "hour" (PyInt 9)) (get "minute" (PyInt 0))
              (get "timezone" (PyStr "Etc/UTC")) (get "config" (PyDict [])) in
          (Ret tt, scheduler2, disk2)
      | _ =>
          (Raise (Exn AttributeError "object has no attribute 'get'"),
           scheduler1, disk)
      end
  | None => (Ret tt, scheduler, disk)
  end.

End App.

(* ================================================================== *)
(** * Further sample runs                                               *)
(* ================================================================== *)

Module Case.
Import Py Run.

(** The world [W] with the environment variable [name] unset. *)
Definition without_env (name : string) (W : World) : World :=
  {| getenv := fun v => if String.eqb v name then None else getenv W v;
     strftime_now := strftime_now W;
     reddit_top := reddit_top W;
     reddit_submission := reddit_submission W;
     reddit_close := reddit_close W;
     mail_fetch := mail_fetch W;
     mail_format := mail_format W;
     agent_run := agent_run W;
     tts_generate := tts_generate W;
     fs_mkdir := fs_mkdir W;
     fs_write := fs_write W;
     bot_new := bot_new W;
     bot_send_message := bot_send_message W;
     bot_send_document := bot_send_document W;
     bot_send_audio := bot_send_audio W |}.

(** The world [W] on a disk that is full: no file can be opened for
    writing. *)
Definition full_disk (W : World) : World :=
  {| getenv := getenv W;
     strftime_now := strftime_now W;
     reddit_top := reddit_top W;
     reddit_submission := reddit_submission W;
     reddit_close := reddit_close W;
     mail_fetch := mail_fetch W;
     mail_format := mail_format W;
     agent_run := agent_run W;
     tts_generate := tts_generate W;
     fs_mkdir := fs_mkdir W;
     fs_write := fun _ _ => OpenFails (Exn OSError "No space left on device");
     bot_new := bot_new W;
     bot_send_message := bot_send_message W;
     bot_send_document := bot_send_document W;
     bot_send_audio := bot_send_audio W |}.

(** The world [W] with a chat that refuses formatted messages and takes
    plain ones. *)
Definition plain_chat (W : World) : World :=
  {| getenv := getenv W;
     strftime_now := strftime_now W;
     reddit_top := reddit_top W;
     reddit_submission := reddit_submission W;
     reddit_close := reddit_close W;
     mail_fetch := mail_fetch W;
     mail_format := mail_format W;
     agent_run := agent_run W;
     tts_generate := tts_generate W;
     fs_mkdir := fs_mkdir W;
     fs_write := fs_write W;
     bot_new := bot_new W;
     bot_send_message := fun _ _ _ parse_mode =>
       match parse_mode with
       | Some _ => Raise (Exn ProviderError "Can't parse entities")
       | None => Ret tt
       end;
     bot_send_document := bot_send_document W;
     bot_send_audio := bot_send_audio W |}.

(** The world [W] with a forum client whose [close()] raises. *)
Definition close_fails (W : World) : World :=
  {| getenv := getenv W;
     strftime_now := strftime_now W;
     reddit_top := reddit_top W;
     reddit_submission := reddit_submission W;
     reddit_close := fun _ => Raise (Exn ProviderError "close failed");
     mail_fetch := mail_fetch W;
     mail_format := mail_format W;
     agent_run := agent_run W;
     tts_generate := tts_generate W;
     fs_mkdir := fs_mkdir W;
     fs_write := fs_write W;
     bot_new := bot_new W;
     bot_send_message := bot_send_message W;
     bot_send_document := bot_send_document W;
     bot_send_audio := bot_send_audio W |}.

(** The world [W] with a mail provider that is down. *)
Definition mail_down (W : World) : World :=
  {| getenv := getenv W;
     strftime_now := strftime_now W;
     reddit_top := reddit_top W;
     reddit_submission := reddit_submission W;
     reddit_close := reddit_close W;
     mail_fetch := fun _ _ _ _ _ _ => Raise (Exn ProviderError "mail down");
     mail_format := mail_format W;
     agent_run := agent_run W;
     tts_generate := tts_generate W;
     fs_mkdir := fs_mkdir W;
     fs_write := fs_write W;
     bot_new := bot_new W;
     bot_send_message := bot_send_message W;
     bot_send_document := bot_send_document W;
     bot_send_audio := bot_send_audio W |}.

(** The arguments [a] with another model name. *)
Definition with_model (model : string) (a : Workflow.Args) : Workflow.Args :=
  {| Workflow.subreddit_config := Workflow.subreddit_config a;
     Workflow.time_filter := Workflow.time_filter a;
     Workflow.top_comments := Workflow.top_comments a;
     Workflow.replies_per_comment := Workflow.replies_per_comment a;
     Workflow.model := model;
     Workflow.system_prompt := Workflow.system_prompt a;
     Workflow.user_prompt := Workflow.user_prompt a;
     Workflow.send_to_telegram := Workflow.send_to_telegram a;
     Workflow.generate_tts := Workflow.generate_tts a;
     Workflow.tts_model := Workflow.tts_model a;
     Workflow.voice_name := Workflow.voice_name a;
     Workflow.tone_instructions := Workflow.tone_instructions a;
     Workflow.fetch_emails := Workflow.fetch_emails a;
     Workflow.email_address := Workflow.email_address a;
     Workflow.email_password := Workflow.email_password a;
     Workflow.allowed_senders := Workflow.allowed_senders a;
     Workflow.email_hours_back := Workflow.email_hours_back a;
     Workflow.max_emails := Workflow.max_emails a;
     Workflow.gen_params := Workflow.gen_params a |}.

(** The arguments [a] with the narration switched off. *)
Definition without_narration (a : Workflow.Args) : Workflow.Args :=
  {| Workflow.subreddit_config := Workflow.subreddit_config a;
     Workflow.time_filter := Workflow.time_filter a;
     Workflow.top_comments := Workflow.top_comments a;
     Workflow.replies_per_comment := Workflow.replies_per_comment a;
     Workflow.model := Workflow.model a;
     Workflow.system_prompt := Workflow.system_prompt a;
     Workflow.user_prompt := Workflow.user_prompt a;
     Workflow.send_to_telegram := Workflow.send_to_telegram a;
     Workflow.generate_tts := false;
     Workflow.tts_model := Workflow.tts_model a;
     Workflow.voice_name := Workflow.voice_name a;
     Workflow.tone_instructions := Workflow.tone_instructions a;
     Workflow.fetch_emails := Workflow.fetch_emails a;
     Workflow.email_address := Workflow.email_address a;
     Workflow.email_password := Workflow.email_password a;
     Workflow.allowed_senders := Workflow.allowed_senders a;
     Workflow.email_hours_back := Workflow.email_hours_back a;
     Workflow.max_emails := Workflow.max_emails a;
     Workflow.gen_params := Workflow.gen_params a |}.

(** The arguments [a] with the newsletter of one sender switched on. *)
Definition with_newsletter (a : Workflow.Args) : Workflow.Args :=
  {| Workflow.subreddit_config := Workflow.subreddit_config a;
     Workflow.time_filter := Workflow.time_filter a;
     Workflow.top_comments := Workflow.top_comments a;
     Workflow.replies_per_comment := Workflow.replies_per_comment a;
     Workflow.model := Workflow.model a;
     Workflow.system_prompt := Workflow.system_prompt a;
     Workflow.user_prompt := Workflow.user_prompt a;
     Workflow.send_to_telegram := Workflow.send_to_telegram a;
     Workflow.generate_tts := Workflow.generate_tts a;
     Workflow.tts_model := Workflow.tts_model a;
     Workflow.voice_name := Workflow.voice_name a;
     Workflow.tone_instructions := Workflow.tone_instructions a;
     Workflow.fetch_emails := true;
     Workflow.email_address := Some "reader@example.org";
     Workflow.email_password := Some "secret";
     Workflow.allowed_senders := Some ["news@example.org"];
     Workflow.email_hours_back := Workflow.email_hours_back a;
     Workflow.max_emails := Workflow.max_emails a;
     Workflow.gen_params := Workflow.gen_params a |}.

(** The sample schedule with a count of comments that is no integer. *)
Definition schedule_bad_count : Schedule.SimpleScheduler :=
  {| Schedule.enabled := Json.PyBool true;
     Schedule.hour := Json.PyInt 7;
     Schedule.minute := Json.PyInt 0;
     Schedule.timezone := Json.PyStr "Etc/UTC";
     Schedule.config :=
       Json.PyDict [(Json.KStr "subreddit_config", Json.PyStr "LocalLLaMA:10");
                    (Json.KStr "top_comments", Json.PyStr "many")] |}.

(** A state in which the analysis file of a run is there. *)
Definition with_report : State :=
  {| tick := 0; dirs := ["outputs"];
     files := [("outputs/analysis.txt", Text "report")];
     chat := []; slept := 0 |}.

End Case.

(* ================================================================== *)
(** * Properties                                                        *)
(* ================================================================== *)

(** ** Ranking of comments and replies *)

Section Ranking.
Import Py Spec.

Variable A : Type.
Variable key : A -> Z.

Lemma insert_asc_In (x y : A) (l : list A) :
  In y (insert_asc key x l) <-> y = x \/ In y l.
Proof.
  induction l as [|z r IH]; simpl.
  - intuition.
  - destruct (key z <=? key x)%Z; simpl; rewrite ?IH; intuition.
Qed.













Lemma sorted_reverse_In (x : A) (l : list A) :
  In x (sorted_reverse key l) <-> In x l.
Proof.
  unfold sorted_reverse. rewrite <- in_rev.
  unfold sort_asc.
  assert (G : forall l acc,
             In x (fold_left (fun a y => insert_asc key y a) l acc)
             <-> In x l \/ In x acc).
  { clear l. induction l as [|y r IH]; intros acc; simpl.
    - intuition.
    - rewrite IH, insert_asc_In. intuition. }
  rewrite G, <- in_rev. simpl. intuition.
Qed.







End Ranking.

Section FetcherRanking.
Import Py Run Spec.





End FetcherRanking.

(** ** Effects of the building blocks *)

Section EffectLemmas.
Import Py Run Spec.

Lemma keeps_ret {A} (a : A) : keeps_files (ret a).
Proof. intro s. simpl. auto. Qed.

Lemma keeps_raise {A} (e : exn) : keeps_files (@raise A e).
Proof. intro s. simpl. auto. Qed.

Lemma keeps_lift {A} (o : outcome A) : keeps_files (lift o).
Proof. intro s. simpl. auto. Qed.

Lemma keeps_call {A} (f : nat -> outcome A) : keeps_files (call f).
Proof. intro s. simpl. auto. Qed.

Lemma keeps_sleep (n : nat) : keeps_files (sleep n).
Proof. intro s. simpl. auto. Qed.

Lemma keeps_now (W : World) (fmt : string) : keeps_files (now_strftime W fmt).
Proof. intro s. simpl. auto. Qed.

Lemma keeps_bind {A B} (m : M A) (k : A -> M B) :
  keeps_files m -> (forall a, keeps_files (k a)) -> keeps_files (bind m k).
Proof.
  intros Hm Hk s. unfold bind. specialize (Hm s).
  destruct (m s) as [[a|e] s1]; simpl in *.
  - destruct (Hk a s1) as [H1 H2]. destruct Hm as [H3 H4].
    split; congruence.
  - exact Hm.
Qed.

Lemma keeps_try_except {A} (m : M A) (h : exn -> M A) :
  keeps_files m -> (forall e, keeps_files (h e)) ->
  keeps_files (try_except m h).
Proof.
  intros Hm Hh s. unfold try_except. specialize (Hm s).
  destruct (m s) as [[a|e] s1]; simpl in *.
  - exact Hm.
  - destruct (Hh e s1) as [H1 H2]. destruct Hm as [H3 H4].
    split; congruence.
Qed.

Lemma keeps_try_finally {A} (m : M A) (f : M unit) :
  keeps_files m -> keeps_files f -> keeps_files (try_finally m f).
Proof.
  intros Hm Hf s. unfold try_finally. specialize (Hm s).
  destruct (m s) as [o s1]; simpl in *.
  specialize (Hf s1). destruct (f s1) as [[u|e] s2]; simpl in *;
    destruct Hm, Hf; split; congruence.
Qed.

Lemma keeps_if {A} (b : bool) (m1 m2 : M A) :
  keeps_files m1 -> keeps_files m2 -> keeps_files (if b then m1 else m2).
Proof. destruct b; auto. Qed.

Lemma returns_ret {A} (a : A) : returns (ret a).
Proof. intro s. exists a. reflexivity. Qed.

Lemma returns_bind {A B} (m : M A) (k : A -> M B) :
  returns m -> (forall a, returns (k a)) -> returns (bind m k).
Proof.
  intros Hm Hk s. unfold bind. destruct (Hm s) as [a Ha].
  destruct (m s) as [[a'|e] s1]; simpl in Ha; [| discriminate].
  apply Hk.
Qed.

Lemma returns_try_except {A} (m : M A) (h : exn -> M A) :
  (forall e, returns (h e)) -> returns (try_except m h).
Proof.
  intros Hh s. unfold try_except.
  destruct (m s) as [[a|e] s1]; [exists a; reflexivity | apply Hh].
Qed.

Lemma returns_if {A} (b : bool) (m1 m2 : M A) :
  returns m1 -> returns m2 -> returns (if b then m1 else m2).
Proof. destruct b; auto. Qed.

(** What a computation that returns gives as a pair. *)
Lemma returns_run {A} (m : M A) (s : State) :
  returns m -> exists a s', m s = (Ret a, s').
Proof.
  intro H. destruct (H s) as [a Ha].
  destruct (m s) as [o s']. simpl in Ha. subst. eauto.
Qed.

End EffectLemmas.

Create HintDb effects.

#[local] Hint Resolve keeps_ret keeps_raise keeps_lift keeps_call keeps_sleep
  keeps_now keeps_bind keeps_try_except keeps_try_finally keeps_if
  returns_ret returns_bind returns_try_except returns_if : effects.

(** ** The forum adapter *)

Section FetcherEffects.
Import Py Run Spec.
Variable W : World.


Lemma fetch_top_posts_keeps (subreddit : string) (limit : Z)
  (time_filter : string) :
  keeps_files (Fetcher.fetch_top_posts W subreddit limit time_filter).
Proof. unfold Fetcher.fetch_top_posts. auto 6 with effects. Qed.


Lemma fetch_post_comments_keeps (post_url : string) (n m : Z) :
  keeps_files (Fetcher.fetch_post_comments W post_url n m).
Proof. unfold Fetcher.fetch_post_comments. auto 8 with effects. Qed.


Lemma fetch_boards_keeps (cfg : list (string * Z)) (tf : string) :
  keeps_files (Fetcher.fetch_boards W cfg tf).
Proof.
  induction cfg as [|[name limit] rest IH]; simpl.
  - auto with effects.
  - apply keeps_bind; [apply fetch_top_posts_keeps |]. intro r.
    apply keeps_bind; [exact IH |]. auto with effects.
Qed.


Lemma fetch_posts_keeps (links : list string) (n m : Z) :
  keeps_files (Fetcher.fetch_posts W links n m).
Proof.
  induction links as [|link rest IH]; simpl.
  - auto with effects.
  - apply keeps_bind; [apply fetch_post_comments_keeps |]. intro t.
    apply keeps_bind.
    + destruct rest; auto with effects.
    + intros _. apply keeps_bind; [exact IH |]. auto with effects.
Qed.

Lemma fetch_all_reddit_data_keeps (cfg : list (string * Z)) (tf : string)
  (n m : Z) :
  keeps_files (Fetcher.fetch_all_reddit_data W cfg tf n m).
Proof.
  unfold Fetcher.fetch_all_reddit_data.
  apply keeps_bind; [apply fetch_boards_keeps |]. intros [texts links].
  simpl. destruct links; [auto with effects |].
  apply keeps_bind; [apply fetch_posts_keeps |]. auto with effects.
Qed.




End FetcherEffects.

(** ** The notification adapter *)

Section TelegramEffects.
Import Py Run Spec.
Variable W : World.

Lemma bot_message_keeps (chat_id text : string) (mode : option string) :
  keeps_files (Telegram.bot_message W chat_id text mode).
Proof.
  intro s. unfold Telegram.bot_message.
  destruct (bot_send_message W (tick s) chat_id text mode); simpl; auto.
Qed.

Lemma bot_document_keeps (chat_id path caption : string) :
  keeps_files (Telegram.bot_document W chat_id path caption).
Proof.
  intro s. unfold Telegram.bot_document.
  destruct (bot_send_document W (tick s) chat_id path caption); simpl; auto.
Qed.

Lemma bot_audio_keeps (chat_id path caption title : string) :
  keeps_files (Telegram.bot_audio W chat_id path caption title).
Proof.
  intro s. unfold Telegram.bot_audio.
  destruct (bot_send_audio W (tick s) chat_id path caption title);
    simpl; auto.
Qed.

Lemma open_rb_keeps (path : string) : keeps_files (Telegram.open_rb path).
Proof.
  intro s. unfold Telegram.open_rb.
  destruct (existsb _ (files s)); simpl; auto.
Qed.

Lemma send_telegram_message_returns (message : string)
  (mode : option string) :
  returns (Telegram.send_telegram_message W message mode).
Proof.
  unfold Telegram.send_telegram_message.
  destruct (negb _ || negb _); [auto with effects |].
  destruct (bot_new W _); auto with effects.
Qed.

Lemma send_telegram_message_keeps (message : string)
  (mode : option string) :
  keeps_files (Telegram.send_telegram_message W message mode).
Proof.
  pose proof bot_message_keeps.
  unfold Telegram.send_telegram_message.
  destruct (negb _ || negb _); [auto with effects |].
  destruct (bot_new W _); auto 8 with effects.
Qed.

Lemma send_telegram_document_returns (path caption : string) :
  returns (Telegram.send_telegram_document W path caption).
Proof. unfold Telegram.send_telegram_document. auto with effects. Qed.

Lemma send_telegram_document_keeps (path caption : string) :
  keeps_files (Telegram.send_telegram_document W path caption).
Proof.
  pose proof bot_document_keeps. pose proof open_rb_keeps.
  unfold Telegram.send_telegram_document.
  apply keeps_try_except; [| auto with effects].
  destruct (negb _ || negb _); auto 10 with effects.
Qed.

Lemma send_telegram_audio_returns (path caption : string) :
  returns (Telegram.send_telegram_audio W path caption).
Proof. unfold Telegram.send_telegram_audio. auto with effects. Qed.

Lemma send_telegram_audio_keeps (path caption : string) :
  keeps_files (Telegram.send_telegram_audio W path caption).
Proof.
  pose proof bot_audio_keeps. pose proof open_rb_keeps.
  unfold Telegram.send_telegram_audio.
  apply keeps_try_except; [| auto with effects].
  destruct (negb _ || negb _); auto 10 with effects.
Qed.

Lemma audio_send_returns (audio_file : option string) :
  returns (audio_send W audio_file).
Proof.
  unfold audio_send. apply returns_if;
    [apply send_telegram_audio_returns | auto with effects].
Qed.

Lemma send_analysis_results_returns (analysis_file : string)
  (cfg : list (string * Z)) (tf : string) (num_posts : nat)
  (audio_file : option string) :
  returns (Telegram.send_analysis_results W analysis_file cfg tf num_posts
             audio_file).
Proof.
  unfold Telegram.send_analysis_results.
  apply returns_bind; [apply send_telegram_message_returns |]. intro b1.
  apply returns_bind; [apply send_telegram_document_returns |]. intro b2.
  apply returns_bind; [apply audio_send_returns |]. auto with effects.
Qed.

Lemma send_analysis_results_keeps (analysis_file : string)
  (cfg : list (string * Z)) (tf : string) (num_posts : nat)
  (audio_file : option string) :
  keeps_files (Telegram.send_analysis_results W analysis_file cfg tf
                 num_posts audio_file).
Proof.
  unfold Telegram.send_analysis_results.
  apply keeps_bind; [apply send_telegram_message_keeps |]. intro b1.
  apply keeps_bind; [apply send_telegram_document_keeps |]. intro b2.
  apply keeps_bind; [| auto with effects].
  apply keeps_if; [apply send_telegram_audio_keeps | auto with effects].
Qed.

Lemma send_error_notification_returns (msg : string) :
  returns (Telegram.send_error_notification W msg).
Proof. apply send_telegram_message_returns. Qed.

Lemma send_error_notification_keeps (msg : string) :
  keeps_files (Telegram.send_error_notification W msg).
Proof. apply send_telegram_message_keeps. Qed.

End TelegramEffects.

(** ** The orchestrator *)

Section WorkflowLemmas.
Import Py Run Spec.
Variable W : World.

Lemma fetch_emails_keeps (addr pw : string) (senders : list string)
  (h m : Z) :
  keeps_files (Utils.fetch_emails W addr pw senders h m).
Proof.
  unfold Utils.fetch_emails. auto with effects.
Qed.

Lemma analyze_keeps (data up sp model : string) (g : GenParams) :
  keeps_files (Utils.analyze_reddit_data W data up sp model g).
Proof.
  unfold Utils.analyze_reddit_data. auto with effects.
Qed.

Lemma fetch_email_step_keeps (a : Workflow.Args) :
  keeps_files (Workflow.fetch_email_step W a).
Proof.
  unfold Workflow.fetch_email_step.
  apply keeps_if; [| auto with effects].
  apply keeps_bind; [apply fetch_emails_keeps |].
  intros [|e l]; auto with effects.
Qed.

Lemma gather_steps_keeps (a : Workflow.Args) :
  keeps_files (Workflow.gather_steps W a).
Proof.
  unfold Workflow.gather_steps.
  apply keeps_bind; [apply fetch_all_reddit_data_keeps |]. intro r.
  apply keeps_bind; [auto with effects |]. intros _.
  apply keeps_bind; [apply fetch_email_step_keeps |]. auto with effects.
Qed.

(** Nothing is written before the analysis has passed its check. *)
Lemma analysis_steps_keeps (a : Workflow.Args) :
  keeps_files (Workflow.analysis_steps W a).
Proof.
  unfold Workflow.analysis_steps.
  apply keeps_bind; [apply gather_steps_keeps |].
  intros [[[raw ec] em] cc].
  apply keeps_bind; [apply analyze_keeps |]. intro an.
  apply keeps_bind; auto with effects.
Qed.

Lemma tts_step_returns (a : Workflow.Args) (analysis folder : string) :
  returns (Workflow.tts_step W a analysis folder).
Proof.
  unfold Workflow.tts_step. auto with effects.
Qed.

Lemma telegram_step_returns (a : Workflow.Args) (af raw : string)
  (audio : option string) :
  returns (Workflow.telegram_step W a af raw audio).
Proof.
  unfold Workflow.telegram_step. apply returns_if; [| auto with effects].
  apply returns_bind; [apply send_analysis_results_returns |].
  auto with effects.
Qed.

(** The handler answers the error tuple and writes no file. *)
Lemma workflow_handler_result (a : Workflow.Args) (e : exn) (s : State) :
  exists s',
    Workflow.workflow_handler W a e s
    = (Ret (Workflow.error_tuple ("Error during workflow: " ++ str_exn e)),
       s')
    /\ dirs s' = dirs s /\ files s' = files s.
Proof.
  unfold Workflow.workflow_handler, bind.
  destruct (Workflow.send_to_telegram a).
  - destruct (returns_run s (send_error_notification_returns W
                ("Error during workflow: " ++ str_exn e))) as [b [s' H]].
    pose proof (send_error_notification_keeps W
                  ("Error during workflow: " ++ str_exn e) s) as K.
    rewrite H in *. simpl in *. exists s'. auto.
  - simpl. exists s. auto.
Qed.

(** What the persistence step returns are paths. *)
Lemma persist_steps_paths (a : Workflow.Args) (raw ec : string)
  (em : option (list Email)) (cc an : string) (s s' : State)
  (af rf folder lf : string) (ef : option string) :
  Workflow.persist_steps W a raw ec em cc an s
  = (Ret (af, rf, folder, ef, lf), s') ->
  truthy af = true /\ truthy rf = true.
Proof.
  unfold Workflow.persist_steps, bind.
  destruct (Utils.save_analysis_to_file W an _ _ _ raw s) as [[saved|e] s1];
    [| discriminate].
  destruct saved as [[[af' rf'] folder']|]; [| discriminate].
  destruct (truthy af') eqn:Ea; [| discriminate].
  destruct (truthy rf') eqn:Er; [| discriminate]. simpl.
  destruct (Utils.save_llm_input W raw _ _ _ _ cc folder' s1)
    as [[lf'|e] s2]; [| discriminate].
  destruct (match em with
            | Some (_ :: _ as l) =>
                bind (Utils.save_email_data W l folder')
                     (fun f => ret (Some f))
            | _ => ret None
            end s2) as [[ef'|e] s3] eqn:E; unfold bind in E; rewrite E;
    [| discriminate].
  simpl. intro H. inversion H; subst. auto.
Qed.

(** The [try] block returns nothing but a bundle. *)
Lemma workflow_steps_bundle (a : Workflow.Args) (s s' : State)
  (r : Workflow.Result) :
  Workflow.workflow_steps W a s = (Ret r, s') -> is_bundle r.
Proof.
  unfold Workflow.workflow_steps, bind.
  destruct (Workflow.analysis_steps W a s) as [[[[[[raw ec] em] cc] an]|e] s1];
    [| discriminate].
  destruct (Workflow.persist_steps W a raw ec em cc an s1)
    as [[[[[[af rf] folder] ef] lf]|e] s2] eqn:P; [| discriminate].
  destruct (Workflow.tts_step W a an folder s2) as [[audio|e] s3];
    [| discriminate].
  destruct (Workflow.telegram_step W a af raw audio s3) as [[u|e] s4];
    [| discriminate].
  simpl. intro H. inversion H; subst.
  destruct (persist_steps_paths _ _ _ _ _ _ _ P) as [Ha Hr].
  exists af, rf, audio, ef, lf. auto.
Qed.

(** A raise of the [try] block comes from the steps up to persistence:
    narration and notification raise nothing. *)
Lemma workflow_steps_raise (a : Workflow.Args) (s s' : State) (e : exn) :
  Workflow.workflow_steps W a s = (Raise e, s') ->
  Workflow.analysis_steps W a s = (Raise e, s')
  \/ exists raw ec em cc an s1,
       Workflow.analysis_steps W a s = (Ret (raw, ec, em, cc, an), s1)
       /\ Workflow.persist_steps W a raw ec em cc an s1 = (Raise e, s').
Proof.
  unfold Workflow.workflow_steps, bind.
  destruct (Workflow.analysis_steps W a s) as [[[[[[raw ec] em] cc] an]|e0] s1].
  - destruct (Workflow.persist_steps W a raw ec em cc an s1)
      as [[[[[[af rf] folder] ef] lf]|e1] s2] eqn:P.
    + destruct (returns_run s2 (tts_step_returns a an folder))
        as [audio [s3 Ht]]. rewrite Ht.
      destruct (returns_run s3 (telegram_step_returns a af raw audio))
        as [u [s4 Hg]]. rewrite Hg. simpl. discriminate.
    + intro H. inversion H; subst. right.
      exists raw, ec, em, cc, an, s1. auto.
  - intro H. inversion H; subst. auto.
Qed.

(** Once the mapping and the environment have passed the checks, the
    orchestrator is its [try] statement followed by the [close()] of the
    [finally] clause. *)
Lemma run_complete_workflow_accepted (a : Workflow.Args) (s : State) :
  accepted W a ->
  Workflow.run_complete_workflow W a s
  = try_finally
      (try_except (Workflow.workflow_steps W a)
                  (Workflow.workflow_handler W a))
      (call (reddit_close W)) s.
Proof.
  intros [Hc Hv]. unfold Workflow.run_complete_workflow.
  destruct (Workflow.subreddit_config a); [congruence |].
  destruct (Utils.validate_environment W) as [v missing].
  simpl in Hv. subst v. reflexivity.
Qed.

(** The [finally] clause: the outcome of the [try] statement when
    [close()] returns, the exception of [close()] when it raises. *)
Lemma finally_outcome {A} (m : M A) (s s1 : State) (o : outcome A) :
  m s = (o, s1) ->
  try_finally m (call (reddit_close W)) s
  = (match reddit_close W (tick s1) with
     | Ret _ => o
     | Raise e => Raise e
     end, next_tick s1).
Proof.
  intro H. unfold try_finally, call. rewrite H.
  destruct (reddit_close W (tick s1)); reflexivity.
Qed.

End WorkflowLemmas.

Section WorkflowClaims.
Import Py Run Spec.







(** A run whose [try] block raises before persistence leaves the file
    system as it was, and ends with the error tuple when [close()]
    returns, with the exception of [close()] when it raises. *)
Lemma early_raise_aborts (W : World) (a : Workflow.Args) (s s1 : State)
  (e : exn) :
  accepted W a ->
  Workflow.analysis_steps W a s = (Raise e, s1) ->
  exists s2,
    Workflow.run_complete_workflow W a s
    = (match reddit_close W (tick s2) with
       | Ret _ =>
           Ret (Workflow.error_tuple
                  ("Error during workflow: " ++ str_exn e))
       | Raise e' => Raise e'
       end, next_tick s2)
    /\ dirs (next_tick s2) = dirs s /\ files (next_tick s2) = files s.
Proof.
  intros Ha Hr.
  rewrite (run_complete_workflow_accepted s Ha).
  assert (Hs : Workflow.workflow_steps W a s = (Raise e, s1)).
  { unfold Workflow.workflow_steps, bind. rewrite Hr. reflexivity. }
  destruct (workflow_handler_result W a e s1) as [s2 [Hh [Hd Hf]]].
  assert (Ht : try_except (Workflow.workflow_steps W a)
                 (Workflow.workflow_handler W a) s
               = (Ret (Workflow.error_tuple
                         ("Error during workflow: " ++ str_exn e)), s2)).
  { unfold try_except. rewrite Hs. exact Hh. }
  exists s2. split; [eapply finally_outcome; exact Ht |].
  pose proof (analysis_steps_keeps W a s) as K. rewrite Hr in K.
  simpl in K. destruct K as [K1 K2]. simpl. split; congruence.
Qed.


(** C5, amended.  When the analysis returns a text that is empty or
    shorter than 100 characters, the run gives no bundle, and no directory
    was created and no file written; the run returns the error tuple when
    the [close()] of the [finally] clause returns, and raises the
    exception of [close()] when it raises. *)
Theorem short_analysis_is_rejected
  (W : World) (a : Workflow.Args) (s s1 s2 : State)
  (raw_reddit_data email_content : string) (emails : option (list Email))
  (combined_content analysis : string) :
  accepted W a ->
  Workflow.gather_steps W a s
  = (Ret (raw_reddit_data, email_content, emails, combined_content), s1) ->
  Utils.analyze_reddit_data W combined_content (Workflow.user_prompt a)
    (Workflow.system_prompt a) (Workflow.model a) (Workflow.gen_params a) s1
  = (Ret analysis, s2) ->
  analysis = "" \/ String.length analysis < 100 ->
  exists s3,
    Workflow.run_complete_workflow W a s
    = (match reddit_close W (tick s3) with
       | Ret _ =>
           Ret (Workflow.error_tuple
                  "Error during workflow: Analysis too short or empty")
       | Raise e' => Raise e'
       end, next_tick s3)
    /\ dirs (next_tick s3) = dirs s /\ files (next_tick s3) = files s.
Proof.
  intros Ha Hg Han Hshort.
  apply early_raise_aborts
    with (s1 := s2) (e := Exn ValueError "Analysis too short or empty");
    [exact Ha |].
  unfold Workflow.analysis_steps, bind. rewrite Hg, Han.
  assert (Ht : Workflow.too_short analysis = true).
  { unfold Workflow.too_short. destruct Hshort as [-> | Hl].
    - reflexivity.
    - apply orb_true_iff. right. apply Nat.ltb_lt. exact Hl. }
  rewrite Ht. reflexivity.
Qed.

End WorkflowClaims.

Section WorkflowWitnesses.
Import Py Run Spec.


(** C5 on the sample run whose analysis has 40 characters. *)
Lemma short_analysis_is_rejected_witness :
  exists s',
    Workflow.run_complete_workflow (Sample.world Sample.text40 true true)
      (Sample.args [("test", 2%Z)]) Sample.start
    = (Ret (Workflow.error_tuple
              "Error during workflow: Analysis too short or empty"), s')
    /\ dirs s' = dirs Sample.start /\ files s' = files Sample.start.
Proof.
  edestruct (@short_analysis_is_rejected
               (Sample.world Sample.text40 true true)
               (Sample.args [("test", 2%Z)]) Sample.start)
    as [s3 [Hr [Hd Hf]]].
  - split; [discriminate | reflexivity].
  - vm_compute. reflexivity.
  - vm_compute. reflexivity.
  - right. vm_compute. lia.
  - exists (next_tick s3). split; [exact Hr |]. split; assumption.
Defined.

(** C5, as stated, fails: the analysis of this run has 40 characters and
    the [try] block raises at the length check, but the [close()] of the
    [finally] clause raises, and the orchestrator raises that exception
    instead of returning an error. *)
Lemma close_failure_replaces_short_analysis_error :
  let W := Case.close_fails (Sample.world Sample.text40 true true) in
  let a := Sample.args [("test", 2%Z)] in
  fst (Workflow.analysis_steps W a Sample.start)
  = Raise (Exn ValueError "Analysis too short or empty")
  /\ fst (Workflow.run_complete_workflow W a Sample.start)
     = Raise (Exn ProviderError "close failed").
Proof. split; vm_compute; reflexivity. Qed.

End WorkflowWitnesses.

Section NotificationClaims.
Import Py Run Spec.

(** The answer of [send_analysis_results] is the conjunction of its three
    sends, each of which returns. *)
Lemma send_analysis_results_conj (W : World) (analysis_file : string)
  (cfg : list (string * Z)) (tf : string) (num_posts : nat)
  (audio_file : option string) (st : State) :
  exists msg_success file_success audio_success t1 t2 t3,
    Telegram.send_telegram_message W
      (Telegram.results_message cfg tf num_posts audio_file)
      (Some "Markdown") st = (Ret msg_success, t1)
    /\ Telegram.send_telegram_document W analysis_file
         "📄 Full AI Analysis Report" t1 = (Ret file_success, t2)
    /\ audio_send W audio_file t2 = (Ret audio_success, t3)
    /\ Telegram.send_analysis_results W analysis_file cfg tf num_posts
         audio_file st
       = (Ret (msg_success && file_success && audio_success), t3).
Proof.
  destruct (returns_run st
              (send_telegram_message_returns W
                 (Telegram.results_message cfg tf num_posts audio_file)
                 (Some "Markdown"))) as [m [t1 H1]].
  destruct (returns_run t1
              (send_telegram_document_returns W analysis_file
                 "📄 Full AI Analysis Report")) as [f [t2 H2]].
  destruct (returns_run t2 (audio_send_returns W audio_file))
    as [x [t3 H3]].
  exists m, f, x, t1, t2, t3. repeat split; try assumption.
  unfold Telegram.send_analysis_results, bind. rewrite H1, H2.
  unfold audio_send in H3. rewrite H3. reflexivity.
Qed.

(** C8, amended.  When the steps up to persistence complete, the [try]
    block returns the paths that persistence produced, whatever the
    narration and the sends do: the narration step returns, and gives no
    audio path when the narration adapter raises; the notification
    returns the conjunction of its three sends, each of which returns;
    the tuple is a bundle.  The run returns this tuple when the [close()]
    of the [finally] clause returns, and raises the exception of
    [close()] when it raises. *)
Theorem narration_and_notification_keep_bundle
  (W : World) (a : Workflow.Args) (s s1 s2 : State)
  (raw_reddit_data email_content : string) (emails : option (list Email))
  (combined_content analysis : string)
  (analysis_file raw_data_file run_folder llm_input_file : string)
  (email_data_file : option string) :
  accepted W a ->
  Workflow.analysis_steps W a s
  = (Ret (raw_reddit_data, email_content, emails, combined_content,
          analysis), s1) ->
  Workflow.persist_steps W a raw_reddit_data email_content emails
    combined_content analysis s1
  = (Ret (analysis_file, raw_data_file, run_folder, email_data_file,
          llm_input_file), s2) ->
  exists audio_file s3 s4,
    Workflow.tts_step W a analysis run_folder s2 = (Ret audio_file, s3)
    /\ (forall e sx,
          Utils.generate_audio W
            (Telegram.env_value (Workflow.tts_model a)) analysis
            (Telegram.env_value (Workflow.voice_name a))
            (Workflow.tone_instructions a) run_folder s2 = (Raise e, sx) ->
          audio_file = None)
    /\ Workflow.workflow_steps W a s
       = (Ret (analysis_file, Some raw_data_file, audio_file,
               email_data_file, Some llm_input_file), s4)
    /\ Workflow.run_complete_workflow W a s
       = (match reddit_close W (tick s4) with
          | Ret _ =>
              Ret (analysis_file, Some raw_data_file, audio_file,
                   email_data_file, Some llm_input_file)
          | Raise e' => Raise e'
          end, next_tick s4)
    /\ is_bundle (analysis_file, Some raw_data_file, audio_file,
                  email_data_file, Some llm_input_file)
    /\ (forall file cfg tf num_posts audio st,
          exists msg_success file_success audio_success t1 t2 t3,
            Telegram.send_telegram_message W
              (Telegram.results_message cfg tf num_posts audio)
              (Some "Markdown") st = (Ret msg_success, t1)
            /\ Telegram.send_telegram_document W file
                 "📄 Full AI Analysis Report" t1 = (Ret file_success, t2)
            /\ audio_send W audio t2 = (Ret audio_success, t3)
            /\ Telegram.send_analysis_results W file cfg tf num_posts
                 audio st
               = (Ret (msg_success && file_success && audio_success), t3)).
Proof.
  intros Ha Han Hp.
  destruct (returns_run s2 (tts_step_returns W a analysis run_folder))
    as [audio [s3 Ht]].
  destruct (returns_run s3
              (telegram_step_returns W a analysis_file raw_reddit_data audio))
    as [u [s4 Hg]].
  assert (Hs : Workflow.workflow_steps W a s
               = (Ret (analysis_file, Some raw_data_file, audio,
                       email_data_file, Some llm_input_file), s4)).
  { unfold Workflow.workflow_steps, bind. rewrite Han, Hp, Ht, Hg.
    reflexivity. }
  exists audio, s3, s4.
  split; [exact Ht |]. split.
  { intros e sx He. revert Ht. unfold Workflow.tts_step.
    destruct (Workflow.generate_tts a && _ && _).
    - unfold try_except, bind. rewrite He. unfold ret. congruence.
    - unfold ret. congruence. }
  split; [exact Hs |]. split.
  { rewrite (run_complete_workflow_accepted s Ha).
    eapply finally_outcome. unfold try_except. rewrite Hs. reflexivity. }
  split; [eapply workflow_steps_bundle; exact Hs |].
  intros. apply send_analysis_results_conj.
Qed.

(** C8 on the sample run whose narration adapter and message sends
    fail. *)
Lemma narration_and_notification_keep_bundle_witness :
  exists s',
    Workflow.run_complete_workflow (Sample.world Sample.text120 false false)
      (Sample.args [("test", 2%Z)]) Sample.start
    = (Ret ("outputs/run_2025-01-01_07-00-00/analysis.txt",
            Some "outputs/run_2025-01-01_07-00-00/raw_data.txt",
            None, None,
            Some "outputs/run_2025-01-01_07-00-00/llm_input.txt"), s').
Proof.
  edestruct (@narration_and_notification_keep_bundle
               (Sample.world Sample.text120 false false)
               (Sample.args [("test", 2%Z)]) Sample.start)
    as [audio [s3 [s4 [Ht [Hn [_ [Hr _]]]]]]].
  - split; [discriminate | reflexivity].
  - vm_compute. reflexivity.
  - vm_compute. reflexivity.
  - assert (Hnone : audio = None) by (eapply Hn; vm_compute; reflexivity).
    exists (next_tick s4). rewrite Hr, Hnone. reflexivity.
Defined.

(** C8, as stated, fails: fetch, analysis and persistence of this run
    complete and the [try] block returns the paths, narration and message
    sends having failed; but the [close()] of the [finally] clause raises,
    and the orchestrator raises that exception instead of returning the
    paths of the files it wrote. *)
Lemma close_failure_loses_bundle :
  let W := Case.close_fails (Sample.world Sample.text120 false false) in
  let a := Sample.args [("test", 2%Z)] in
  fst (Workflow.workflow_steps W a Sample.start)
  = Ret ("outputs/run_2025-01-01_07-00-00/analysis.txt",
         Some "outputs/run_2025-01-01_07-00-00/raw_data.txt",
         None, None,
         Some "outputs/run_2025-01-01_07-00-00/llm_input.txt")
  /\ Notion.file_exists "outputs/run_2025-01-01_07-00-00/analysis.txt"
       (snd (Workflow.run_complete_workflow W a Sample.start)) = true
  /\ fst (Workflow.run_complete_workflow W a Sample.start)
     = Raise (Exn ProviderError "close failed").
Proof. repeat split; vm_compute; reflexivity. Qed.

End NotificationClaims.

(** ** The schedule record *)

Section JsonRoundTrip.
Import Py Json Spec.

Lemma pykey_eqb_refl (k : pykey) : pykey_eqb k k = true.
Proof.
  destruct k; simpl; [apply String.eqb_refl | apply Z.eqb_refl].
Qed.

Lemma pykey_eqb_sym (a b : pykey) : pykey_eqb a b = pykey_eqb b a.
Proof.
  destruct a, b; simpl; try reflexivity;
    [apply String.eqb_sym | apply Z.eqb_sym].
Qed.

(** A new key goes last. *)
Lemma dict_set_new {V} (k : pykey) (v : V) (d : list (pykey * V)) :
  existsb (pykey_eqb k) (map fst d) = false ->
  dict_set pykey_eqb k v d = (d ++ [(k, v)])%list.
Proof.
  induction d as [|[k' v'] r IH]; simpl; [reflexivity |].
  intro H. apply orb_false_iff in H. destruct H as [H1 H2].
  rewrite H1, (IH H2). reflexivity.
Qed.

Lemma nodup_keys_app_cons (l : list pykey) (k : pykey) (r : list pykey) :
  nodup_keys (l ++ k :: r) = true ->
  existsb (pykey_eqb k) l = false
  /\ nodup_keys ((l ++ [k]) ++ r) = true.
Proof.
  intro H. split.
  - induction l as [|a l IH]; simpl in *; [reflexivity |].
    apply andb_true_iff in H. destruct H as [Ha Hl].
    rewrite (IH Hl), orb_false_r.
    apply negb_true_iff in Ha. rewrite existsb_app in Ha.
    apply orb_false_iff in Ha. destruct Ha as [_ Ha]. simpl in Ha.
    apply orb_false_iff in Ha. destruct Ha as [Ha _].
    rewrite pykey_eqb_sym. exact Ha.
  - rewrite <- app_assoc. exact H.
Qed.

(** Items without a repeated key build the dictionary that lists them. *)
Lemma fold_dict_set_nodup {V} (items acc : list (pykey * V)) :
  nodup_keys (map fst acc ++ map fst items) = true ->
  fold_left (fun d kv => dict_set pykey_eqb (fst kv) (snd kv) d) items acc
  = (acc ++ items)%list.
Proof.
  revert acc. induction items as [|[k v] r IH]; intros acc H; simpl.
  - now rewrite app_nil_r.
  - simpl in H. destruct (nodup_keys_app_cons _ _ _ H) as [Hk Hn].
    rewrite dict_set_new by exact Hk. rewrite IH.
    + rewrite <- app_assoc. reflexivity.
    + rewrite map_app. simpl. exact Hn.
Qed.

Lemma dict_of_items_nodup {V} (items : list (pykey * V)) :
  nodup_keys (map fst items) = true ->
  dict_of_items pykey_eqb items = items.
Proof.
  intro H. unfold dict_of_items.
  rewrite fold_dict_set_nodup; [reflexivity | exact H].
Qed.

(** [json.load] gives back what [json.dump] was given, for a value that
    JSON represents as it is. *)
Lemma decode_encode :
  forall v : pyval, json_native v = true -> decode (encode v) = v.
Proof.
  fix IH 1. intros [ | b | z | s | l | l | d]; simpl; intro H;
    try reflexivity; try discriminate.
  - f_equal. rewrite map_map.
    induction l as [|x r IHl]; simpl in *; [reflexivity |].
    apply andb_true_iff in H. destruct H as [Hx Hr].
    rewrite (IH x Hx), (IHl Hr). reflexivity.
  - f_equal.
    apply andb_true_iff in H. destruct H as [H Hv].
    apply andb_true_iff in H. destruct H as [Hk Hn].
    rewrite map_map. simpl.
    assert (E : map (fun kv : pykey * pyval =>
                       (KStr (key_text (fst kv)), decode (encode (snd kv))))
                    d = d).
    { clear Hn. induction d as [|[k x] r IHd]; simpl in *; [reflexivity |].
      apply andb_true_iff in Hk. destruct Hk as [Hk Hkr].
      apply andb_true_iff in Hv. destruct Hv as [Hx Hvr].
      rewrite (IH x Hx), (IHd Hkr Hvr).
      destruct k; [reflexivity | discriminate]. }
    rewrite E. apply dict_of_items_nodup. exact Hn.
Qed.

End JsonRoundTrip.

Section ScheduleRecord.
Import Py Json Schedule Spec.

Lemma record_is_native (b : bool) (h m : Z) (tz : string)
  (d : list (pykey * pyval)) :
  json_native (PyDict d) = true ->
  json_native (record_of (PyBool b) (PyInt h) (PyInt m) (PyStr tz) (PyDict d))
  = true.
Proof.
  intro H. unfold record_of.
  change (json_native (PyDict d) && true = true).
  rewrite H. reflexivity.
Qed.

(** C3.  For a valid schedule state [s], a successful [save_config] of
    the fields of [s] leaves a disk from which [load_config] returns the
    record of [s] and fills the scheduler that loads (the same one, or the
    one of a later process) with exactly the fields of [s]; the scheduler
    that saved holds [s] as well. *)
Theorem save_then_load_is_identity
  (s self loader : SimpleScheduler) (disk : Disk) :
  valid_schedule s = true ->
  exists disk',
    save_config WriteOk self disk (enabled s) (hour s) (minute s)
      (timezone s) (config s) = (true, s, disk')
    /\ load_config (Ret tt) loader disk' = (record_of_schedule s, s).
Proof.
  destruct s as [en hr mi tz cf]. unfold valid_schedule. simpl.
  destruct en as [| b | | | | |]; try discriminate.
  destruct hr as [| | h | | | |]; try discriminate.
  destruct mi as [| | m | | | |]; try discriminate.
  destruct tz as [| | | z | | |]; try discriminate.
  destruct cf as [| | | | | | d]; try discriminate.
  intro H. apply andb_true_iff in H. destruct H as [_ Hn].
  exists (Some (Document
                  (encode (record_of (PyBool b) (PyInt h) (PyInt m) (PyStr z)
                             (PyDict d))))).
  split; [reflexivity |].
  unfold load_config, record_of_schedule.
  cbn [enabled hour minute timezone config].
  rewrite (decode_encode _ (record_is_native b h m z d Hn)).
  reflexivity.
Qed.

(** C3 on the sample schedule. *)
Lemma save_then_load_is_identity_witness :
  exists disk',
    save_config WriteOk init None (enabled Sample.schedule)
      (hour Sample.schedule) (minute Sample.schedule)
      (timezone Sample.schedule) (config Sample.schedule)
    = (true, Sample.schedule, disk')
    /\ load_config (Ret tt) init disk'
       = (record_of_schedule Sample.schedule, Sample.schedule).
Proof.
  apply (@save_then_load_is_identity Sample.schedule init init None).
  vm_compute. reflexivity.
Defined.

(** A disk that holds a record, for the example below. *)
Lemma sample_disk_holds_record :
  load_config (Ret tt) init
    (Some (Document (encode (record_of_schedule Sample.schedule))))
  = (record_of_schedule Sample.schedule, Sample.schedule).
Proof. vm_compute. reflexivity. Qed.

(** C6, as stated, fails: the write of a call that fails after the file
    was opened leaves a disk that no longer holds the record it held. *)
Lemma save_failure_changes_disk :
  let disk := Some (Document (encode (record_of_schedule Sample.schedule))) in
  let r := save_config (WriteFails (Exn OSError "No space left on device"))
             Sample.schedule disk (PyBool false) (PyInt 9) (PyInt 0)
             (PyStr "Etc/UTC") (PyDict []) in
  fst (fst r) = false /\ snd r <> disk.
Proof.
  cbv zeta. split; [reflexivity |]. simpl. discriminate.
Qed.

(** C6, amended.  A [save_config] whose write fails answers [False] and
    leaves the fields of the scheduler as they were; the disk is as it was
    when the file could not be opened, and holds no record when the
    failure came after the file was opened.  A write that succeeds puts on
    disk the full new record, whatever the disk and the scheduler held
    before, and the new fields into the scheduler. *)
Theorem save_failure_keeps_memory
  (io : write_outcome) (self : SimpleScheduler) (disk : Disk)
  (en hr mi tz cf : pyval) :
  (forall e, io = OpenFails e ->
     save_config io self disk en hr mi tz cf = (false, self, disk))
  /\ (forall e, io = WriteFails e ->
        save_config io self disk en hr mi tz cf = (false, self, Some Corrupt))
  /\ (io = WriteOk ->
        snd (save_config io self disk en hr mi tz cf)
        = Some (Document (encode (record_of en hr mi tz cf)))
        /\ snd (fst (save_config io self disk en hr mi tz cf))
           = {| enabled := en; hour := hr; minute := mi; timezone := tz;
                config := cf |}).
Proof.
  split; [intros e ->; reflexivity |].
  split; [intros e ->; reflexivity |].
  intros ->. unfold save_config.
  destruct (fmt_02d_of hr), (fmt_02d_of mi); auto.
Qed.

(** C6 amended, on the sample schedule when the file cannot be opened. *)
Lemma save_failure_keeps_memory_witness :
  save_config (OpenFails (Exn OSError "Permission denied")) Sample.schedule
    (Some Corrupt) (PyBool false) (PyInt 9) (PyInt 0) (PyStr "Etc/UTC")
    (PyDict [])
  = (false, Sample.schedule, Some Corrupt).
Proof.
  destruct (save_failure_keeps_memory
              (OpenFails (Exn OSError "Permission denied")) Sample.schedule
              (Some Corrupt) (PyBool false) (PyInt 9) (PyInt 0)
              (PyStr "Etc/UTC") (PyDict [])) as [H _].
  exact (H _ eq_refl).
Defined.

End ScheduleRecord.

(** ** The scheduled firing *)

Section Firing.
Import Py Json Schedule Spec.

Variable Env : Type.
Variable workflow :
  WorkflowArgs -> Env -> outcome (string * option string) * Env * nat.
Variable notification : string -> Env -> outcome bool * Env * nat.
Variable zones : pyval -> outcome tzinfo.
Variable stop : Z -> bool.














(** A turn that starts at the trigger time fires. *)
Lemma check_cycle_fires (self : SimpleScheduler) (t : Thread Env)
  (tz : tzinfo) :
  py_truthy (enabled self) = true ->
  zones (timezone self) = Ret tz ->
  shows_trigger tz self (clock t) ->
  check_cycle workflow notification zones self t
  = sleep 60 (sleep 60 (run_analysis workflow notification self t)).
Proof.
  intros He Hz Hs. unfold check_cycle. rewrite He, Hz.
  unfold shows_trigger in Hs. rewrite Hs. reflexivity.
Qed.



(** C10.  When the stored board string parses to an empty mapping (the
    empty string does), a firing changes nothing: no call of the
    orchestrator, no error notification, no exception; and the check
    cycle goes on after its two sleeps. *)
Theorem empty_board_mapping_skips_run
  (self : SimpleScheduler) (t : Thread Env) (d : list (pykey * pyval))
  (text : string) :
  config self = PyDict d ->
  stored d "subreddit_config" (PyStr "") = PyStr text ->
  parse_subreddit_config text = [] ->
  parse_subreddit_config "" = []
  /\ run_analysis workflow notification self t = t
  /\ (forall fuel tz,
        stop (clock t) = false ->
        py_truthy (enabled self) = true ->
        zones (timezone self) = Ret tz ->
        shows_trigger tz self (clock t) ->
        scheduler_loop workflow notification zones stop (S fuel) self t
        = scheduler_loop workflow notification zones stop fuel self
            (sleep 60 (sleep 60 t))).
Proof.
  intros Hd Ht Hp.
  assert (Ha : workflow_args self = Ret None).
  { unfold workflow_args. rewrite Hd. unfold stored in Ht.
    rewrite Ht, Hp. reflexivity. }
  assert (Hr : run_analysis workflow notification self t = t).
  { unfold run_analysis. rewrite Ha. reflexivity. }
  split; [reflexivity |]. split; [exact Hr |].
  intros fuel tz Hstop He Hz Hs. simpl. rewrite Hstop.
  erewrite check_cycle_fires; [| exact He | exact Hz | exact Hs].
  rewrite Hr. reflexivity.
Qed.

End Firing.

Section FiringWitnesses.
Import Py Json Schedule Spec.



(** C10 on the sample schedule without a valid board. *)
Lemma empty_board_mapping_skips_run_witness :
  run_analysis Sample.quick_workflow Sample.quick_notification
    Sample.schedule_without_board Sample.at_seven = Sample.at_seven
  /\ scheduler_loop Sample.quick_workflow Sample.quick_notification
       Sample.held_zone Sample.never_stopped 2
       Sample.schedule_without_board Sample.at_seven
     = scheduler_loop Sample.quick_workflow Sample.quick_notification
         Sample.held_zone Sample.never_stopped 1
         Sample.schedule_without_board (sleep 60 (sleep 60 Sample.at_seven)).
Proof.
  destruct (@empty_board_mapping_skips_run unit Sample.quick_workflow
              Sample.quick_notification Sample.held_zone
              Sample.never_stopped Sample.schedule_without_board
              Sample.at_seven
              [(KStr "subreddit_config",
                PyStr "LocalLLaMA, artificial:many")]
              "LocalLLaMA, artificial:many" eq_refl eq_refl eq_refl)
    as [_ [Hr Hl]].
  split; [exact Hr |].
  apply (Hl 1%nat Sample.held); reflexivity.
Defined.

End FiringWitnesses.

(* ================================================================== *)
(** * Further properties                                                *)
(* ================================================================== *)

Unset Implicit Arguments.

(** ** Strings and integer literals *)

Section StringFacts.
Import Py.

Lemma rev_onto_rev_onto (s acc acc' : string) :
  string_rev_onto (string_rev_onto s acc) acc'
  = string_rev_onto acc (s ++ acc').
Proof.
  revert acc acc'. induction s as [|c r IH]; intros acc acc'; simpl.
  - reflexivity.
  - rewrite IH. reflexivity.
Qed.

Lemma string_rev_involutive (s : string) : string_rev (string_rev s) = s.
Proof.
  unfold string_rev. rewrite rev_onto_rev_onto. simpl.
  induction s as [|c r IH]; simpl; [reflexivity | now rewrite IH].
Qed.

Lemma rev_onto_app (a b acc : string) :
  string_rev_onto (a ++ b) acc = string_rev_onto b (string_rev_onto a acc).
Proof.
  revert acc. induction a as [|c r IH]; intro acc; simpl;
    [reflexivity | apply IH].
Qed.

Lemma rev_onto_length (s acc : string) :
  String.length (string_rev_onto s acc)
  = (String.length s + String.length acc)%nat.
Proof.
  revert acc. induction s as [|c r IH]; intro acc; simpl;
    [reflexivity |]. rewrite IH. simpl. lia.
Qed.

Lemma lstrip_length (s : string) :
  (String.length (lstrip s) <= String.length s)%nat.
Proof.
  induction s as [|c r IH]; simpl; [lia |].
  destruct (is_space c); simpl; lia.
Qed.

Lemma rstrip_length (s : string) :
  (String.length (rstrip s) <= String.length s)%nat.
Proof.
  unfold rstrip, string_rev. rewrite rev_onto_length. simpl.
  pose proof (lstrip_length (string_rev_onto s "")) as H.
  rewrite rev_onto_length in H. simpl in H. lia.
Qed.

(** A string that [lstrip] leaves at its length is left as it is. *)
Lemma lstrip_same_length (s : string) :
  String.length (lstrip s) = String.length s -> lstrip s = s.
Proof.
  destruct s as [|c r]; simpl; [reflexivity |].
  destruct (is_space c); [| reflexivity].
  pose proof (lstrip_length r). simpl. lia.
Qed.

Lemma strip_fixed_lstrip (s : string) : strip s = s -> lstrip s = s.
Proof.
  intro H. apply lstrip_same_length.
  pose proof (lstrip_length s). pose proof (rstrip_length (lstrip s)).
  unfold strip in H. rewrite H in *. lia.
Qed.

Lemma strip_fixed_rstrip (s : string) : strip s = s -> rstrip s = s.
Proof.
  intro H. pose proof (strip_fixed_lstrip s H) as L.
  unfold strip in H. rewrite L in H. exact H.
Qed.

(** [rstrip] leaves a string that ends with no whitespace. *)
Lemma rstrip_last (a : string) (c : ascii) :
  is_space c = false -> rstrip (a ++ String c "") = a ++ String c "".
Proof.
  intro H. unfold rstrip, string_rev. rewrite rev_onto_app. simpl.
  rewrite H. change (String c (string_rev_onto a ""))
    with (string_rev_onto (String c "") (string_rev_onto a "")).
  rewrite <- rev_onto_app.
  exact (string_rev_involutive (a ++ String c "")).
Qed.

(** [rstrip] does not look before a last character that is no
    whitespace. *)
Lemma rstrip_app_last (a b : string) (c : ascii) :
  is_space c = false ->
  rstrip (a ++ b ++ String c "") = a ++ b ++ String c "".
Proof.
  intro H. replace (a ++ b ++ String c "") with ((a ++ b) ++ String c "").
  - now apply rstrip_last.
  - clear. induction a as [|x r IH]; simpl; [reflexivity | now rewrite IH].
Qed.

Lemma append_assoc (a b c : string) : (a ++ b) ++ c = a ++ b ++ c.
Proof.
  induction a as [|x r IH]; simpl; [reflexivity | now rewrite IH].
Qed.

Lemma ascii_eqb_sym (a b : ascii) : Ascii.eqb a b = Ascii.eqb b a.
Proof.
  destruct (Ascii.eqb a b) eqn:E.
  - apply Ascii.eqb_eq in E. subst. symmetry. apply Ascii.eqb_refl.
  - destruct (Ascii.eqb b a) eqn:E'; [| reflexivity].
    apply Ascii.eqb_eq in E'. subst. rewrite Ascii.eqb_refl in E.
    discriminate.
Qed.

Lemma contains_char_app (c : ascii) (a b : string) :
  contains_char c (a ++ b) = contains_char c a || contains_char c b.
Proof.
  induction a as [|x r IH]; simpl; [reflexivity |].
  rewrite IH. apply orb_assoc.
Qed.

(** A text without the separator is one piece. *)
Lemma split_on_none (sep : ascii) (s : string) :
  contains_char sep s = false -> split_on sep s = [s].
Proof.
  induction s as [|c r IH]; simpl; [reflexivity |].
  intro H. apply orb_false_iff in H. destruct H as [H1 H2].
  rewrite ascii_eqb_sym, H1, (IH H2). reflexivity.
Qed.

(** The first piece ends at the first separator. *)
Lemma split_on_app (sep : ascii) (a b : string) :
  contains_char sep a = false ->
  split_on sep (a ++ String sep b) = a :: split_on sep b.
Proof.
  induction a as [|c r IH]; simpl.
  - intros _. rewrite Ascii.eqb_refl. reflexivity.
  - intro H. apply orb_false_iff in H. destruct H as [H1 H2].
    rewrite ascii_eqb_sym, H1, (IH H2). reflexivity.
Qed.

Lemma split_once_app (sep : ascii) (a b : string) :
  contains_char sep a = false ->
  split_once sep (a ++ String sep b) = (a, b).
Proof.
  induction a as [|c r IH]; simpl.
  - intros _. rewrite Ascii.eqb_refl. reflexivity.
  - intro H. apply orb_false_iff in H. destruct H as [H1 H2].
    rewrite ascii_eqb_sym, H1, (IH H2). reflexivity.
Qed.

Lemma parse_digits_step (c : ascii) (r : string) (acc k : Z) (p : bool) :
  digit_of c = Some k ->
  parse_digits (String c r) acc p = parse_digits r (10 * acc + k) true.
Proof. intro H. cbn [parse_digits]. rewrite H. reflexivity. Qed.

(** The digits of a decimal number, read with an accumulator. *)
Lemma parse_digits_acc (d : Decimal.uint) (acc : positive) :
  parse_digits (NilEmpty.string_of_uint d) (Z.pos acc) true
  = Some (Z.pos (Pos.of_uint_acc d acc)).
Proof.
  revert acc. induction d; intro acc;
    cbn [NilEmpty.string_of_uint Pos.of_uint_acc];
    [reflexivity | ..];
    (erewrite parse_digits_step by reflexivity;
     rewrite <- IHd; f_equal;
     match goal with
     | |- context [Z.of_nat ?n] =>
         let v := eval vm_compute in (Z.of_nat n) in
         change (Z.of_nat n) with v
     end; lia).
Qed.

Lemma parse_digits_uint (d : Decimal.uint) :
  parse_digits (NilEmpty.string_of_uint d) 0 true
  = Some (Z.of_N (Pos.of_uint d)).
Proof.
  induction d; cbn [NilEmpty.string_of_uint Pos.of_uint];
    [reflexivity | ..];
    erewrite parse_digits_step by reflexivity;
    [exact IHd | ..]; cbn [Z.of_N]; apply parse_digits_acc.
Qed.

Lemma parse_digits_first (d : Decimal.uint) :
  d <> Decimal.Nil ->
  parse_digits (NilEmpty.string_of_uint d) 0 false
  = parse_digits (NilEmpty.string_of_uint d) 0 true.
Proof. destruct d; [congruence | reflexivity ..]. Qed.

(** The text of a positive number ends with a digit and holds no
    whitespace at its start. *)
Lemma uint_text_shape (d : Decimal.uint) :
  d <> Decimal.Nil ->
  lstrip (NilEmpty.string_of_uint d) = NilEmpty.string_of_uint d
  /\ exists a c, NilEmpty.string_of_uint d = a ++ String c ""
                 /\ is_space c = false.
Proof.
  intro H. split; [destruct d; [congruence | reflexivity ..] |].
  assert (G : forall d,
             d = Decimal.Nil
             \/ exists a c, NilEmpty.string_of_uint d = a ++ String c ""
                            /\ is_space c = false).
  { clear. induction d; [left; reflexivity | right ..];
      (destruct IHd as [-> | [a [c [E Hc]]]];
       [ eexists "", _; split; [reflexivity | reflexivity]
       | simpl; rewrite E; eexists (String _ a), c;
         split; [reflexivity | exact Hc] ]). }
  destruct (G d) as [E | G']; [congruence | exact G'].
Qed.

End StringFacts.

Section IntegerText.
Import Py.

(** The text of an integer: no whitespace at its start, a digit at its
    end. *)
Lemma str_int_shape (z : Z) :
  lstrip (str_int z) = str_int z
  /\ exists a c, str_int z = a ++ String c "" /\ is_space c = false.
Proof.
  unfold str_int. destruct z as [|p|p]; cbn [Z.to_int NilZero.string_of_int].
  - split; [reflexivity |]. exists "", "0"%char. split; reflexivity.
  - pose proof (Unsigned.to_uint_nonnil p) as Hn.
    destruct (uint_text_shape _ Hn) as [Hl Hr].
    unfold NilZero.string_of_uint.
    destruct (Pos.to_uint p); [congruence | ..]; split; assumption.
  - pose proof (Unsigned.to_uint_nonnil p) as Hn.
    destruct (uint_text_shape _ Hn) as [Hl [a [c [E Hc]]]].
    unfold NilZero.string_of_uint.
    destruct (Pos.to_uint p); [congruence | ..];
      (split; [reflexivity |];
       exists (String "-" a), c; split; [simpl; rewrite <- E; reflexivity
                                      | exact Hc]).
Qed.

Lemma strip_str_int (z : Z) : strip (str_int z) = str_int z.
Proof.
  destruct (str_int_shape z) as [Hl [a [c [E Hc]]]].
  unfold strip. rewrite Hl, E. now apply rstrip_last.
Qed.

(** [int(str(z)) == z]. *)
Lemma int_of_str_str_int (z : Z) : int_of_str (str_int z) = Some z.
Proof.
  unfold int_of_str. rewrite strip_str_int.
  unfold str_int. destruct z as [|p|p]; cbn [Z.to_int NilZero.string_of_int].
  - reflexivity.
  - pose proof (Unsigned.to_uint_nonnil p) as Hn.
    pose proof (DecimalPos.Unsigned.of_to p) as Hv.
    pose proof (parse_digits_first _ Hn) as Hf.
    pose proof (parse_digits_uint (Pos.to_uint p)) as Hd.
    rewrite Hv in Hd. rewrite Hd in Hf. clear Hd Hv.
    unfold NilZero.string_of_uint.
    destruct (Pos.to_uint p); [congruence | ..];
      cbn [NilEmpty.string_of_uint] in *; exact Hf.
  - pose proof (Unsigned.to_uint_nonnil p) as Hn.
    pose proof (DecimalPos.Unsigned.of_to p) as Hv.
    pose proof (parse_digits_first _ Hn) as Hf.
    pose proof (parse_digits_uint (Pos.to_uint p)) as Hd.
    rewrite Hv in Hd. rewrite Hd in Hf. clear Hd Hv.
    unfold NilZero.string_of_uint.
    destruct (Pos.to_uint p); [congruence | ..];
      cbn [NilEmpty.string_of_uint] in *; rewrite Hf; reflexivity.
Qed.

End IntegerText.

(** ** The board mapping and its text *)

Section BoardMapping.
Import Py Json Schedule AgentUtils Notion.

(** The text of one item of a mapping. *)
Lemma item_text (name : string) (z : Z) :
  name ++ ":" ++ str_int z = name ++ String ":" (str_int z).
Proof. reflexivity. Qed.

Lemma lstrip_item (name rest : string) :
  lstrip name = name -> lstrip (name ++ String ":" rest)
                        = name ++ String ":" rest.
Proof.
  destruct name as [|c r]; [reflexivity |].
  cbn [lstrip append]. destruct (is_space c); [| reflexivity].
  intro H. pose proof (lstrip_length r) as L. rewrite H in L.
  simpl in L. lia.
Qed.

Lemma strip_item (name : string) (z : Z) :
  clean_name name ->
  strip (name ++ ":" ++ str_int z) = name ++ ":" ++ str_int z.
Proof.
  intros [_ [_ Hs]]. rewrite item_text. unfold strip.
  rewrite (lstrip_item _ _ (strip_fixed_lstrip _ Hs)).
  destruct (str_int_shape z) as [_ [a [c [E Hc]]]]. rewrite E.
  change (name ++ String ":" (a ++ String c ""))
    with (name ++ (String ":" a) ++ String c "").
  now apply rstrip_app_last.
Qed.

Lemma strip_spaced_item (name : string) (z : Z) :
  clean_name name ->
  strip (" " ++ name ++ ":" ++ str_int z) = name ++ ":" ++ str_int z.
Proof.
  intro H. rewrite <- (strip_item name z H) at 2. reflexivity.
Qed.

(** One well-formed pair sets one item. *)
Lemma parse_pairs_item (piece name : string) (z : Z) (rest : list string)
  (acc : list (string * Z)) :
  clean_name name ->
  strip piece = name ++ ":" ++ str_int z ->
  parse_pairs (piece :: rest) acc
  = parse_pairs rest (dict_set String.eqb name z acc).
Proof.
  intros [_ [Hcolon Hs]] Hp. cbn [parse_pairs]. rewrite Hp, item_text.
  rewrite contains_char_app. cbn [contains_char].
  rewrite Ascii.eqb_refl, orb_true_r.
  rewrite (split_once_app _ _ _ Hcolon).
  rewrite strip_str_int, int_of_str_str_int, Hs. reflexivity.
Qed.

Lemma parse_pairs_items (pieces : list string) (d acc : list (string * Z)) :
  Forall2 (fun piece item =>
             clean_name (fst item)
             /\ strip piece = fst item ++ ":" ++ str_int (snd item))
          pieces d ->
  parse_pairs pieces acc
  = fold_left (fun a item => dict_set String.eqb (fst item) (snd item) a)
              d acc.
Proof.
  intro H. revert acc. induction H as [|piece [name z] ps d' [Hc Hp] _ IH];
    intro acc; [reflexivity |].
  simpl in Hc, Hp. rewrite (parse_pairs_item _ _ _ _ _ Hc Hp). apply IH.
Qed.

(** A new name goes last. *)
Lemma dict_set_new_name (name : string) (z : Z) (d : list (string * Z)) :
  ~ In name (map fst d) ->
  dict_set String.eqb name z d = (d ++ [(name, z)])%list.
Proof.
  induction d as [|[k v] r IH]; simpl; [reflexivity |].
  intro H. destruct (String.eqb name k) eqn:E.
  - apply String.eqb_eq in E. subst. tauto.
  - rewrite IH by tauto. reflexivity.
Qed.

Lemma fold_dict_set_names (d acc : list (string * Z)) :
  NoDup (map fst acc ++ map fst d) ->
  fold_left (fun a item => dict_set String.eqb (fst item) (snd item) a) d acc
  = (acc ++ d)%list.
Proof.
  revert acc. induction d as [|[name z] r IH]; intros acc H; simpl.
  - now rewrite app_nil_r.
  - simpl in H. pose proof (NoDup_remove_2 _ _ _ H) as Hn.
    rewrite dict_set_new_name by (intro Hi; apply Hn, in_or_app; auto).
    rewrite IH.
    + rewrite <- app_assoc. reflexivity.
    + rewrite map_app, <- app_assoc. exact H.
Qed.

(** The pieces of a joined text: the first item, and each further item
    after a space. *)
Lemma split_joined (x : string) (r : list string) :
  Forall (fun y => contains_char ","%char y = false) (x :: r) ->
  split_on ","%char (join ", " (x :: r))
  = x :: map (fun y => " " ++ y) r.
Proof.
  revert x. induction r as [|y r' IH]; intros x H.
  - inversion H; subst. simpl. now apply split_on_none.
  - inversion H as [|? ? Hx Hr]; subst.
    inversion Hr as [|? ? Hy Hr']; subst.
    change (join ", " (x :: y :: r'))
      with (x ++ String "," (" " ++ join ", " (y :: r'))).
    rewrite (split_on_app _ _ _ Hx).
    assert (E : " " ++ join ", " (y :: r') = join ", " ((" " ++ y) :: r')).
    { destruct r'; reflexivity. }
    rewrite E, IH; [reflexivity |].
    constructor; [exact Hy | exact Hr'].
Qed.

Lemma item_has_no_comma (name : string) (z : Z) :
  clean_name name ->
  contains_char ","%char (name ++ ":" ++ str_int z) = false.
Proof.
  intros [Hcomma _]. rewrite item_text, contains_char_app, Hcomma.
  cbn [contains_char orb]. change (Ascii.eqb "," ":") with false.
  cbn [orb]. unfold str_int.
  assert (G : forall d, contains_char "," (NilEmpty.string_of_uint d) = false).
  { induction d; cbn [NilEmpty.string_of_uint contains_char];
      [reflexivity | ..]; rewrite IHd; reflexivity. }
  destruct z as [|p|p]; cbn [Z.to_int NilZero.string_of_int];
    [reflexivity | | cbn [contains_char];
                     change (Ascii.eqb "," "-") with false; cbn [orb]];
    (unfold NilZero.string_of_uint;
     destruct (Pos.to_uint p) eqn:E; [reflexivity | ..];
     rewrite <- E; apply G).
Qed.

(** X1.  Parsing the text that [format_subreddit_config] writes for a
    mapping gives the mapping back, when every name is free of commas and
    colons and of whitespace at its ends, and no name occurs twice. *)
Theorem parse_format_round_trip (d : list (string * Z)) :
  clean_mapping d ->
  parse_subreddit_config (format_subreddit_config d) = d.
Proof.
  intros [Hc Hn]. unfold parse_subreddit_config, format_subreddit_config.
  destruct d as [|[name z] r]; [reflexivity |].
  cbn [map fst snd].
  rewrite split_joined.
  - rewrite (parse_pairs_items _ ((name, z) :: r)).
    + rewrite fold_dict_set_names; [reflexivity | exact Hn].
    + inversion Hc as [|? ? Hx Hr]; subst.
      constructor.
      * split; [exact Hx | now apply strip_item].
      * clear Hn Hc Hx. induction r as [|[n' z'] r' IH]; simpl;
          constructor.
        -- inversion Hr; subst. split; [assumption |].
           now apply strip_spaced_item.
        -- inversion Hr; subst. now apply IH.
  - change ((name ++ ":" ++ str_int z)
            :: map (fun item => fst item ++ ":" ++ str_int (snd item)) r)
      with (map (fun item => fst item ++ ":" ++ str_int (snd item))
                ((name, z) :: r)).
    apply Forall_map. eapply Forall_impl; [| exact Hc].
    intros [n' z'] H. now apply item_has_no_comma.
Qed.

(** X1 on the default mapping of the configuration. *)
Lemma parse_format_round_trip_witness :
  parse_subreddit_config
    (format_subreddit_config
       [("LocalLLaMA", 10%Z); ("artificial", 5%Z); ("AI_Agents", (-2)%Z)])
  = [("LocalLLaMA", 10%Z); ("artificial", 5%Z); ("AI_Agents", (-2)%Z)].
Proof.
  apply parse_format_round_trip. split.
  - repeat constructor.
  - repeat constructor; simpl; intuition discriminate.
Defined.

End BoardMapping.

Section BoardMappingMore.
Import Py Json Schedule AgentUtils Notion.

Lemma dict_set_names (name : string) (z : Z) (d : list (string * Z)) :
  map fst (dict_set String.eqb name z d)
  = if existsb (String.eqb name) (map fst d) then map fst d
    else (map fst d ++ [name])%list.
Proof.
  induction d as [|[k v] r IH]; simpl; [reflexivity |].
  destruct (String.eqb name k); simpl; [reflexivity |].
  rewrite IH. destruct (existsb _ _); reflexivity.
Qed.

Lemma dict_set_nodup (name : string) (z : Z) (d : list (string * Z)) :
  NoDup (map fst d) -> NoDup (map fst (dict_set String.eqb name z d)).
Proof.
  intro H. rewrite dict_set_names.
  destruct (existsb (String.eqb name) (map fst d)) eqn:E; [exact H |].
  apply NoDup_app; [exact H | repeat constructor; simpl; tauto |].
  intros x Hx [Ex | []]. subst x.
  assert (existsb (String.eqb name) (map fst d) = true).
  { apply existsb_exists. exists name.
    split; [exact Hx | apply String.eqb_refl]. }
  congruence.
Qed.

Lemma parse_pairs_nodup (pieces : list string) (acc : list (string * Z)) :
  NoDup (map fst acc) -> NoDup (map fst (parse_pairs pieces acc)).
Proof.
  revert acc. induction pieces as [|piece rest IH]; intros acc H;
    cbn [parse_pairs]; [exact H |].
  destruct (contains_char ":" (strip piece)); [| now apply IH].
  destruct (split_once ":" (strip piece)) as [name limit].
  destruct (int_of_str (strip limit)); [| now apply IH].
  apply IH. now apply dict_set_nodup.
Qed.

(** X2.  Whatever the text, the mapping [parse_subreddit_config] returns
    names every board once. *)
Theorem parse_names_unique (config_string : string) :
  NoDup (map fst (parse_subreddit_config config_string)).
Proof.
  unfold parse_subreddit_config. apply parse_pairs_nodup. constructor.
Qed.

Lemma split_on_nonempty (sep : ascii) (s : string) : split_on sep s <> [].
Proof.
  destruct s as [|c r]; cbn [split_on]; [discriminate |].
  destruct (Ascii.eqb c sep); [discriminate |].
  destruct (split_on sep r); discriminate.
Qed.

(** The pieces of two texts joined by the separator. *)
Lemma split_on_join (sep : ascii) (a b : string) :
  split_on sep (a ++ String sep b) = (split_on sep a ++ split_on sep b)%list.
Proof.
  induction a as [|c r IH]; cbn [append split_on].
  - rewrite Ascii.eqb_refl. reflexivity.
  - destruct (Ascii.eqb c sep); [rewrite IH; reflexivity |].
    rewrite IH. pose proof (split_on_nonempty sep r) as Hn.
    destruct (split_on sep r); [congruence | reflexivity].
Qed.

Lemma parse_pairs_app (l1 l2 : list string) (acc : list (string * Z)) :
  parse_pairs (l1 ++ l2) acc = parse_pairs l2 (parse_pairs l1 acc).
Proof.
  revert acc. induction l1 as [|piece rest IH]; intro acc;
    cbn [parse_pairs app]; [reflexivity |].
  destruct (contains_char ":" (strip piece)); [| apply IH].
  destruct (split_once ":" (strip piece)) as [name limit].
  destruct (int_of_str (strip limit)); apply IH.
Qed.

(** X3.  A pair added at the end of the text acts as an assignment on the
    mapping of the text before it: it replaces the limit of a name that is
    there, where it stands, and adds a new name at the end. *)
Theorem parse_appended_pair (text name : string) (z : Z) :
  clean_name name ->
  parse_subreddit_config (text ++ "," ++ name ++ ":" ++ str_int z)
  = dict_set String.eqb name z (parse_subreddit_config text).
Proof.
  intro Hc. unfold parse_subreddit_config.
  change (text ++ "," ++ name ++ ":" ++ str_int z)
    with (text ++ String "," (name ++ ":" ++ str_int z)).
  rewrite split_on_join, parse_pairs_app.
  rewrite (split_on_none _ _ (item_has_no_comma name z Hc)).
  rewrite (parse_pairs_item _ name z [] _ Hc (strip_item name z Hc)).
  reflexivity.
Qed.

(** X3 on a name that the text has already. *)
Lemma parse_appended_pair_witness :
  parse_subreddit_config ("a:1, b:2" ++ "," ++ "a" ++ ":" ++ str_int 7)
  = dict_set String.eqb "a" 7%Z (parse_subreddit_config "a:1, b:2").
Proof.
  apply parse_appended_pair. repeat split.
Defined.

(** X4.  A piece that has no colon, or whose limit [int()] rejects, adds
    nothing: the mapping is that of the text before the piece. *)
Theorem parse_appended_junk (text piece : string) :
  contains_char ","%char piece = false ->
  contains_char ":"%char (strip piece) = false
  \/ int_of_str (strip (snd (split_once ":"%char (strip piece)))) = None ->
  parse_subreddit_config (text ++ "," ++ piece)
  = parse_subreddit_config text.
Proof.
  intros Hcomma H. unfold parse_subreddit_config.
  change (text ++ "," ++ piece) with (text ++ String "," piece).
  rewrite split_on_join, parse_pairs_app, (split_on_none _ _ Hcomma).
  cbn [parse_pairs].
  destruct (contains_char ":" (strip piece)) eqn:E; [| reflexivity].
  destruct H as [H | H]; [discriminate |].
  destruct (split_once ":" (strip piece)) as [name limit].
  simpl in H. rewrite H. reflexivity.
Qed.

(** X4 on a limit that is no integer. *)
Lemma parse_appended_junk_witness :
  parse_subreddit_config ("a:1" ++ "," ++ " b:many")
  = parse_subreddit_config "a:1".
Proof.
  apply parse_appended_junk; [reflexivity | right; reflexivity].
Defined.

End BoardMappingMore.

(** ** Loading and saving the schedule *)

Section ScheduleStore.
Import Py Json Schedule Startup Spec Notion.

Lemma load_config_no_record
  (io : outcome unit) (self : SimpleScheduler) (disk : Disk) :
  disk = None
  \/ (exists e, io = Raise e)
  \/ disk = Some Corrupt
  \/ (exists j, disk = Some (Document j) /\ forall m, j <> JObj m) ->
  load_config io self disk = (PyDict [], self).
Proof.
  intros [-> | [[e ->] | [-> | [j [-> Hj]]]]].
  - reflexivity.
  - destruct disk; reflexivity.
  - destruct io; reflexivity.
  - unfold load_config. destruct io; [| reflexivity].
    destruct j; try reflexivity. exfalso. exact (Hj m eq_refl).
Qed.

Lemma save_config_written
  (self : SimpleScheduler) (disk : Disk) (en hr mi tz cf : pyval) :
  save_config WriteOk self disk en hr mi tz cf
  = (is_integer hr && is_integer mi,
     {| enabled := en; hour := hr; minute := mi; timezone := tz;
        config := cf |},
     Some (Document (encode (record_of en hr mi tz cf)))).
Proof.
  unfold save_config. destruct hr; destruct mi; reflexivity.
Qed.

(** X5.  [load_config] raises nothing: when the file is missing, cannot
    be opened, holds no JSON document, or holds a document that is no
    object, it returns the empty dictionary and leaves the scheduler as it
    was. *)
Theorem load_config_unreadable
  (io : outcome unit) (self : SimpleScheduler) (disk : Disk) :
  disk = None
  \/ (exists e, io = Raise e)
  \/ disk = Some Corrupt
  \/ (exists j, disk = Some (Document j) /\ forall m, j <> JObj m) ->
  load_config io self disk = (PyDict [], self).
Proof. apply load_config_no_record. Qed.

(** X5 on a file that holds a JSON array. *)
Lemma load_config_unreadable_witness :
  load_config (Ret tt) Sample.schedule
    (Some (Document (JArr [JNum 7; JNum 0])))
  = (PyDict [], Sample.schedule).
Proof.
  apply load_config_unreadable. right. right. right.
  eexists. split; [reflexivity | discriminate].
Defined.

(** X6.  [load_config] is idempotent: loading again from the same disk
    returns the same dictionary and leaves the same scheduler. *)
Theorem load_config_idempotent
  (io : outcome unit) (self : SimpleScheduler) (disk : Disk) :
  load_config io (snd (load_config io self disk)) disk
  = load_config io self disk.
Proof.
  unfold load_config. destruct disk as [[j|]|]; [| destruct io; reflexivity
                                                | reflexivity].
  destruct io; [| reflexivity].
  unfold assign_loaded. destruct (decode j); reflexivity.
Qed.

(** X7.  When the file holds a JSON object, the scheduler after
    [load_config] is made of the stored values, a default standing for
    every missing key, whatever the scheduler held before; the dictionary
    is returned when the stored hour and minute are integers, and the
    empty dictionary otherwise, the scheduler being filled all the
    same. *)
Theorem load_config_fills_from_record
  (self : SimpleScheduler) (m : list (string * json)) :
  exists d,
    decode (JObj m) = PyDict d
    /\ snd (load_config (Ret tt) self (Some (Document (JObj m))))
       = {| enabled := stored d "enabled" (PyBool false);
            hour := stored d "hour" (PyInt 9);
            minute := stored d "minute" (PyInt 0);
            timezone := stored d "timezone" (PyStr "Etc/UTC");
            config := stored d "config" (PyDict []) |}
    /\ fst (load_config (Ret tt) self (Some (Document (JObj m))))
       = if is_integer (stored d "hour" (PyInt 9))
            && is_integer (stored d "minute" (PyInt 0))
         then PyDict d else PyDict [].
Proof.
  exists (dict_of_items pykey_eqb
            (map (fun kv => (KStr (fst kv), decode (snd kv))) m)).
  split; [reflexivity |].
  unfold load_config.
  set (v := decode (JObj m)).
  assert (Hv : v = PyDict (dict_of_items pykey_eqb
                             (map (fun kv => (KStr (fst kv), decode (snd kv)))
                                  m))) by reflexivity.
  clearbody v. subst v.
  generalize (dict_of_items pykey_eqb
                (map (fun kv => (KStr (fst kv), decode (snd kv))) m)).
  intro d. unfold assign_loaded, stored. cbn [hour minute].
  destruct (dict_get pykey_eqb (KStr "hour") (PyInt 9) d);
    destruct (dict_get pykey_eqb (KStr "minute") (PyInt 0) d);
    split; reflexivity.
Qed.

(** X8.  When its write succeeds, [save_config] puts the new record on
    disk and the new fields into the scheduler, and answers [True] only if
    the hour and the minute are integers: with another hour or minute it
    answers [False] although disk and scheduler hold the new values. *)
Theorem save_config_answer
  (self : SimpleScheduler) (disk : Disk) (en hr mi tz cf : pyval) :
  save_config WriteOk self disk en hr mi tz cf
  = (is_integer hr && is_integer mi,
     {| enabled := en; hour := hr; minute := mi; timezone := tz;
        config := cf |},
     Some (Document (encode (record_of en hr mi tz cf)))).
Proof. apply save_config_written. Qed.

(** X9.  A schedule survives the end of the process: after a successful
    [save_config] of a valid state [s], [initialize_scheduler] in a new
    process fills the scheduler with [s] and calls [start()] exactly when
    [s] is enabled. *)
Theorem initialize_after_save
  (s self loader : SimpleScheduler) (disk : Disk) :
  valid_schedule s = true ->
  initialize_scheduler (Ret tt) loader
    (snd (save_config WriteOk self disk (enabled s) (hour s) (minute s)
            (timezone s) (config s)))
  = (s, py_truthy (enabled s)).
Proof.
  destruct s as [en hr mi tz cf]. unfold valid_schedule.
  cbn [enabled hour minute timezone config].
  destruct en as [| b | | | | |]; try discriminate.
  destruct hr as [| | h | | | |]; try discriminate.
  destruct mi as [| | m | | | |]; try discriminate.
  destruct tz as [| | | z | | |]; try discriminate.
  destruct cf as [| | | | | | d]; try discriminate.
  intro H. apply andb_true_iff in H. destruct H as [_ Hn].
  rewrite save_config_written. cbn [snd].
  unfold initialize_scheduler, load_config.
  rewrite (decode_encode _ (record_is_native b h m z d Hn)).
  reflexivity.
Qed.

(** X9 on the sample schedule. *)
Lemma initialize_after_save_witness :
  initialize_scheduler (Ret tt) init
    (snd (save_config WriteOk init None (enabled Sample.schedule)
            (hour Sample.schedule) (minute Sample.schedule)
            (timezone Sample.schedule) (config Sample.schedule)))
  = (Sample.schedule, true).
Proof.
  apply (initialize_after_save Sample.schedule init init None).
  vm_compute. reflexivity.
Defined.

(** X10.  Without a readable record, a new process keeps the defaults of
    [__init__] and does not start the scheduler. *)
Theorem initialize_without_record (io : outcome unit) (disk : Disk) :
  disk = None
  \/ (exists e, io = Raise e)
  \/ disk = Some Corrupt
  \/ (exists j, disk = Some (Document j) /\ forall m, j <> JObj m) ->
  initialize_scheduler io init disk = (init, false).
Proof.
  intro H. unfold initialize_scheduler.
  rewrite (load_config_no_record io init disk H). reflexivity.
Qed.

End ScheduleStore.

Section ScheduleStoreWitnesses.
Import Py Json Schedule Startup.

(** X10 on a file that was truncated. *)
Lemma initialize_without_record_witness :
  initialize_scheduler (Ret tt) init (Some Corrupt) = (init, false).
Proof.
  apply initialize_without_record. right. right. left. reflexivity.
Defined.

End ScheduleStoreWitnesses.

(** ** Firings of the check cycle *)

Section FiringMore.
Import Py Json Schedule Spec Notion.

Variable Env : Type.
Variable workflow :
  WorkflowArgs -> Env -> outcome (string * option string) * Env * nat.
Variable notification : string -> Env -> outcome bool * Env * nat.
Variable zones : pyval -> outcome tzinfo.
Variable stop : Z -> bool.

(** X11.  A firing reports every exception and raises none: when the
    stored configuration cannot be turned into arguments (it is no
    dictionary, its board text is no string, or a count is no integer), no
    call is made and the text of the exception is sent as an error
    notification; when the orchestrator raises, the call is recorded and
    the text of its exception is sent. *)
Theorem run_analysis_reports_exceptions
  (self : SimpleScheduler) (t : Thread Env) :
  (forall e,
     workflow_args self = Raise e ->
     calls (run_analysis workflow notification self t) = calls t
     /\ notified (run_analysis workflow notification self t)
        = (clock t, str_exn e) :: notified t)
  /\ (forall a e env' d,
        workflow_args self = Ret (Some a) ->
        workflow a (env t) = (Raise e, env', d) ->
        calls (run_analysis workflow notification self t)
        = (clock t, a) :: calls t
        /\ notified (run_analysis workflow notification self t)
           = ((clock t + Z.of_nat d)%Z, str_exn e) :: notified t)
  /\ (forall d text e,
        config self = PyDict d ->
        stored d "subreddit_config" (PyStr "") = PyStr text ->
        parse_subreddit_config text <> [] ->
        int_of (stored d "top_comments" (PyInt 10)) = Raise e ->
        workflow_args self = Raise e).
Proof.
  split; [| split].
  - intros e He. unfold run_analysis, report_error. rewrite He.
    destruct (notification (str_exn e) (env t)) as [[o env'] d].
    split; reflexivity.
  - intros a e env' d Ha Hw. unfold run_analysis, report_error.
    rewrite Ha, Hw. cbn [env clock calls notified].
    destruct (notification (str_exn e) env') as [[o env''] d'].
    split; reflexivity.
  - intros d text e Hd Ht Hp Hi. unfold workflow_args. rewrite Hd.
    unfold stored in Ht, Hi. rewrite Ht.
    destruct (parse_subreddit_config text); [congruence |].
    rewrite Hi. reflexivity.
Qed.

(** The thread after a turn of a disabled scheduler: a minute later,
    nothing else changed. *)
Lemma check_cycle_disabled (self : SimpleScheduler) (t : Thread Env) :
  py_truthy (enabled self) = false ->
  check_cycle workflow notification zones self t = sleep 60 t.
Proof. intro H. unfold check_cycle. rewrite H. reflexivity. Qed.

(** X12.  While the stored [enabled] flag is false, the loop only sleeps:
    it makes no call, sends no notification and leaves the environment as
    it is, however long it runs. *)
Theorem disabled_scheduler_never_fires
  (self : SimpleScheduler) (t : Thread Env) (fuel : nat) :
  py_truthy (enabled self) = false ->
  let final := scheduler_loop workflow notification zones stop fuel self t in
  calls final = calls t /\ notified final = notified t /\ env final = env t.
Proof.
  intro H. cbv zeta. revert t.
  induction fuel as [|k IH]; intro t; cbn [scheduler_loop]; [auto |].
  destruct (stop (clock t)); [auto |].
  rewrite (check_cycle_disabled self t H).
  destruct (IH (sleep 60 t)) as [H1 [H2 H3]]. auto.
Qed.

(** One turn adds no call, or one call made at an instant at which the
    scheduler is enabled and its zone shows the trigger time. *)
Lemma check_cycle_call_instant (self : SimpleScheduler) (t : Thread Env) :
  let t' := check_cycle workflow notification zones self t in
  (clock t <= clock t')%Z
  /\ (calls t' = calls t
      \/ exists a tz,
           calls t' = (clock t, a) :: calls t
           /\ py_truthy (enabled self) = true
           /\ zones (timezone self) = Ret tz
           /\ shows_trigger tz self (clock t)).
Proof.
  cbv zeta. unfold check_cycle.
  destruct (py_truthy (enabled self)) eqn:He;
    [| simpl; split; [lia | auto]].
  destruct (zones (timezone self)) as [tz|e] eqn:Hz;
    [| simpl; split; [lia | auto]].
  destruct (eq_int (fst (tz (clock t))) (hour self)
            && eq_int (snd (tz (clock t))) (minute self)) eqn:Hs;
    [| simpl; split; [lia | auto]].
  cbn [sleep clock calls]. unfold run_analysis, report_error.
  destruct (workflow_args self) as [[a|]|e].
  - destruct (workflow a (env t)) as [[[r|e] env'] d].
    + cbn [clock calls]. split; [lia |]. right. exists a, tz. auto.
    + cbn [clock calls env].
      destruct (notification (str_exn e) env') as [[o env''] d'].
      cbn [clock calls]. split; [lia |]. right. exists a, tz. auto.
  - split; [lia | auto].
  - destruct (notification (str_exn e) (env t)) as [[o env'] d].
    cbn [clock calls]. split; [lia | auto].
Qed.

(** X13.  The loop calls the orchestrator only at instants at which the
    scheduler is enabled and the clock of its zone shows the stored hour
    and minute: every call it adds was made at such an instant, and not
    before the loop started. *)
Theorem calls_only_at_trigger
  (self : SimpleScheduler) (t : Thread Env) (fuel : nat) :
  exists new,
    calls (scheduler_loop workflow notification zones stop fuel self t)
    = (new ++ calls t)%list
    /\ Forall (fun c =>
                 (clock t <= fst c)%Z
                 /\ py_truthy (enabled self) = true
                 /\ exists tz, zones (timezone self) = Ret tz
                               /\ shows_trigger tz self (fst c)) new.
Proof.
  revert t. induction fuel as [|k IH]; intro t; cbn [scheduler_loop].
  - exists []. auto.
  - destruct (stop (clock t)); [exists []; auto |].
    destruct (check_cycle_call_instant self t) as [Hc Hk].
    destruct (IH (check_cycle workflow notification zones self t))
      as [new [Hn Hf]].
    assert (Hf' : Forall (fun c =>
                            (clock t <= fst c)%Z
                            /\ py_truthy (enabled self) = true
                            /\ exists tz, zones (timezone self) = Ret tz
                                          /\ shows_trigger tz self (fst c))
                         new).
    { eapply Forall_impl; [| exact Hf]. cbv beta.
      intros c [H1 H2]. split; [lia | exact H2]. }
    destruct Hk as [Hk | [a [tz [Hk [He [Hz Hs]]]]]].
    + exists new. rewrite Hn, Hk. auto.
    + exists (new ++ [(clock t, a)])%list. rewrite Hn, Hk.
      rewrite <- app_assoc. split; [reflexivity |].
      apply Forall_app. split; [exact Hf' |].
      constructor; [| constructor]. cbn [fst].
      split; [lia |]. split; [exact He |]. exists tz. auto.
Qed.

End FiringMore.

Section FiringMoreWitnesses.
Import Py Json Schedule Spec Notion.

(** X12 on the sample schedule switched off, for five turns. *)
Lemma disabled_scheduler_never_fires_witness :
  calls (scheduler_loop Sample.quick_workflow Sample.quick_notification
           Sample.held_zone Sample.never_stopped 5
           {| enabled := PyBool false; hour := PyInt 7; minute := PyInt 0;
              timezone := PyStr "Etc/UTC"; config := Sample.schedule_config |}
           Sample.at_seven)
  = [].
Proof.
  destruct (disabled_scheduler_never_fires unit Sample.quick_workflow
              Sample.quick_notification Sample.held_zone
              Sample.never_stopped
              {| enabled := PyBool false; hour := PyInt 7;
                 minute := PyInt 0; timezone := PyStr "Etc/UTC";
                 config := Sample.schedule_config |}
              Sample.at_seven 5 eq_refl) as [H _].
  exact H.
Defined.

End FiringMoreWitnesses.

(** ** What a run leaves in the file system and in the chat *)

Section StateFacts.
Import Py Run Notion.

Lemma bind_ret_inv {A B} (m : M A) (k : A -> M B) (s s' : State) (b : B) :
  bind m k s = (Ret b, s') ->
  exists a s1, m s = (Ret a, s1) /\ k a s1 = (Ret b, s').
Proof.
  unfold bind. destruct (m s) as [[a|e] s1]; [eauto | discriminate].
Qed.

Lemma set_file_keeps (p q : string) (c : content)
  (l : list (string * content)) :
  existsb (fun f => String.eqb p (fst f)) l = true ->
  existsb (fun f => String.eqb p (fst f)) (set_file q c l) = true.
Proof.
  induction l as [|[k v] r IH]; simpl; [discriminate |].
  destruct (String.eqb q k); simpl; [auto |].
  destruct (String.eqb p k); simpl; auto.
Qed.

Lemma set_file_there (q : string) (c : content)
  (l : list (string * content)) :
  existsb (fun f => String.eqb q (fst f)) (set_file q c l) = true.
Proof.
  induction l as [|[k v] r IH]; simpl.
  - rewrite String.eqb_refl. reflexivity.
  - destruct (String.eqb q k) eqn:E; simpl; [now rewrite E |].
    rewrite E. exact IH.
Qed.

Lemma add_dir_there (d : string) (s : State) : In d (dirs (add_dir d s)).
Proof.
  unfold add_dir. simpl.
  destruct (existsb (String.eqb d) (dirs s)) eqn:E.
  - apply existsb_exists in E. destruct E as [x [Hx E]].
    apply String.eqb_eq in E. subst. exact Hx.
  - apply in_or_app. right. simpl. auto.
Qed.

Lemma add_dir_keeps (d x : string) (s : State) :
  In x (dirs s) -> In x (dirs (add_dir d s)).
Proof.
  unfold add_dir. simpl. destruct (existsb _ _); [auto |].
  intro H. apply in_or_app. auto.
Qed.

(** The primitives remove nothing. *)
Lemma grows_ret {A} (a : A) : grows (ret a).
Proof. intro s. simpl. auto. Qed.

Lemma grows_raise {A} (e : exn) : grows (@raise A e).
Proof. intro s. simpl. auto. Qed.

Lemma grows_lift {A} (o : outcome A) : grows (lift o).
Proof. intro s. simpl. auto. Qed.

Lemma grows_call {A} (f : nat -> outcome A) : grows (call f).
Proof. intro s. simpl. auto. Qed.

Lemma grows_sleep (n : nat) : grows (sleep n).
Proof. intro s. simpl. auto. Qed.

Lemma grows_now (W : World) (fmt : string) : grows (now_strftime W fmt).
Proof. intro s. simpl. auto. Qed.

Lemma grows_mkdir (W : World) (d : string) : grows (mkdir W d).
Proof.
  intro s. unfold mkdir. destruct (fs_mkdir W (tick s) d); simpl; [| auto].
  split; [auto |]. intros x Hx.
  exact (add_dir_keeps d x (next_tick s) Hx).
Qed.

Lemma grows_write_file (W : World) (p : string) (c : content) :
  grows (write_file W p c).
Proof.
  intro s. unfold write_file, file_exists.
  destruct (fs_write W (tick s) p); simpl; split; auto;
    intros q Hq; now apply set_file_keeps.
Qed.

Lemma grows_bind {A B} (m : M A) (k : A -> M B) :
  grows m -> (forall a, grows (k a)) -> grows (bind m k).
Proof.
  intros Hm Hk s. unfold bind. specialize (Hm s).
  destruct (m s) as [[a|e] s1]; simpl in *; [| exact Hm].
  destruct (Hk a s1) as [H1 H2]. destruct Hm as [H3 H4]. split; auto.
Qed.

Lemma grows_try_except {A} (m : M A) (h : exn -> M A) :
  grows m -> (forall e, grows (h e)) -> grows (try_except m h).
Proof.
  intros Hm Hh s. unfold try_except. specialize (Hm s).
  destruct (m s) as [[a|e] s1]; simpl in *; [exact Hm |].
  destruct (Hh e s1) as [H1 H2]. destruct Hm as [H3 H4]. split; auto.
Qed.

Lemma grows_if {A} (b : bool) (m1 m2 : M A) :
  grows m1 -> grows m2 -> grows (if b then m1 else m2).
Proof. destruct b; auto. Qed.

(** The same for a component of the state that is kept as it is. *)
Lemma preserves_ret {A X} (f : State -> X) (a : A) : preserves f (ret a).
Proof. intro s. reflexivity. Qed.

Lemma preserves_raise {A X} (f : State -> X) (e : exn) :
  preserves f (@raise A e).
Proof. intro s. reflexivity. Qed.

Lemma preserves_lift {A X} (f : State -> X) (o : outcome A) :
  preserves f (lift o).
Proof. intro s. reflexivity. Qed.

Lemma preserves_bind {A B X} (f : State -> X) (m : M A) (k : A -> M B) :
  preserves f m -> (forall a, preserves f (k a)) -> preserves f (bind m k).
Proof.
  intros Hm Hk s. unfold bind. specialize (Hm s).
  destruct (m s) as [[a|e] s1]; simpl in *; [| exact Hm].
  rewrite (Hk a s1). exact Hm.
Qed.

Lemma preserves_try_except {A X} (f : State -> X) (m : M A)
  (h : exn -> M A) :
  preserves f m -> (forall e, preserves f (h e)) ->
  preserves f (try_except m h).
Proof.
  intros Hm Hh s. unfold try_except. specialize (Hm s).
  destruct (m s) as [[a|e] s1]; simpl in *; [exact Hm |].
  rewrite (Hh e s1). exact Hm.
Qed.

Lemma preserves_try_except_cls {A X} (f : State -> X) (cls : exn_class)
  (m : M A) (h : exn -> M A) :
  preserves f m -> (forall e, preserves f (h e)) ->
  preserves f (try_except_cls cls m h).
Proof.
  intros Hm Hh s. unfold try_except_cls. specialize (Hm s).
  destruct (m s) as [[a|e] s1]; simpl in *; [exact Hm |].
  destruct (exn_class_eqb (exn_cls e) cls); [| exact Hm].
  rewrite (Hh e s1). exact Hm.
Qed.

Lemma preserves_try_finally {A X} (f : State -> X) (m : M A) (fin : M unit) :
  preserves f m -> preserves f fin -> preserves f (try_finally m fin).
Proof.
  intros Hm Hf s. unfold try_finally. specialize (Hm s).
  destruct (m s) as [o s1]; simpl in *.
  specialize (Hf s1). destruct (fin s1) as [[u|e] s2]; simpl in *;
    congruence.
Qed.

Lemma preserves_if {A X} (f : State -> X) (b : bool) (m1 m2 : M A) :
  preserves f m1 -> preserves f m2 -> preserves f (if b then m1 else m2).
Proof. destruct b; auto. Qed.

(** The primitives that do not talk to the chat. *)
Lemma chat_call {A} (f : nat -> outcome A) : preserves chat (call f).
Proof. intro s. reflexivity. Qed.

Lemma chat_sleep (n : nat) : preserves chat (sleep n).
Proof. intro s. reflexivity. Qed.

Lemma chat_now (W : World) (fmt : string) :
  preserves chat (now_strftime W fmt).
Proof. intro s. reflexivity. Qed.

Lemma chat_mkdir (W : World) (d : string) : preserves chat (mkdir W d).
Proof.
  intro s. unfold mkdir. destruct (fs_mkdir W (tick s) d); reflexivity.
Qed.

Lemma chat_write_file (W : World) (p : string) (c : content) :
  preserves chat (write_file W p c).
Proof.
  intro s. unfold write_file. destruct (fs_write W (tick s) p); reflexivity.
Qed.

End StateFacts.

Create HintDb chat.

#[local] Hint Resolve preserves_ret preserves_raise preserves_lift
  preserves_bind preserves_try_except preserves_try_except_cls
  preserves_try_finally preserves_if chat_call chat_sleep chat_now
  chat_mkdir chat_write_file : chat.

Create HintDb grows.

#[local] Hint Resolve grows_ret grows_raise grows_lift grows_call
  grows_sleep grows_now grows_mkdir grows_write_file grows_bind
  grows_try_except grows_if : grows.

Section ChatFacts.
Import Py Run Notion.
Variable W : World.

Lemma chat_fetch_top_posts (sub : string) (limit : Z) (tf : string) :
  preserves chat (Fetcher.fetch_top_posts W sub limit tf).
Proof. unfold Fetcher.fetch_top_posts. auto 6 with chat. Qed.

Lemma chat_fetch_post_comments (url : string) (n m : Z) :
  preserves chat (Fetcher.fetch_post_comments W url n m).
Proof. unfold Fetcher.fetch_post_comments. auto 8 with chat. Qed.

Lemma chat_fetch_boards (cfg : list (string * Z)) (tf : string) :
  preserves chat (Fetcher.fetch_boards W cfg tf).
Proof.
  induction cfg as [|[name limit] rest IH]; cbn [Fetcher.fetch_boards];
    [auto with chat |].
  apply preserves_bind; [apply chat_fetch_top_posts |]. intro r.
  apply preserves_bind; [exact IH |]. auto with chat.
Qed.

Lemma chat_fetch_posts (links : list string) (n m : Z) :
  preserves chat (Fetcher.fetch_posts W links n m).
Proof.
  induction links as [|link rest IH]; cbn [Fetcher.fetch_posts];
    [auto with chat |].
  apply preserves_bind; [apply chat_fetch_post_comments |]. intro t.
  apply preserves_bind; [destruct rest; auto with chat |]. intros _.
  apply preserves_bind; [exact IH |]. auto with chat.
Qed.

Lemma chat_fetch_all (cfg : list (string * Z)) (tf : string) (n m : Z) :
  preserves chat (Fetcher.fetch_all_reddit_data W cfg tf n m).
Proof.
  unfold Fetcher.fetch_all_reddit_data.
  apply preserves_bind; [apply chat_fetch_boards |]. intros [texts links].
  cbn [snd]. destruct links; [auto with chat |].
  apply preserves_bind; [apply chat_fetch_posts |]. auto with chat.
Qed.

Lemma chat_fetch_email_step (a : Workflow.Args) :
  preserves chat (Workflow.fetch_email_step W a).
Proof.
  unfold Workflow.fetch_email_step, Utils.fetch_emails.
  apply preserves_if; [| auto with chat].
  apply preserves_bind; [auto 6 with chat |].
  intros [|e l]; auto with chat.
Qed.

Lemma chat_analysis_steps (a : Workflow.Args) :
  preserves chat (Workflow.analysis_steps W a).
Proof.
  unfold Workflow.analysis_steps, Workflow.gather_steps.
  apply preserves_bind.
  - apply preserves_bind; [apply chat_fetch_all |]. intro r.
    apply preserves_bind; [auto with chat |]. intros _.
    apply preserves_bind; [apply chat_fetch_email_step |]. auto with chat.
  - intros [[[raw ec] em] cc].
    apply preserves_bind;
      [unfold Utils.analyze_reddit_data; auto with chat |].
    intro an. apply preserves_bind; auto with chat.
Qed.

Lemma chat_save_analysis (an : string) (cfg : list (string * Z))
  (tf model raw : string) :
  preserves chat (Utils.save_analysis_to_file W an cfg tf model raw).
Proof.
  unfold Utils.save_analysis_to_file, Utils.ensure_outputs_dir.
  auto 12 with chat.
Qed.

Lemma chat_persist_steps (a : Workflow.Args) (raw ec : string)
  (em : option (list Email)) (cc an : string) :
  preserves chat (Workflow.persist_steps W a raw ec em cc an).
Proof.
  unfold Workflow.persist_steps.
  apply preserves_bind; [apply chat_save_analysis |].
  intros [[[af rf] folder]|]; [| auto with chat].
  apply preserves_if; [| auto with chat].
  apply preserves_bind;
    [unfold Utils.save_llm_input; auto 6 with chat |].
  intro lf. apply preserves_bind; [| auto with chat].
  destruct em as [[|e l]|]; [auto with chat | | auto with chat].
  unfold Utils.save_email_data. auto 6 with chat.
Qed.

Lemma chat_tts_step (a : Workflow.Args) (an folder : string) :
  preserves chat (Workflow.tts_step W a an folder).
Proof.
  unfold Workflow.tts_step, Utils.generate_audio.
  apply preserves_if; [| auto with chat].
  apply preserves_try_except; [| auto with chat].
  apply preserves_bind; [| auto with chat].
  apply preserves_bind; [auto with chat |]. intros _.
  apply preserves_bind; [auto with chat |]. intro audio.
  apply preserves_bind; [auto 6 with chat |]. intro out.
  auto 6 with chat.
Qed.

(** Without the notification flag, nothing of the [try] statement sends
    to the chat. *)
Lemma chat_try_statement (a : Workflow.Args) :
  Workflow.send_to_telegram a = false ->
  preserves chat
    (try_except (Workflow.workflow_steps W a) (Workflow.workflow_handler W a)).
Proof.
  intro Hflag. apply preserves_try_except.
  - unfold Workflow.workflow_steps.
    apply preserves_bind; [apply chat_analysis_steps |].
    intros [[[[raw ec] em] cc] an].
    apply preserves_bind; [apply chat_persist_steps |].
    intros [[[[af rf] folder] ef] lf].
    apply preserves_bind; [apply chat_tts_step |]. intro audio.
    apply preserves_bind; [| auto with chat].
    unfold Workflow.telegram_step. rewrite Hflag. auto with chat.
  - intro e. unfold Workflow.workflow_handler. rewrite Hflag.
    auto with chat.
Qed.

(** X14.  Without the notification flag a run sends nothing: whatever
    the providers do and however the run ends, the chat holds after the
    run what it held before. *)
Theorem quiet_run_sends_nothing
  (a : Workflow.Args) (s : State) :
  Workflow.send_to_telegram a = false ->
  chat (snd (Workflow.run_complete_workflow W a s)) = chat s.
Proof.
  intro Hflag. unfold Workflow.run_complete_workflow.
  destruct (Workflow.subreddit_config a); [reflexivity |].
  destruct (Utils.validate_environment W) as [v missing].
  destruct v; [| reflexivity]. cbn [negb].
  apply (preserves_try_finally chat); [| apply chat_call].
  now apply chat_try_statement.
Qed.

End ChatFacts.

Section ChatWitness.
Import Py Run Notion.

(** A run as [Sample.args], without the notification flag. *)
Lemma quiet_run_sends_nothing_witness :
  chat (snd (Workflow.run_complete_workflow
               (Sample.world Sample.text120 true true)
               {| Workflow.subreddit_config := [("test", 2%Z)];
                  Workflow.time_filter := "day";
                  Workflow.top_comments := 5;
                  Workflow.replies_per_comment := 3;
                  Workflow.model := "gemini-2.5-pro";
                  Workflow.system_prompt := "system";
                  Workflow.user_prompt := "user";
                  Workflow.send_to_telegram := false;
                  Workflow.generate_tts := true;
                  Workflow.tts_model := Some "tts";
                  Workflow.voice_name := Some "Kore";
                  Workflow.tone_instructions := None;
                  Workflow.fetch_emails := false;
                  Workflow.email_address := None;
                  Workflow.email_password := None;
                  Workflow.allowed_senders := None;
                  Workflow.email_hours_back := 24;
                  Workflow.max_emails := 20;
                  Workflow.gen_params :=
                    Workflow.gen_params (Sample.args []) |}
               Sample.start))
  = [].
Proof.
  apply (quiet_run_sends_nothing (Sample.world Sample.text120 true true)).
  reflexivity.
Defined.

End ChatWitness.

Section PersistFacts.
Import Py Run Spec Notion.
Variable W : World.

Lemma mkdir_ret_inv (d : string) (s s' : State) (u : unit) :
  mkdir W d s = (Ret u, s') -> s' = add_dir d (next_tick s).
Proof.
  unfold mkdir. destruct (fs_mkdir W (tick s) d); intro H;
    inversion H; reflexivity.
Qed.

Lemma write_file_ret_inv (p : string) (c : content) (s s' : State)
  (u : unit) :
  write_file W p c s = (Ret u, s') -> s' = put_file p c (next_tick s).
Proof.
  unfold write_file. destruct (fs_write W (tick s) p); intro H;
    inversion H; reflexivity.
Qed.

Lemma now_ret_inv (fmt ts : string) (s s' : State) :
  now_strftime W fmt s = (Ret ts, s') ->
  ts = strftime_now W (tick s) fmt /\ s' = next_tick s.
Proof. unfold now_strftime. intro H. inversion H. auto. Qed.

Lemma try_except_cls_ret_inv {A} (cls : exn_class) (m : M A)
  (h : exn -> M A) (s s' : State) (a : A) :
  try_except_cls cls m h s = (Ret a, s') ->
  m s = (Ret a, s')
  \/ exists e s1, m s = (Raise e, s1) /\ h e s1 = (Ret a, s').
Proof.
  unfold try_except_cls. destruct (m s) as [[x|e] s1]; [auto |].
  destruct (exn_class_eqb (exn_cls e) cls); [| discriminate].
  intro H. right. eauto.
Qed.

Lemma file_exists_put (p q : string) (c : content) (s : State) :
  file_exists q s = true -> file_exists q (put_file p c s) = true.
Proof. unfold file_exists, put_file. simpl. apply set_file_keeps. Qed.

Lemma file_exists_put_same (p : string) (c : content) (s : State) :
  file_exists p (put_file p c s) = true.
Proof. unfold file_exists, put_file. simpl. apply set_file_there. Qed.

(** What [save_analysis_to_file] leaves when it returns paths: the run
    folder and the files of the two paths. *)
Lemma save_analysis_paths (an : string) (cfg : list (string * Z))
  (tf model raw af rf folder : string) (s s' : State) :
  Utils.save_analysis_to_file W an cfg tf model raw s
  = (Ret (Some (af, rf, folder)), s') ->
  truthy raw = true ->
  (exists ts, folder = path_join Utils.OUTPUTS_DIR ("run_" ++ ts))
  /\ af = path_join folder "analysis.txt"
  /\ rf = path_join folder "raw_data.txt"
  /\ In folder (dirs s')
  /\ file_exists af s' = true
  /\ file_exists rf s' = true.
Proof.
  intros H Hraw. unfold Utils.save_analysis_to_file in H.
  apply bind_ret_inv in H. destruct H as [u0 [sa [_ H]]].
  apply bind_ret_inv in H. destruct H as [ts [sb [_ H]]].
  apply bind_ret_inv in H. destruct H as [u1 [sc [Hmk H]]].
  apply mkdir_ret_inv in Hmk.
  apply try_except_cls_ret_inv in H.
  destruct H as [H | [e [s1 [_ H]]]]; [| inversion H].
  apply bind_ret_inv in H. destruct H as [gen [sd [Hnow H]]].
  apply now_ret_inv in Hnow. destruct Hnow as [_ Hsd].
  apply bind_ret_inv in H. destruct H as [u2 [se [Hw1 H]]].
  apply write_file_ret_inv in Hw1.
  rewrite Hraw in H.
  apply bind_ret_inv in H. destruct H as [u3 [sf [Hw2 H]]].
  apply write_file_ret_inv in Hw2.
  unfold ret in H. inversion H; subst.
  split; [eexists; reflexivity |]. split; [reflexivity |].
  split; [reflexivity |]. split.
  - cbn [dirs put_file next_tick]. apply add_dir_there.
  - split.
    + apply file_exists_put. apply file_exists_put_same.
    + apply file_exists_put_same.
Qed.

(** What the persistence step leaves when it returns: every path it
    returns is a file of the run folder. *)
Lemma persist_steps_files (a : Workflow.Args) (raw ec : string)
  (em : option (list Email)) (cc an af rf folder lf : string)
  (ef : option string) (s s' : State) :
  Workflow.persist_steps W a raw ec em cc an s
  = (Ret (af, rf, folder, ef, lf), s') ->
  truthy raw = true ->
  (exists ts, folder = path_join Utils.OUTPUTS_DIR ("run_" ++ ts))
  /\ af = path_join folder "analysis.txt"
  /\ rf = path_join folder "raw_data.txt"
  /\ lf = path_join folder "llm_input.txt"
  /\ (forall p, ef = Some p -> p = path_join folder "emails.json"
                               /\ file_exists p s' = true)
  /\ In folder (dirs s')
  /\ file_exists af s' = true
  /\ file_exists rf s' = true
  /\ file_exists lf s' = true.
Proof.
  intros H Hraw. unfold Workflow.persist_steps in H.
  apply bind_ret_inv in H. destruct H as [saved [s1 [Hsave H]]].
  destruct saved as [[[af' rf'] folder']|]; [| inversion H].
  destruct (truthy af' && truthy rf'); [| inversion H].
  apply bind_ret_inv in H. destruct H as [lf' [s2 [Hllm H]]].
  apply bind_ret_inv in H. destruct H as [ef' [s3 [Hem H]]].
  unfold ret in H. inversion H; subst. clear H.
  destruct (save_analysis_paths _ _ _ _ _ _ _ _ _ _ Hsave Hraw)
    as [Hts [Haf [Hrf [Hdir [Hfa Hfr]]]]].
  unfold Utils.save_llm_input in Hllm.
  apply bind_ret_inv in Hllm. destruct Hllm as [gen [sa [Hnow Hllm]]].
  apply now_ret_inv in Hnow. destruct Hnow as [_ Hsa].
  apply bind_ret_inv in Hllm. destruct Hllm as [u [sb [Hw Hllm]]].
  apply write_file_ret_inv in Hw. unfold ret in Hllm.
  inversion Hllm as [[Hlf Hsb]]. clear Hllm.
  assert (Hs2 : dirs s2 = dirs s1
                /\ file_exists (path_join folder "llm_input.txt") s2 = true
                /\ forall q, file_exists q s1 = true ->
                             file_exists q s2 = true).
  { rewrite <- Hsb, Hw, Hsa. split; [reflexivity |].
    split; [apply file_exists_put_same |].
    intros q Hq. apply file_exists_put. exact Hq. }
  destruct Hs2 as [Hd2 [Hl2 Hk2]].
  assert (Hs3 : dirs s' = dirs s2
                /\ (forall q, file_exists q s2 = true ->
                              file_exists q s' = true)
                /\ forall p, ef = Some p ->
                             p = path_join folder "emails.json"
                             /\ file_exists p s' = true).
  { destruct em as [[|m ms]|].
    - unfold ret in Hem. inversion Hem; subst.
      split; [reflexivity |]. split; [auto |]. intros p Hp. discriminate.
    - apply bind_ret_inv in Hem. destruct Hem as [f [sc [Hsv Hem]]].
      unfold ret in Hem. inversion Hem as [[Hef Hsc]]. clear Hem.
      unfold Utils.save_email_data in Hsv.
      apply bind_ret_inv in Hsv. destruct Hsv as [u' [sd [Hw' Hsv]]].
      apply write_file_ret_inv in Hw'. unfold ret in Hsv.
      inversion Hsv as [[Hf Hsd]]. clear Hsv.
      rewrite <- Hsc, <- Hsd, Hw'.
      split; [reflexivity |]. split.
      + intros q Hq. apply file_exists_put. exact Hq.
      + intros p Hp. inversion Hp; subst p.
        split; [reflexivity | apply file_exists_put_same].
    - unfold ret in Hem. inversion Hem; subst.
      split; [reflexivity |]. split; [auto |]. intros p Hp. discriminate. }
  destruct Hs3 as [Hd3 [Hk3 He3]].
  split; [exact Hts |]. split; [exact Haf |]. split; [exact Hrf |].
  split; [reflexivity |]. split; [exact He3 |].
  split; [rewrite Hd3, Hd2; exact Hdir |].
  split; [auto |]. split; auto.
Qed.

End PersistFacts.

Section RunFacts.
Import Py Run Spec Notion.
Variable W : World.

Lemma grows_bot_message (chat_id text : string) (mode : option string) :
  grows (Telegram.bot_message W chat_id text mode).
Proof.
  intro s. unfold Telegram.bot_message.
  destruct (bot_send_message W (tick s) chat_id text mode); simpl; auto.
Qed.

Lemma grows_bot_document (chat_id path caption : string) :
  grows (Telegram.bot_document W chat_id path caption).
Proof.
  intro s. unfold Telegram.bot_document.
  destruct (bot_send_document W (tick s) chat_id path caption); simpl; auto.
Qed.

Lemma grows_bot_audio (chat_id path caption title : string) :
  grows (Telegram.bot_audio W chat_id path caption title).
Proof.
  intro s. unfold Telegram.bot_audio.
  destruct (bot_send_audio W (tick s) chat_id path caption title);
    simpl; auto.
Qed.

Lemma grows_open_rb (path : string) : grows (Telegram.open_rb path).
Proof.
  intro s. unfold Telegram.open_rb.
  destruct (existsb _ (files s)); simpl; auto.
Qed.

Lemma grows_send_analysis_results (af : string) (cfg : list (string * Z))
  (tf : string) (n : nat) (audio : option string) :
  grows (Telegram.send_analysis_results W af cfg tf n audio).
Proof.
  pose proof grows_bot_message. pose proof grows_bot_document.
  pose proof grows_bot_audio. pose proof grows_open_rb.
  unfold Telegram.send_analysis_results.
  apply grows_bind.
  { unfold Telegram.send_telegram_message.
    destruct (negb _ || negb _); [auto with grows |].
    destruct (bot_new W _); auto 8 with grows. }
  intro b1. apply grows_bind.
  { unfold Telegram.send_telegram_document.
    apply grows_try_except; [| auto with grows].
    destruct (negb _ || negb _); auto 10 with grows. }
  intro b2. apply grows_bind; [| auto with grows].
  apply grows_if; [| auto with grows].
  unfold Telegram.send_telegram_audio.
  apply grows_try_except; [| auto with grows].
  destruct (negb _ || negb _); auto 10 with grows.
Qed.

Lemma grows_telegram_step (a : Workflow.Args) (af raw : string)
  (audio : option string) :
  grows (Workflow.telegram_step W a af raw audio).
Proof.
  unfold Workflow.telegram_step. apply grows_if; [| auto with grows].
  apply grows_bind; [apply grows_send_analysis_results | auto with grows].
Qed.

Lemma grows_generate_audio (model text voice : string)
  (tone : option string) (folder : string) :
  grows (Utils.generate_audio W model text voice tone folder).
Proof.
  unfold Utils.generate_audio.
  apply grows_bind; [auto with grows |]. intros _.
  apply grows_bind; [auto with grows |]. intro audio.
  apply grows_bind; [auto 6 with grows |]. intro out. auto 6 with grows.
Qed.

(** The narration step removes nothing, and a path it returns is the
    audio file of the run folder, which is there. *)
Lemma tts_step_file (a : Workflow.Args) (an folder : string)
  (audio : option string) (s s' : State) :
  Workflow.tts_step W a an folder s = (Ret audio, s') ->
  truthy folder = true ->
  (forall q, file_exists q s = true -> file_exists q s' = true)
  /\ (forall d, In d (dirs s) -> In d (dirs s'))
  /\ (forall p, audio = Some p ->
                Workflow.generate_tts a = true
                /\ p = path_join folder "audio.wav"
                /\ file_exists p s' = true).
Proof.
  intros H Hf.
  assert (G : grows (Workflow.tts_step W a an folder)).
  { unfold Workflow.tts_step. apply grows_if; [| auto with grows].
    apply grows_try_except; [| auto with grows].
    apply grows_bind; [apply grows_generate_audio | auto with grows]. }
  specialize (G s). rewrite H in G. cbn [snd] in G.
  destruct G as [G1 G2]. split; [exact G1 |]. split; [exact G2 |].
  intros p Hp. subst audio. unfold Workflow.tts_step in H.
  destruct (Workflow.generate_tts a) eqn:Eg; cbn [andb] in H;
    [| unfold ret in H; inversion H].
  destruct (Telegram.env_truthy (Workflow.tts_model a)
            && Telegram.env_truthy (Workflow.voice_name a));
    [| unfold ret in H; inversion H].
  unfold try_except in H.
  destruct (bind _ _ s) as [[r|e] s1] eqn:E;
    [| unfold ret in H; inversion H].
  inversion H; subst r s1. clear H.
  apply bind_ret_inv in E. destruct E as [path [s1 [E Hr]]].
  unfold ret in Hr. inversion Hr; subst path s1. clear Hr.
  unfold Utils.generate_audio in E. rewrite Hf in E.
  apply bind_ret_inv in E. destruct E as [u0 [sa [_ E]]].
  apply bind_ret_inv in E. destruct E as [pcm [sb [_ E]]].
  apply bind_ret_inv in E. destruct E as [out [sc [Ho E]]].
  unfold ret in Ho. inversion Ho; subst out sc. clear Ho.
  cbn [fst snd] in E.
  apply bind_ret_inv in E. destruct E as [u1 [sd [_ E]]].
  apply bind_ret_inv in E. destruct E as [u2 [se [Hw E]]].
  apply (write_file_ret_inv W) in Hw.
  unfold ret in E. inversion E as [[Hp Hs]]. clear E.
  split; [reflexivity |]. split; [reflexivity |].
  rewrite <- Hs, Hw. apply file_exists_put_same.
Qed.

(** The raw data of the fetch is never empty. *)
Lemma analysis_steps_raw (a : Workflow.Args) (s s' : State)
  (raw ec : string) (em : option (list Email)) (cc an : string) :
  Workflow.analysis_steps W a s = (Ret (raw, ec, em, cc, an), s') ->
  truthy raw = true.
Proof.
  intro H. unfold Workflow.analysis_steps in H.
  apply bind_ret_inv in H. destruct H as [[[[raw' ec'] em'] cc'] [s1 [Hg H]]].
  apply bind_ret_inv in H. destruct H as [an' [s2 [_ H]]].
  apply bind_ret_inv in H. destruct H as [u [s3 [_ H]]].
  unfold ret in H. inversion H; subst. clear H.
  unfold Workflow.gather_steps in Hg.
  apply bind_ret_inv in Hg. destruct Hg as [[full raw0] [sa [Hf Hg]]].
  apply bind_ret_inv in Hg. destruct Hg as [u0 [sb [_ Hg]]].
  apply bind_ret_inv in Hg. destruct Hg as [e0 [sc [_ Hg]]].
  unfold ret in Hg. inversion Hg; subst. clear Hg.
  cbn [snd].
  unfold Fetcher.fetch_all_reddit_data in Hf.
  apply bind_ret_inv in Hf. destruct Hf as [[texts links] [sd [_ Hf]]].
  cbn [snd] in Hf. destruct links; [inversion Hf |].
  apply bind_ret_inv in Hf. destruct Hf as [posts [se [_ Hf]]].
  unfold ret in Hf. inversion Hf. reflexivity.
Qed.

(** The steps of a run that returned a raw data path. *)
Lemma successful_run_steps (a : Workflow.Args) (s s' : State)
  (x rf : string) (audio ef olf : option string) :
  Workflow.run_complete_workflow W a s
  = (Ret (x, Some rf, audio, ef, olf), s') ->
  exists raw ec em cc an s1 folder lf s2 s3 s4 u,
    Workflow.analysis_steps W a s = (Ret (raw, ec, em, cc, an), s1)
    /\ Workflow.persist_steps W a raw ec em cc an s1
       = (Ret (x, rf, folder, ef, lf), s2)
    /\ olf = Some lf
    /\ Workflow.tts_step W a an folder s2 = (Ret audio, s3)
    /\ Workflow.telegram_step W a x raw audio s3 = (Ret u, s4)
    /\ s' = next_tick s4.
Proof.
  unfold Workflow.run_complete_workflow.
  destruct (Workflow.subreddit_config a);
    [unfold ret, Workflow.error_tuple; intro H; inversion H |].
  destruct (Utils.validate_environment W) as [v missing].
  destruct v; cbn [negb];
    [| unfold ret, Workflow.error_tuple; intro H; inversion H].
  unfold try_finally, try_except, call.
  destruct (Workflow.workflow_steps W a s) as [[r|e] s4] eqn:Es.
  - destruct (reddit_close W (tick s4)); intro H; inversion H; subst.
    clear H. unfold Workflow.workflow_steps in Es.
    apply bind_ret_inv in Es.
    destruct Es as [[[[[raw ec] em] cc] an] [s1 [Ha Es]]].
    apply bind_ret_inv in Es.
    destruct Es as [[[[[af rf'] folder] ef'] lf] [s2 [Hp Es]]].
    apply bind_ret_inv in Es. destruct Es as [audio' [s3 [Ht Es]]].
    apply bind_ret_inv in Es. destruct Es as [u [s5 [Hg Es]]].
    unfold ret in Es. inversion Es; subst. clear Es.
    exists raw, ec, em, cc, an, s1, folder, lf, s2, s3, s4, u.
    repeat split; assumption.
  - destruct (workflow_handler_result W a e s4) as [s5 [Hh _]].
    rewrite Hh. unfold Workflow.error_tuple.
    destruct (reddit_close W (tick s5)); intro H; inversion H.
Qed.

End RunFacts.

Section RunProperties.
Import Py Run Spec Notion.
Variable W : World.

(** X15.  Validation fails fast: with an empty mapping, or with a
    required environment variable unset, the orchestrator returns its
    error tuple and the state is exactly as before: no provider was
    called, nothing was written or sent.  The message names the unset
    variables, which are those of the four required ones that have no
    value. *)
Theorem validation_fails_fast (a : Workflow.Args) (s : State) :
  (Workflow.subreddit_config a = [] ->
   Workflow.run_complete_workflow W a s
   = (Ret (Workflow.error_tuple "❌ subreddit_config is empty"), s))
  /\ (Workflow.subreddit_config a <> [] ->
      fst (Utils.validate_environment W) = false ->
      Workflow.run_complete_workflow W a s
      = (Ret (Workflow.error_tuple
                ("Missing required environment variables: "
                 ++ join ", " (snd (Utils.validate_environment W)))), s))
  /\ (forall v,
        In v (snd (Utils.validate_environment W))
        <-> In v ["REDDIT_CLIENT_ID"; "REDDIT_CLIENT_SECRET";
                  "TELEGRAM_BOT_TOKEN"; "TELEGRAM_CHAT_ID"]
            /\ Telegram.env_truthy (getenv W v) = false)
  /\ (fst (Utils.validate_environment W) = true
      <-> snd (Utils.validate_environment W) = []).
Proof.
  split; [| split; [| split]].
  - intro H. unfold Workflow.run_complete_workflow. rewrite H. reflexivity.
  - intros Hn Hv. unfold Workflow.run_complete_workflow.
    destruct (Workflow.subreddit_config a); [congruence |].
    destruct (Utils.validate_environment W) as [v missing].
    cbn [fst snd] in *. subst v. reflexivity.
  - intro v. unfold Utils.validate_environment. cbn [snd].
    rewrite filter_In, negb_true_iff. reflexivity.
  - unfold Utils.validate_environment. cbn [fst snd].
    destruct (filter _ _); cbn [List.length Nat.eqb];
      split; intro H; try reflexivity; discriminate.
Qed.

(** X16.  The files of a run that returned paths: all the paths lie in
    one run folder under the outputs directory, named as the code names
    them; the folder is there when the run ends, and so is the file of
    every path returned. *)
Theorem returned_paths_are_files (a : Workflow.Args) (s s' : State)
  (x rf : string) (audio ef olf : option string) :
  Workflow.run_complete_workflow W a s
  = (Ret (x, Some rf, audio, ef, olf), s') ->
  exists ts folder,
    folder = path_join Utils.OUTPUTS_DIR ("run_" ++ ts)
    /\ In folder (dirs s')
    /\ x = path_join folder "analysis.txt"
    /\ rf = path_join folder "raw_data.txt"
    /\ olf = Some (path_join folder "llm_input.txt")
    /\ file_exists x s' = true
    /\ file_exists rf s' = true
    /\ file_exists (path_join folder "llm_input.txt") s' = true
    /\ (forall p, ef = Some p -> p = path_join folder "emails.json"
                                 /\ file_exists p s' = true)
    /\ (forall p, audio = Some p -> p = path_join folder "audio.wav"
                                    /\ file_exists p s' = true).
Proof.
  intro H.
  destruct (successful_run_steps W a s s' x rf audio ef olf H)
    as [raw [ec [em [cc [an [s1 [folder [lf [s2 [s3 [s4 [u
        [Ha [Hp [Hl [Ht [Hg Hs]]]]]]]]]]]]]]]]].
  pose proof (analysis_steps_raw W a s s1 raw ec em cc an Ha) as Hraw.
  destruct (persist_steps_files W a raw ec em cc an x rf folder lf ef s1 s2
              Hp Hraw)
    as [[ts Hts] [Hx [Hrf [Hlf [Hef [Hdir [Fx [Fr Fl]]]]]]]].
  assert (Hfolder : truthy folder = true) by (rewrite Hts; reflexivity).
  destruct (tts_step_file W a an folder audio s2 s3 Ht Hfolder)
    as [T1 [T2 T3]].
  pose proof (grows_telegram_step W a x raw audio s3) as G.
  rewrite Hg in G. cbn [snd] in G. destruct G as [G1 G2].
  assert (K : forall q, file_exists q s2 = true -> file_exists q s' = true).
  { intros q Hq. subst s'. unfold file_exists. cbn [files next_tick].
    apply G1, T1, Hq. }
  assert (K3 : forall q, file_exists q s3 = true -> file_exists q s' = true).
  { intros q Hq. subst s'. unfold file_exists. cbn [files next_tick].
    apply G1, Hq. }
  exists ts, folder. split; [exact Hts |]. split.
  { subst s'. cbn [dirs next_tick]. apply G2, T2, Hdir. }
  split; [exact Hx |]. split; [exact Hrf |].
  split; [rewrite Hl, Hlf; reflexivity |].
  split; [apply K, Fx |]. split; [apply K, Fr |].
  split; [rewrite <- Hlf; apply K, Fl |]. split.
  - intros p Hpe. destruct (Hef p Hpe) as [E F]. split; [exact E |].
    apply K, F.
  - intros p Hpa. destruct (T3 p Hpa) as [_ [E F]]. split; [exact E |].
    apply K3, F.
Qed.

(** X17.  Without the narration flag, or without a narration model or a
    voice, no run returns an audio path. *)
Theorem no_narration_no_audio (a : Workflow.Args) (s s' : State)
  (x : string) (orf audio ef olf : option string) :
  Workflow.generate_tts a = false
  \/ Telegram.env_truthy (Workflow.tts_model a) = false
  \/ Telegram.env_truthy (Workflow.voice_name a) = false ->
  Workflow.run_complete_workflow W a s
  = (Ret (x, orf, audio, ef, olf), s') ->
  audio = None.
Proof.
  intros Hoff H. destruct orf as [rf|].
  - destruct (successful_run_steps W a s s' x rf audio ef olf H)
      as [raw [ec [em [cc [an [s1 [folder [lf [s2 [s3 [s4 [u
          [_ [_ [_ [Ht _]]]]]]]]]]]]]]]].
    unfold Workflow.tts_step in Ht.
    assert (E : Workflow.generate_tts a
                && Telegram.env_truthy (Workflow.tts_model a)
                && Telegram.env_truthy (Workflow.voice_name a) = false).
    { destruct Hoff as [-> | [-> | ->]];
        [reflexivity | apply andb_false_iff; left; apply andb_false_r
                     | apply andb_false_r]. }
    rewrite E in Ht. unfold ret in Ht. inversion Ht. reflexivity.
  - revert H. unfold Workflow.run_complete_workflow.
    destruct (Workflow.subreddit_config a);
      [unfold ret, Workflow.error_tuple; intro H; inversion H; reflexivity |].
    destruct (Utils.validate_environment W) as [v missing].
    destruct v; cbn [negb];
      [| unfold ret, Workflow.error_tuple; intro H; inversion H;
         reflexivity].
    unfold try_finally, try_except, call.
    destruct (Workflow.workflow_steps W a s) as [[r|e] s4] eqn:Es.
    + pose proof Es as Hb. eapply workflow_steps_bundle in Hb.
      destruct Hb as [af [rf [au [ef' [lf [Hr _]]]]]]. subst r.
      destruct (reddit_close W (tick s4)); intro H; inversion H.
    + destruct (workflow_handler_result W a e s4) as [s5 [Hh _]].
      rewrite Hh. unfold Workflow.error_tuple.
      destruct (reddit_close W (tick s5)); intro H; inversion H.
      reflexivity.
Qed.

End RunProperties.

Section RunWitnesses.
Import Py Run Spec Notion.

(** X16 on the sample run in which every provider answers. *)
Lemma returned_paths_are_files_witness :
  file_exists "outputs/run_2025-01-01_07-00-00/audio.wav"
    (snd (Workflow.run_complete_workflow
            (Sample.world Sample.text120 true true)
            (Sample.args [("test", 2%Z)]) Sample.start))
  = true.
Proof.
  destruct (returned_paths_are_files
              (Sample.world Sample.text120 true true)
              (Sample.args [("test", 2%Z)]) Sample.start
              (snd (Workflow.run_complete_workflow
                      (Sample.world Sample.text120 true true)
                      (Sample.args [("test", 2%Z)]) Sample.start))
              "outputs/run_2025-01-01_07-00-00/analysis.txt"
              "outputs/run_2025-01-01_07-00-00/raw_data.txt"
              (Some "outputs/run_2025-01-01_07-00-00/audio.wav")
              None
              (Some "outputs/run_2025-01-01_07-00-00/llm_input.txt"))
    as [ts [folder [_ [_ [_ [_ [_ [_ [_ [_ [_ Ha]]]]]]]]]]].
  - vm_compute. reflexivity.
  - exact (proj2 (Ha _ eq_refl)).
Defined.

(** X17 on the sample run without the narration flag. *)
Lemma no_narration_no_audio_witness :
  match fst (Workflow.run_complete_workflow
               (Sample.world Sample.text120 true true)
               (Case.without_narration (Sample.args [("test", 2%Z)]))
               Sample.start) with
  | Ret (_, _, audio, _, _) => audio = None
  | Raise _ => False
  end.
Proof.
  destruct (Workflow.run_complete_workflow
              (Sample.world Sample.text120 true true)
              (Case.without_narration (Sample.args [("test", 2%Z)]))
              Sample.start)
    as [[[[[[x orf] audio] ef] olf]|e] s'] eqn:E; cbn [fst].
  - apply (no_narration_no_audio (Sample.world Sample.text120 true true)
             (Case.without_narration (Sample.args [("test", 2%Z)]))
             Sample.start s' x orf audio ef olf);
      [left; reflexivity | exact E].
  - vm_compute in E. discriminate.
Defined.

End RunWitnesses.

Section RunFailures.
Import Py Run Spec Notion.
Variable W : World.

(** After [save_analysis_to_file] has answered [None], the run folder it
    made is there: the folder named after the time read once the two
    output directories were made. *)
Lemma save_analysis_none_folder (an : string) (cfg : list (string * Z))
  (tf model raw : string) (s s' : State) :
  Utils.save_analysis_to_file W an cfg tf model raw s = (Ret None, s') ->
  In (path_join Utils.OUTPUTS_DIR
        ("run_" ++ strftime_now W (S (S (tick s))) "%Y-%m-%d_%H-%M-%S"))
     (dirs s').
Proof.
  intro H. unfold Utils.save_analysis_to_file in H.
  apply bind_ret_inv in H. destruct H as [u0 [sa [He H]]].
  unfold Utils.ensure_outputs_dir in He.
  apply bind_ret_inv in He. destruct He as [u [sx [M1 M2]]].
  apply (mkdir_ret_inv W) in M1. apply (mkdir_ret_inv W) in M2.
  assert (Hsa : tick sa = S (S (tick s))) by (rewrite M2, M1; reflexivity).
  apply bind_ret_inv in H. destruct H as [ts [sb [Hn H]]].
  apply (now_ret_inv W) in Hn. destruct Hn as [Hts Hsb].
  rewrite Hsa in Hts. rewrite <- Hts.
  apply bind_ret_inv in H. destruct H as [u1 [sc [Hmk H]]].
  apply (mkdir_ret_inv W) in Hmk.
  match type of H with
  | try_except_cls _ ?body ?h sc = _ =>
      assert (G : grows (try_except_cls OSError body h))
  end.
  { intro st. unfold try_except_cls.
    match goal with
    | |- context [bind ?m ?k st] =>
        assert (Gb : grows (bind m k)) by auto 10 with grows;
        specialize (Gb st); destruct (bind m k st) as [[r|e] s1]
    end; cbn [snd] in *; [exact Gb |].
    destruct (exn_class_eqb (exn_cls e) OSError); exact Gb. }
  specialize (G sc). rewrite H in G. cbn [snd] in G.
  apply (proj2 G). rewrite Hmk. apply add_dir_there.
Qed.

(** X18.  A run whose analysis file cannot be written gives no bundle and
    leaves behind the run folder it had made for the analysis, the folder
    named after the time read in this run.  The run returns the error
    "Failed to save analysis files" when the [close()] of the [finally]
    clause returns, and raises the exception of [close()] when it
    raises. *)
Theorem failed_save_leaves_run_folder (a : Workflow.Args) (s s1 s2 : State)
  (raw ec : string) (em : option (list Email)) (cc an : string) :
  accepted W a ->
  Workflow.analysis_steps W a s = (Ret (raw, ec, em, cc, an), s1) ->
  Utils.save_analysis_to_file W an (Workflow.subreddit_config a)
    (Workflow.time_filter a) (Workflow.model a) raw s1 = (Ret None, s2) ->
  exists s3,
    Workflow.run_complete_workflow W a s
    = (match reddit_close W (tick s3) with
       | Ret _ =>
           Ret (Workflow.error_tuple
                  "Error during workflow: Failed to save analysis files")
       | Raise e' => Raise e'
       end, next_tick s3)
    /\ In (path_join Utils.OUTPUTS_DIR
             ("run_" ++ strftime_now W (S (S (tick s1)))
                          "%Y-%m-%d_%H-%M-%S"))
          (dirs (next_tick s3)).
Proof.
  intros Hacc Ha Hsave.
  pose proof (save_analysis_none_folder _ _ _ _ _ _ _ Hsave) as Hts.
  assert (Hs : Workflow.workflow_steps W a s
               = (Raise (Exn ValueError "Failed to save analysis files"),
                  s2)).
  { unfold Workflow.workflow_steps, bind. rewrite Ha.
    unfold Workflow.persist_steps, bind. rewrite Hsave. reflexivity. }
  destruct (workflow_handler_result W a
              (Exn ValueError "Failed to save analysis files") s2)
    as [s3 [Hh [Hd _]]].
  exists s3. split.
  - unfold Workflow.run_complete_workflow. destruct Hacc as [Hn Hv].
    destruct (Workflow.subreddit_config a); [congruence |].
    destruct (Utils.validate_environment W) as [v missing].
    cbn [fst] in Hv. subst v. cbn [negb].
    unfold try_finally, try_except, call. rewrite Hs, Hh.
    destruct (reddit_close W (tick s3)); reflexivity.
  - cbn [dirs next_tick]. rewrite Hd. exact Hts.
Qed.

(** X19.  A model name that starts with neither "gemini" nor "openai:"
    is refused after the forum data was fetched and before the provider
    is asked: the [try] block raises the error that names the model, no
    directory or file was made, and the run returns the error tuple of
    that error when the [close()] of the [finally] clause returns, and
    raises the exception of [close()] when it raises. *)
Theorem unsupported_model_is_refused (a : Workflow.Args) (s s1 : State)
  (raw ec : string) (em : option (list Email)) (cc : string) :
  accepted W a ->
  Workflow.gather_steps W a s = (Ret (raw, ec, em, cc), s1) ->
  prefix "gemini" (Workflow.model a) || prefix "openai:" (Workflow.model a)
  = false ->
  Workflow.analysis_steps W a s
  = (Raise (Exn ValueError
              ("Unsupported model: " ++ Workflow.model a
               ++ ". Use 'gemini-*' or 'openai:*'")), s1)
  /\ exists s2,
       Workflow.run_complete_workflow W a s
       = (match reddit_close W (tick s2) with
          | Ret _ =>
              Ret (Workflow.error_tuple
                     ("Error during workflow: Unsupported model: "
                      ++ Workflow.model a
                      ++ ". Use 'gemini-*' or 'openai:*'"))
          | Raise e' => Raise e'
          end, next_tick s2)
       /\ dirs (next_tick s2) = dirs s /\ files (next_tick s2) = files s.
Proof.
  intros Hacc Hg Hm.
  assert (Ha : Workflow.analysis_steps W a s
               = (Raise (Exn ValueError
                           ("Unsupported model: " ++ Workflow.model a
                            ++ ". Use 'gemini-*' or 'openai:*'")), s1)).
  { unfold Workflow.analysis_steps, bind. rewrite Hg.
    unfold Utils.analyze_reddit_data. rewrite Hm. reflexivity. }
  split; [exact Ha |].
  eapply early_raise_aborts in Ha; [| exact Hacc].
  exact Ha.
Qed.

(** X20.  The newsletter does not stop a run: when the flag is off, when
    a credential or the sender list is missing, when the mail provider
    raises or finds no message, the step returns no newsletter text and no
    message to export. *)
Theorem newsletter_degrades (a : Workflow.Args) (s : State) :
  (Workflow.fetch_emails a = false
   \/ Telegram.env_truthy (Workflow.email_address a) = false
   \/ Telegram.env_truthy (Workflow.email_password a) = false
   \/ Workflow.allowed_senders a = None
   \/ Workflow.allowed_senders a = Some [] ->
   Workflow.fetch_email_step W a s = (Ret ("", None), s))
  /\ (forall addr pw sender senders,
        Workflow.fetch_emails a = true ->
        Workflow.email_address a = Some addr -> truthy addr = true ->
        Workflow.email_password a = Some pw -> truthy pw = true ->
        Workflow.allowed_senders a = Some (sender :: senders) ->
        (exists e,
           mail_fetch W (tick s) addr pw (sender :: senders)
             (Workflow.email_hours_back a) (Workflow.max_emails a)
           = Raise e)
        \/ mail_fetch W (tick s) addr pw (sender :: senders)
             (Workflow.email_hours_back a) (Workflow.max_emails a) = Ret [] ->
        Workflow.fetch_email_step W a s = (Ret ("", None), next_tick s)).
Proof.
  split.
  - intro H. unfold Workflow.fetch_email_step.
    assert (E : Workflow.fetch_emails a
                && Telegram.env_truthy (Workflow.email_address a)
                && Telegram.env_truthy (Workflow.email_password a)
                && match Workflow.allowed_senders a with
                   | Some (_ :: _) => true
                   | _ => false
                   end = false).
    { destruct H as [-> | [-> | [-> | [-> | ->]]]];
        rewrite ?andb_false_r; reflexivity. }
    rewrite E. reflexivity.
  - intros addr pw sender senders Hf Ha Hta Hp Htp Hs Hm.
    unfold Workflow.fetch_email_step. rewrite Hf, Ha, Hp, Hs.
    cbn [Telegram.env_truthy Telegram.env_value andb]. rewrite Hta, Htp.
    cbn [andb]. unfold bind, Utils.fetch_emails. rewrite Hta, Htp.
    cbn [negb orb]. unfold try_except, call.
    destruct Hm as [[e ->] | ->]; reflexivity.
Qed.

End RunFailures.

Section RunFailureWitnesses.
Import Py Run Spec Notion.

(** X18 on the sample run on a full disk. *)
Lemma failed_save_leaves_run_folder_witness :
  exists s',
    Workflow.run_complete_workflow
      (Case.full_disk (Sample.world Sample.text120 true true))
      (Sample.args [("test", 2%Z)]) Sample.start
    = (Ret (Workflow.error_tuple
              "Error during workflow: Failed to save analysis files"), s')
    /\ In "outputs/run_2025-01-01_07-00-00" (dirs s').
Proof.
  edestruct (failed_save_leaves_run_folder
               (Case.full_disk (Sample.world Sample.text120 true true))
               (Sample.args [("test", 2%Z)]) Sample.start)
    as [s3 [Hr Hin]].
  - split; [discriminate | reflexivity].
  - lazy. reflexivity.
  - lazy. reflexivity.
  - exists (next_tick s3). split; [exact Hr | exact Hin].
Defined.

(** X19 on the sample run with a model of another provider. *)
Lemma unsupported_model_is_refused_witness :
  exists s',
    Workflow.run_complete_workflow (Sample.world Sample.text120 true true)
      (Case.with_model "llama-3" (Sample.args [("test", 2%Z)])) Sample.start
    = (Ret (Workflow.error_tuple
              "Error during workflow: Unsupported model: llama-3. Use 'gemini-*' or 'openai:*'"),
       s')
    /\ dirs s' = [] /\ files s' = [].
Proof.
  edestruct (unsupported_model_is_refused
               (Sample.world Sample.text120 true true)
               (Case.with_model "llama-3" (Sample.args [("test", 2%Z)]))
               Sample.start)
    as [_ [s2 [Hr [Hd Hf]]]].
  - split; [discriminate | reflexivity].
  - lazy. reflexivity.
  - reflexivity.
  - exists (next_tick s2). split; [exact Hr |]. split; assumption.
Defined.

(** X20 on the sample run with the newsletter on and the mail provider
    down. *)
Lemma newsletter_degrades_witness :
  Workflow.fetch_email_step
    (Case.mail_down (Sample.world Sample.text120 true true))
    (Case.with_newsletter (Sample.args [("test", 2%Z)])) Sample.start
  = (Ret ("", None), next_tick Sample.start).
Proof.
  apply (proj2 (newsletter_degrades
                  (Case.mail_down (Sample.world Sample.text120 true true))
                  (Case.with_newsletter (Sample.args [("test", 2%Z)]))
                  Sample.start)
           "reader@example.org" "secret" "news@example.org" []);
    try reflexivity.
  left. eexists. reflexivity.
Defined.

(** X15 on the sample run without the chat identifier. *)
Lemma validation_fails_fast_witness :
  Workflow.run_complete_workflow
    (Case.without_env "TELEGRAM_CHAT_ID"
       (Sample.world Sample.text120 true true))
    (Sample.args [("test", 2%Z)]) Sample.start
  = (Ret (Workflow.error_tuple
            "Missing required environment variables: TELEGRAM_CHAT_ID"),
     Sample.start).
Proof.
  apply (proj1 (proj2 (validation_fails_fast
                         (Case.without_env "TELEGRAM_CHAT_ID"
                            (Sample.world Sample.text120 true true))
                         (Sample.args [("test", 2%Z)]) Sample.start))).
  - discriminate.
  - reflexivity.
Defined.

End RunFailureWitnesses.

Section FiringReportWitness.
Import Py Json Schedule Spec Notion.

(** X11 on the sample schedule with a count that is no integer: the
    firing makes no call and reports the [ValueError] of [int]. *)
Lemma run_analysis_reports_exceptions_witness :
  calls (run_analysis Sample.quick_workflow Sample.quick_notification
           Case.schedule_bad_count Sample.at_seven) = []
  /\ notified (run_analysis Sample.quick_workflow Sample.quick_notification
                 Case.schedule_bad_count Sample.at_seven)
     = [(25200%Z, "invalid literal for int() with base 10: 'many'")].
Proof.
  pose proof (run_analysis_reports_exceptions unit Sample.quick_workflow
                Sample.quick_notification Case.schedule_bad_count
                Sample.at_seven) as [H1 [_ H3]].
  apply (H1 (Exn ValueError "invalid literal for int() with base 10: 'many'")).
  apply (H3 [(KStr "subreddit_config", PyStr "LocalLLaMA:10");
             (KStr "top_comments", PyStr "many")] "LocalLLaMA:10").
  - reflexivity.
  - reflexivity.
  - vm_compute. discriminate.
  - reflexivity.
Defined.

End FiringReportWitness.

(** ** The handlers of the schedule *)

Section AppSchedule.
Import Py Json Schedule Startup Spec Notion App.

Lemma config_of_native (boards tf : string) (tc rc : Z)
  (model sp up : string) :
  json_native (config_of boards tf tc rc model sp up) = true.
Proof. reflexivity. Qed.

(** [load_config] returns a dictionary. *)
Lemma load_config_dict (io : outcome unit) (self : SimpleScheduler)
  (disk : Disk) :
  exists d, fst (load_config io self disk) = PyDict d.
Proof.
  unfold load_config. destruct disk as [c|]; [| exists []; reflexivity].
  destruct io; [| exists []; reflexivity].
  destruct c as [j|]; [| exists []; reflexivity].
  destruct (decode j) as [ | b | z | t | l | l | d] eqn:E;
    try (exists []; reflexivity).
  destruct (assign_loaded self (PyDict d)) as [[u|e] self'];
    [exists d | exists []]; reflexivity.
Qed.

(** The [enabled] field after a load of a record. *)
Lemma load_config_enabled_off (loader : SimpleScheduler)
  (hr mi tz cf : pyval) :
  enabled (snd (load_config (Ret tt) loader
                  (Some (Document
                           (encode (record_of (PyBool false) hr mi tz cf))))))
  = PyBool false.
Proof.
  unfold load_config, record_of.
  set (v := decode _).
  assert (Hv : exists d, v = PyDict d
               /\ dict_get pykey_eqb (KStr "enabled") (PyBool false) d
                  = PyBool false).
  { eexists. split; reflexivity. }
  clearbody v. destruct Hv as [d [-> Hd]].
  unfold assign_loaded. cbn [enabled hour minute].
  destruct (fmt_02d_of _); [destruct (fmt_02d_of _) |];
    cbn [snd enabled]; exact Hd.
Qed.

(** X21.  What [enable_schedule] stores is what the next firing runs: when
    the board text has a valid board and the write succeeds, the firing of
    the scheduler calls the orchestrator with the boards parsed from the
    text, the filter, the limits, the model and the prompts given to
    [enable_schedule], and with the notification on; and a new process
    that loads the file has this scheduler and starts it. *)
Theorem enabled_schedule_is_what_runs
  (self loader : SimpleScheduler) (disk : Disk) (h m : Z)
  (tz boards tf : string) (tc rc : Z) (model sp up : string) :
  parse_subreddit_config boards <> [] ->
  exists scheduler disk',
    enable_schedule WriteOk self disk h m tz boards tf tc rc model sp up
    = (true, scheduler, disk')
    /\ workflow_args scheduler
       = Ret (Some {| subreddit_config := parse_subreddit_config boards;
                      time_filter := PyStr tf;
                      top_comments := tc;
                      replies_per_comment := rc;
                      model := PyStr model;
                      system_prompt := PyStr sp;
                      user_prompt := PyStr up;
                      send_to_telegram := true |})
    /\ initialize_scheduler (Ret tt) loader disk' = (scheduler, true).
Proof.
  intro Hb. unfold enable_schedule. rewrite save_config_written.
  eexists. eexists. split; [reflexivity |]. split.
  - unfold workflow_args, config_of. cbn [config dict_get pykey_eqb].
    cbn [String.eqb Ascii.eqb Bool.eqb].
    destruct (parse_subreddit_config boards) as [|b r]; [congruence |].
    reflexivity.
  - unfold initialize_scheduler, load_config, config_of.
    rewrite (decode_encode _
               (record_is_native true h m tz _
                  (config_of_native boards tf tc rc model sp up))).
    reflexivity.
Qed.

(** X22.  Disabling keeps the schedule: when the file holds the record of
    a valid schedule, [disable_schedule] raises nothing and leaves, in the
    scheduler and in the file, the same hour, minute, zone and
    configuration with the flag off. *)
Theorem disable_keeps_the_schedule (s self : SimpleScheduler) :
  valid_schedule s = true ->
  disable_schedule (Ret tt) WriteOk self
    (Some (Document (encode (record_of_schedule s))))
  = (Ret tt,
     {| enabled := PyBool false; hour := hour s; minute := minute s;
        timezone := timezone s; config := config s |},
     Some (Document
             (encode (record_of (PyBool false) (hour s) (minute s)
                        (timezone s) (config s))))).
Proof.
  intro Hv. unfold valid_schedule in Hv.
  destruct s as [en hr mi tz cf]. cbn [enabled hour minute timezone config] in *.
  destruct en as [ | b | | | | | ]; try discriminate.
  destruct hr as [ | | h | | | | ]; try discriminate.
  destruct mi as [ | | m | | | | ]; try discriminate.
  destruct tz as [ | | | z | | | ]; try discriminate.
  destruct cf as [ | | | | | | d]; try discriminate.
  apply andb_true_iff in Hv. destruct Hv as [_ Hn].
  unfold disable_schedule, load_config, record_of_schedule.
  cbn [enabled hour minute timezone config].
  rewrite (decode_encode _ (record_is_native b h m z d Hn)).
  reflexivity.
Qed.

(** X23.  Disabling is effective whatever the file holds: when there is a
    file and the write succeeds, [disable_schedule] raises nothing, the
    flag of the scheduler is off, and a new process that loads the file
    does not start the scheduler. *)
Theorem disable_schedule_is_effective
  (io_read : outcome unit) (self loader : SimpleScheduler)
  (c : file_content) :
  exists self' disk',
    disable_schedule io_read WriteOk self (Some c) = (Ret tt, self', disk')
    /\ enabled self' = PyBool false
    /\ snd (initialize_scheduler (Ret tt) loader disk') = false.
Proof.
  unfold disable_schedule.
  destruct (load_config_dict io_read self (Some c)) as [d Hd].
  destruct (load_config io_read self (Some c)) as [cfg self1].
  cbn [fst] in Hd. subst cfg. rewrite save_config_written.
  eexists. eexists. split; [reflexivity |]. split; [reflexivity |].
  unfold initialize_scheduler. cbn [snd].
  rewrite load_config_enabled_off. reflexivity.
Qed.

(** X24.  The two edges of disabling.  Without a file, nothing is
    written and the scheduler is left as it is, its flag included.  With
    a file that cannot be read (it cannot be opened, or holds no JSON
    document), the schedule is replaced, in the scheduler and in the
    file, by the default one with the flag off: 09:00, Etc/UTC, an empty
    configuration. *)
Theorem disable_schedule_edges
  (io_read : outcome unit) (io_write : write_outcome)
  (self : SimpleScheduler) :
  disable_schedule io_read io_write self None = (Ret tt, self, None)
  /\ (forall c,
        (exists e, io_read = Raise e) \/ c = Corrupt ->
        disable_schedule io_read WriteOk self (Some c)
        = (Ret tt,
           {| enabled := PyBool false; hour := PyInt 9; minute := PyInt 0;
              timezone := PyStr "Etc/UTC"; config := PyDict [] |},
           Some (Document
                   (encode (record_of (PyBool false) (PyInt 9) (PyInt 0)
                              (PyStr "Etc/UTC") (PyDict [])))))).
Proof.
  split; [reflexivity |].
  intros c H. unfold disable_schedule.
  rewrite (load_config_no_record io_read self (Some c)).
  - reflexivity.
  - destruct H as [H | ->]; [right; left; exact H | right; right; left].
    reflexivity.
Qed.

End AppSchedule.

Section AppScheduleWitnesses.
Import Py Json Schedule Startup Spec Notion App.

(** X21 on two boards. *)
Lemma enabled_schedule_is_what_runs_witness :
  exists scheduler disk',
    enable_schedule WriteOk init None 7 30 "Europe/Berlin"
      "LocalLLaMA:10, artificial:5" "day" 10 5 "gemini-2.5-pro" "system"
      "user"
    = (true, scheduler, disk')
    /\ workflow_args scheduler
       = Ret (Some {| subreddit_config :=
                        [("LocalLLaMA", 10%Z); ("artificial", 5%Z)];
                      time_filter := PyStr "day";
                      top_comments := 10;
                      replies_per_comment := 5;
                      model := PyStr "gemini-2.5-pro";
                      system_prompt := PyStr "system";
                      user_prompt := PyStr "user";
                      send_to_telegram := true |})
    /\ initialize_scheduler (Ret tt) init disk' = (scheduler, true).
Proof.
  apply (enabled_schedule_is_what_runs init init None 7 30 "Europe/Berlin"
           "LocalLLaMA:10, artificial:5" "day" 10 5 "gemini-2.5-pro"
           "system" "user").
  vm_compute. discriminate.
Defined.

(** X22 on the sample schedule. *)
Lemma disable_keeps_the_schedule_witness :
  disable_schedule (Ret tt) WriteOk init
    (Some (Document (encode (record_of_schedule Sample.schedule))))
  = (Ret tt,
     {| enabled := PyBool false; hour := PyInt 7; minute := PyInt 0;
        timezone := PyStr "Etc/UTC"; config := Sample.schedule_config |},
     Some (Document
             (encode (record_of (PyBool false) (PyInt 7) (PyInt 0)
                        (PyStr "Etc/UTC") Sample.schedule_config)))).
Proof.
  apply (disable_keeps_the_schedule Sample.schedule init). reflexivity.
Defined.

(** X24 on a file left empty by an interrupted write. *)
Lemma disable_schedule_edges_witness :
  disable_schedule (Ret tt) WriteOk Sample.schedule (Some Corrupt)
  = (Ret tt, {| enabled := PyBool false; hour := PyInt 9; minute := PyInt 0;
                timezone := PyStr "Etc/UTC"; config := PyDict [] |},
     Some (Document
             (encode (record_of (PyBool false) (PyInt 9) (PyInt 0)
                        (PyStr "Etc/UTC") (PyDict []))))).
Proof.
  apply (proj2 (disable_schedule_edges (Ret tt) WriteOk Sample.schedule)).
  right. reflexivity.
Defined.

End AppScheduleWitnesses.

(** ** The size of what is fetched *)

Section FetcherBounds.
Import Py Run Spec Notion Fetcher.
Variable W : World.

Lemma length_take (n : nat) (s : string) : (String.length (take n s) <= n)%nat.
Proof.
  revert s. induction n as [|n IH]; intros [|c r]; cbn [take String.length];
    try lia.
  specialize (IH r). lia.
Qed.

Lemma length_append (a b : string) :
  String.length (a ++ b) = (String.length a + String.length b)%nat.
Proof.
  induction a as [|c a IH]; cbn [append String.length Nat.add];
    [reflexivity | rewrite IH; reflexivity].
Qed.

Lemma slice_to_length {A : Type} (n : Z) (l : list A) :
  (0 <= n)%Z -> (List.length (slice_to n l) <= Z.to_nat n)%nat.
Proof.
  intro H. unfold slice_to.
  destruct (0 <=? n)%Z eqn:E; [apply firstn_le_length | lia].
Qed.

Lemma replies_data_of_length (l : list reply) :
  (List.length (replies_data_of l) <= List.length l)%nat.
Proof.
  induction l as [|[score body|] r IH]; cbn [replies_data_of List.length];
    lia.
Qed.

Lemma replies_data_of_text (l : list reply) :
  Forall (fun r => (String.length (snd r) <= 303)%nat) (replies_data_of l).
Proof.
  induction l as [|[score body|] r IH]; cbn [replies_data_of];
    [constructor | | exact IH].
  constructor; [| exact IH]. cbn [snd].
  pose proof (length_take 300 body).
  destruct (300 <? String.length body)%nat; [| lia].
  rewrite length_append. cbn [String.length]. lia.
Qed.

(** The entry of one comment, for limits that are not negative. *)
Lemma entry_of_comment_bounds (rc : Z) (c : comment) :
  (0 <= rc)%Z ->
  (String.length (ce_text (entry_of_comment (Z.min rc 5) c)) <= 503)%nat
  /\ (List.length (ce_replies (entry_of_comment (Z.min rc 5) c)) <= 5)%nat
  /\ (List.length (ce_replies (entry_of_comment (Z.min rc 5) c))
      <= Z.to_nat rc)%nat
  /\ Forall (fun r => (String.length (snd r) <= 303)%nat)
       (ce_replies (entry_of_comment (Z.min rc 5) c)).
Proof.
  intro Hrc. unfold entry_of_comment. cbn [ce_text ce_replies]. split.
  { pose proof (length_take 500 (c_body c)).
    destruct (500 <? String.length (c_body c))%nat; [| lia].
    rewrite length_append. cbn [String.length]. lia. }
  destruct (c_replies c) as [|r0 rs] eqn:E.
  { cbn [List.length]. repeat split; try lia. constructor. }
  pose proof (replies_data_of_length (top_replies (r0 :: rs) (Z.min rc 5)))
    as H1.
  assert (H2 : (List.length (top_replies (r0 :: rs) (Z.min rc 5))
                <= Z.to_nat (Z.min rc 5))%nat).
  { unfold top_replies. apply slice_to_length. lia. }
  repeat split; try lia. apply replies_data_of_text.
Qed.

(** X25.  The limits bound what [fetch_post_comments] lists.  For limits
    that are not negative and a post the provider returns, the text is
    that of at most 10 comments and at most as many as asked for; each
    comment is cut to 500 characters (503 with the ellipsis) and has at
    most 5 replies, at most as many as asked for, each cut to 300
    characters (303 with the ellipsis). *)
Theorem comment_listing_is_bounded (url : string) (tc rc : Z) (s : State)
  (sub : Submission) (comments : list comment) :
  reddit_submission W (tick s) url = Ret sub ->
  scored_comments (sub_comments sub) = Ret comments ->
  (0 <= tc)%Z -> (0 <= rc)%Z ->
  exists data,
    fetch_post_comments W url tc rc s
    = (Ret (format_submission url sub data), next_tick s)
    /\ (List.length data <= 10)%nat
    /\ (List.length data <= Z.to_nat tc)%nat
    /\ (List.length data <= List.length comments)%nat
    /\ Forall (fun c =>
                 (String.length (ce_text c) <= 503)%nat
                 /\ (List.length (ce_replies c) <= 5)%nat
                 /\ (List.length (ce_replies c) <= Z.to_nat rc)%nat
                 /\ Forall (fun r => (String.length (snd r) <= 303)%nat)
                      (ce_replies c)) data.
Proof.
  intros Hs Hc Htc Hrc.
  exists (comments_data comments (Z.min tc 10) (Z.min rc 5)). split.
  { unfold fetch_post_comments, try_except, bind, call, lift.
    rewrite Hs, Hc. reflexivity. }
  unfold comments_data, top_level_comments. rewrite length_map.
  assert (H1 : (List.length (slice_to (Z.min tc 10)
                               (sorted_reverse c_score comments))
                <= Z.to_nat (Z.min tc 10))%nat)
    by (apply slice_to_length; lia).
  assert (H2 : (List.length (slice_to (Z.min tc 10)
                               (sorted_reverse c_score comments))
                <= List.length comments)%nat).
  { unfold slice_to.
    assert (L : List.length (sorted_reverse c_score comments)
                = List.length comments).
    { unfold sorted_reverse. rewrite length_rev.
      unfold sort_asc.
      assert (G : forall (l acc : list comment),
                 List.length (fold_left
                                (fun acc x => insert_asc c_score x acc) l acc)
                 = (List.length l + List.length acc)%nat).
      { induction l as [|x l IH]; intro acc; cbn [fold_left List.length];
          [reflexivity |].
        rewrite IH.
        assert (I : List.length (insert_asc c_score x acc)
                    = S (List.length acc)).
        { induction acc as [|y acc IHa]; cbn [insert_asc List.length];
            [reflexivity |].
          destruct (c_score y <=? c_score x)%Z; cbn [List.length];
            [rewrite IHa |]; reflexivity. }
        rewrite I. lia. }
      rewrite G, length_rev. cbn [List.length]. lia. }
    destruct (0 <=? Z.min tc 10)%Z; rewrite length_firstn; lia. }
  repeat split; try lia.
  apply Forall_map. apply Forall_forall. intros c _.
  apply entry_of_comment_bounds. exact Hrc.
Qed.

(** [fetch_post_comments] returns a text and makes one call. *)
Lemma fetch_post_comments_step (url : string) (tc rc : Z) (s : State) :
  exists text, fetch_post_comments W url tc rc s = (Ret text, next_tick s).
Proof.
  unfold fetch_post_comments, try_except, bind, call, lift.
  destruct (reddit_submission W (tick s) url) as [sub|e];
    [| eexists; reflexivity].
  destruct (scored_comments (sub_comments sub)); eexists; reflexivity.
Qed.

(** One turn of the second loop of [fetch_all_reddit_data]. *)
Lemma fetch_posts_cons (link : string) (rest : list string) (tc rc : Z)
  (s : State) :
  fetch_posts W (link :: rest) tc rc s
  = match fetch_post_comments W link tc rc s with
    | (Ret text, s1) =>
        match (match rest with [] => ret tt | _ => sleep 1 end) s1 with
        | (Ret _, s2) =>
            match fetch_posts W rest tc rc s2 with
            | (Ret rs, s3) =>
                (Ret (text :: fst rs, raw_post_entry link text :: snd rs), s3)
            | (Raise e, s3) => (Raise e, s3)
            end
        | (Raise e, s2) => (Raise e, s2)
        end
    | (Raise e, s1) => (Raise e, s1)
    end.
Proof. reflexivity. Qed.

(** X26.  The second loop of [fetch_all_reddit_data] raises nothing and
    returns one text and one raw entry for every link, in the order of
    the links, the raw entry being the link followed by the text; it
    sleeps one second between two posts and none after the last; it
    writes no file and sends nothing. *)
Theorem posts_are_fetched_in_order (links : list string) (tc rc : Z)
  (s : State) :
  exists texts s',
    fetch_posts W links tc rc s
    = (Ret (texts,
            map (fun lt => raw_post_entry (fst lt) (snd lt))
                (combine links texts)), s')
    /\ List.length texts = List.length links
    /\ slept s' = (slept s + (List.length links - 1))%nat
    /\ dirs s' = dirs s /\ files s' = files s /\ chat s' = chat s.
Proof.
  revert s. induction links as [|link rest IH]; intro s.
  - exists [], s. cbn [fetch_posts combine map List.length].
    repeat split; lia.
  - rewrite fetch_posts_cons.
    destruct (fetch_post_comments_step link tc rc s) as [text Ht].
    rewrite Ht. destruct rest as [|link' rest'].
    + exists [text], (next_tick s). split; [reflexivity |].
      cbn [List.length slept dirs files chat next_tick].
      repeat split; lia.
    + set (st := snd (sleep 1 (next_tick s))).
      destruct (IH st) as [texts [s' [E [Hl [Hs [Hd [Hf Hc]]]]]]].
      exists (text :: texts), s'. split.
      { change (sleep 1 (next_tick s)) with (Ret tt, st).
        cbv iota beta. rewrite E. reflexivity. }
      subst st.
      cbn [List.length slept dirs files chat next_tick sleep snd] in *.
      repeat split; try assumption; lia.
Qed.

End FetcherBounds.

Section FetcherBoundsWitness.
Import Py Run Spec Notion Fetcher.

(** X25 on the sample post: two comments are asked for and listed, the
    first with at most one reply. *)
Lemma comment_listing_is_bounded_witness :
  exists data,
    fetch_post_comments (Sample.world Sample.text120 true true)
      "https://reddit.com/r/test/1" 2 1 Sample.start
    = (Ret (format_submission "https://reddit.com/r/test/1"
              Sample.a_submission data), next_tick Sample.start)
    /\ (List.length data <= 2)%nat
    /\ Forall (fun c => (List.length (ce_replies c) <= 1)%nat) data.
Proof.
  destruct (comment_listing_is_bounded
              (Sample.world Sample.text120 true true)
              "https://reddit.com/r/test/1" 2 1 Sample.start
              Sample.a_submission
              [{| c_score := 1; c_body := "first";
                  c_replies := [Reply 2 "r1"; MoreReplies; Reply 2 "r2";
                                Reply 7 "r3"] |};
               {| c_score := 3; c_body := "second"; c_replies := [] |}])
    as [data [E [_ [H2 [_ HF]]]]]; try reflexivity; try lia.
  exists data. split; [exact E |]. split; [exact H2 |].
  eapply Forall_impl; [| exact HF].
  intros c [_ [_ [H _]]]. exact H.
Defined.

End FetcherBoundsWitness.

(** ** What reaches the chat *)

Section ChatSends.
Import Py Run Spec Notion Telegram.
Variable W : World.

(** X27.  Without the bot token or the chat identifier nothing is sent:
    every sending function answers [False] and leaves the state as it is,
    so no provider is called and no file is opened. *)
Theorem missing_credentials_send_nothing (s : State) :
  env_truthy (getenv W "TELEGRAM_BOT_TOKEN") = false
  \/ env_truthy (getenv W "TELEGRAM_CHAT_ID") = false ->
  (forall message parse_mode,
     send_telegram_message W message parse_mode s = (Ret false, s))
  /\ (forall file_path caption,
        send_telegram_document W file_path caption s = (Ret false, s))
  /\ (forall file_path caption,
        send_telegram_audio W file_path caption s = (Ret false, s))
  /\ (forall analysis_file subreddit_config time_filter num_posts audio_file,
        send_analysis_results W analysis_file subreddit_config time_filter
          num_posts audio_file s = (Ret false, s))
  /\ (forall error_message,
        send_error_notification W error_message s = (Ret false, s)).
Proof.
  intro H.
  assert (E : negb (env_truthy (getenv W "TELEGRAM_BOT_TOKEN"))
              || negb (env_truthy (getenv W "TELEGRAM_CHAT_ID")) = true).
  { destruct H as [-> | ->]; [reflexivity | apply orb_true_r]. }
  assert (Hm : forall message parse_mode,
             send_telegram_message W message parse_mode s = (Ret false, s)).
  { intros. unfold send_telegram_message. rewrite E. reflexivity. }
  assert (Hd : forall file_path caption,
             send_telegram_document W file_path caption s = (Ret false, s)).
  { intros. unfold send_telegram_document, try_except. rewrite E.
    reflexivity. }
  assert (Ha : forall file_path caption,
             send_telegram_audio W file_path caption s = (Ret false, s)).
  { intros. unfold send_telegram_audio, try_except. rewrite E.
    reflexivity. }
  split; [exact Hm |]. split; [exact Hd |]. split; [exact Ha |]. split.
  - intros. unfold send_analysis_results, bind. rewrite Hm, Hd.
    destruct (env_truthy audio_file); [rewrite Ha |]; reflexivity.
  - intro. unfold send_error_notification. apply Hm.
Qed.

(** X28.  The fallback of [send_telegram_message]: when the formatted
    message is refused, the message is sent once more as it was given,
    without the escapes and without a parse mode; the answer is [True]
    when this second send is accepted, and [False], with nothing in the
    chat, when it is refused too. *)
Theorem plain_text_fallback (message : string) (s : State) (e : exn) :
  env_truthy (getenv W "TELEGRAM_BOT_TOKEN") = true ->
  env_truthy (getenv W "TELEGRAM_CHAT_ID") = true ->
  bot_new W (env_value (getenv W "TELEGRAM_BOT_TOKEN")) = Ret tt ->
  bot_send_message W (tick s) (env_value (getenv W "TELEGRAM_CHAT_ID"))
    (escape_markdown message) (Some "Markdown") = Raise e ->
  send_telegram_message W message (Some "Markdown") s
  = match bot_send_message W (S (tick s))
            (env_value (getenv W "TELEGRAM_CHAT_ID")) message None with
    | Ret _ =>
        (Ret true, post (TgMessage message None) (next_tick (next_tick s)))
    | Raise _ => (Ret false, next_tick (next_tick s))
    end.
Proof.
  intros Ht Hc Hb Hs. unfold send_telegram_message.
  rewrite Ht, Hc, Hb. cbn [negb orb].
  unfold try_except, bind, bot_message. rewrite Hs.
  cbn [tick next_tick].
  destruct (bot_send_message W (S (tick s)) _ message None); reflexivity.
Qed.

(** X29.  A file that is not there is not sent: the document and the
    audio functions answer [False] and leave the state as it is. *)
Theorem missing_file_is_not_sent (file_path caption : string) (s : State) :
  file_exists file_path s = false ->
  send_telegram_document W file_path caption s = (Ret false, s)
  /\ send_telegram_audio W file_path caption s = (Ret false, s).
Proof.
  intro H. unfold file_exists in H.
  unfold send_telegram_document, send_telegram_audio, try_except.
  destruct (negb _ || negb _); [split; reflexivity |].
  unfold bind, lift, open_rb.
  destruct (bot_new W _); rewrite ?H; split; reflexivity.
Qed.

(** A formatted message that was answered [True] is in the chat, as it
    was formatted or as it was given. *)
Lemma send_markdown_true (message : string) (s s1 : State) :
  send_telegram_message W message (Some "Markdown") s = (Ret true, s1) ->
  files s1 = files s
  /\ exists text mode,
       chat s1 = (chat s ++ [TgMessage text mode])%list
       /\ ((text = escape_markdown message /\ mode = Some "Markdown")
           \/ (text = message /\ mode = None)).
Proof.
  unfold send_telegram_message.
  destruct (negb _ || negb _); [discriminate |].
  destruct (bot_new W _); [| discriminate].
  unfold try_except, bind, bot_message, ret.
  destruct (bot_send_message W (tick s) _ _ (Some "Markdown")).
  - intro H. inversion H. split; [reflexivity |].
    eexists. eexists. split; [reflexivity |]. left. split; reflexivity.
  - destruct (bot_send_message W (tick (next_tick s)) _ message None);
      [| discriminate].
    intro H. inversion H. split; [reflexivity |].
    eexists. eexists. split; [reflexivity |]. right. split; reflexivity.
Qed.

(** The message function raises nothing, and leaves the files. *)
Lemma send_telegram_message_answer (message : string)
  (parse_mode : option string) (s : State) :
  exists b s1,
    send_telegram_message W message parse_mode s = (Ret b, s1)
    /\ files s1 = files s.
Proof.
  unfold send_telegram_message.
  destruct (negb _ || negb _); [eexists; eexists; split; reflexivity |].
  destruct (bot_new W _); [| eexists; eexists; split; reflexivity].
  unfold try_except, bind, bot_message, ret.
  destruct (bot_send_message W (tick s) _ _ parse_mode);
    [eexists; eexists; split; reflexivity |].
  destruct (bot_send_message W (tick (next_tick s)) _ message None);
    eexists; eexists; split; reflexivity.
Qed.

(** A document that was answered [True] was there and is in the chat. *)
Lemma send_telegram_document_true (file_path caption : string)
  (s s1 : State) :
  send_telegram_document W file_path caption s = (Ret true, s1) ->
  files s1 = files s
  /\ chat s1 = (chat s ++ [TgDocument file_path caption])%list
  /\ file_exists file_path s = true.
Proof.
  unfold send_telegram_document, try_except, file_exists.
  destruct (negb _ || negb _); [discriminate |].
  unfold bind, lift, open_rb, bot_document, ret.
  destruct (bot_new W _); [| discriminate].
  destruct (existsb _ (files s)); [| discriminate].
  destruct (bot_send_document W (tick s) _ file_path caption);
    [| discriminate].
  intro H. inversion H. repeat split; reflexivity.
Qed.

Lemma send_telegram_document_answer (file_path caption : string)
  (s : State) :
  exists b s1, send_telegram_document W file_path caption s = (Ret b, s1).
Proof.
  unfold send_telegram_document, try_except.
  destruct (_ s) as [[b|e] s1]; eexists; eexists; reflexivity.
Qed.

(** An audio file that was answered [True] was there and is in the
    chat. *)
Lemma send_telegram_audio_true (file_path caption : string) (s s1 : State) :
  send_telegram_audio W file_path caption s = (Ret true, s1) ->
  files s1 = files s
  /\ chat s1
     = (chat s ++ [TgAudio file_path caption "Reddit AI Analysis Audio"])%list
  /\ file_exists file_path s = true.
Proof.
  unfold send_telegram_audio, try_except, file_exists.
  destruct (negb _ || negb _); [discriminate |].
  unfold bind, lift, open_rb, bot_audio, ret.
  destruct (bot_new W _); [| discriminate].
  destruct (existsb _ (files s)); [| discriminate].
  destruct (bot_send_audio W (tick s) _ file_path caption _);
    [| discriminate].
  intro H. inversion H. repeat split; reflexivity.
Qed.

(** X30.  The answer [True] of [send_analysis_results] means that
    everything arrived: the chat received, in this order and nothing
    else, the message (with the Markdown escapes, or as plain text after
    the fallback), the analysis file, and the audio file when one was
    given; the files sent were there, and no file was changed. *)
Theorem true_answer_means_all_arrived (analysis_file : string)
  (subreddit_config : list (string * Z)) (time_filter : string)
  (num_posts : nat) (audio_file : option string) (s s' : State) :
  send_analysis_results W analysis_file subreddit_config time_filter
    num_posts audio_file s = (Ret true, s') ->
  exists text mode,
    chat s'
    = (chat s
       ++ [TgMessage text mode;
           TgDocument analysis_file "📄 Full AI Analysis Report"]
       ++ (if env_truthy audio_file
           then [TgAudio (env_value audio_file)
                   "🎙️ Audio Narration of Analysis"
                   "Reddit AI Analysis Audio"]
           else []))%list
    /\ ((text = escape_markdown
                  (results_message subreddit_config time_filter num_posts
                     audio_file)
         /\ mode = Some "Markdown")
        \/ (text = results_message subreddit_config time_filter num_posts
                     audio_file
            /\ mode = None))
    /\ file_exists analysis_file s = true
    /\ (env_truthy audio_file = true ->
        file_exists (env_value audio_file) s = true)
    /\ files s' = files s.
Proof.
  intro H. unfold send_analysis_results in H.
  apply bind_ret_inv in H. destruct H as [b1 [s1 [H1 H]]].
  apply bind_ret_inv in H. destruct H as [b2 [s2 [H2 H]]].
  apply bind_ret_inv in H. destruct H as [b3 [s3 [H3 H]]].
  unfold ret in H. inversion H as [[Hb Hs]]. subst s3.
  apply andb_true_iff in Hb. destruct Hb as [Hb Hb3].
  apply andb_true_iff in Hb. destruct Hb as [Hb1 Hb2]. subst b1 b2 b3.
  apply send_markdown_true in H1.
  destruct H1 as [F1 [text [mode [C1 Hm]]]].
  apply send_telegram_document_true in H2. destruct H2 as [F2 [C2 E2]].
  exists text, mode.
  assert (Ex : forall p, file_exists p s1 = file_exists p s)
    by (intro p; unfold file_exists; rewrite F1; reflexivity).
  assert (Ex2 : forall p, file_exists p s2 = file_exists p s)
    by (intro p; unfold file_exists; rewrite F2, F1; reflexivity).
  destruct (env_truthy audio_file) eqn:Ea.
  - apply send_telegram_audio_true in H3. destruct H3 as [F3 [C3 E3]].
    split.
    { rewrite C3, C2, C1. rewrite <- !app_assoc. reflexivity. }
    split; [exact Hm |]. split; [rewrite <- Ex; exact E2 |].
    split; [intros _; rewrite <- Ex2; exact E3 |].
    rewrite F3, F2, F1. reflexivity.
  - unfold ret in H3. inversion H3 as [Hs]. subst s'. split.
    { rewrite C2, C1. rewrite <- !app_assoc. rewrite app_nil_r.
      reflexivity. }
    split; [exact Hm |]. split; [rewrite <- Ex; exact E2 |].
    split; [discriminate |]. rewrite F2, F1. reflexivity.
Qed.

End ChatSends.

Section ChatSendsWitnesses.
Import Py Run Spec Notion Telegram.

(** X27 on the sample world without the bot token. *)
Lemma missing_credentials_send_nothing_witness :
  send_error_notification
    (Case.without_env "TELEGRAM_BOT_TOKEN"
       (Sample.world Sample.text120 true true))
    "provider down" Sample.start
  = (Ret false, Sample.start).
Proof.
  apply (missing_credentials_send_nothing
           (Case.without_env "TELEGRAM_BOT_TOKEN"
              (Sample.world Sample.text120 true true)) Sample.start).
  left. reflexivity.
Defined.

(** X28 on a chat that refuses formatted messages: the text arrives with
    its underscore, without a parse mode. *)
Lemma plain_text_fallback_witness :
  send_telegram_message
    (Case.plain_chat (Sample.world Sample.text120 true true))
    "top_comments" (Some "Markdown") Sample.start
  = (Ret true,
     {| tick := 2; dirs := []; files := [];
        chat := [TgMessage "top_comments" None]; slept := 0 |}).
Proof.
  apply (plain_text_fallback
           (Case.plain_chat (Sample.world Sample.text120 true true))
           "top_comments" Sample.start
           (Exn ProviderError "Can't parse entities"));
    reflexivity.
Defined.

(** X29 on the empty file system. *)
Lemma missing_file_is_not_sent_witness :
  send_telegram_document (Sample.world Sample.text120 true true)
    "outputs/analysis.txt" "report" Sample.start
  = (Ret false, Sample.start).
Proof.
  apply (missing_file_is_not_sent (Sample.world Sample.text120 true true)
           "outputs/analysis.txt" "report" Sample.start).
  reflexivity.
Defined.

(** X30 on a state with the analysis file and no audio. *)
Lemma true_answer_means_all_arrived_witness :
  exists text mode,
    chat (snd (send_analysis_results
                 (Sample.world Sample.text120 true true)
                 "outputs/analysis.txt" [("test", 2%Z)] "day" 1 None
                 Case.with_report))
    = [TgMessage text mode;
       TgDocument "outputs/analysis.txt" "📄 Full AI Analysis Report"].
Proof.
  destruct (true_answer_means_all_arrived
              (Sample.world Sample.text120 true true)
              "outputs/analysis.txt" [("test", 2%Z)] "day" 1 None
              Case.with_report
              (snd (send_analysis_results
                      (Sample.world Sample.text120 true true)
                      "outputs/analysis.txt" [("test", 2%Z)] "day" 1 None
                      Case.with_report)))
    as [text [mode [C _]]].
  - vm_compute. reflexivity.
  - exists text, mode. exact C.
Defined.

End ChatSendsWitnesses.
